(** * rvcodecjs: the instruction decoder (core/Decoder.js)

    A shallow embedding of the RISC-V instruction decoder: the bit-slice and
    immediate primitives, the per-opcode handlers of class [Decoder], and the
    assembly renderer.  Instruction words are kept as the source keeps them:
    binary text, most significant bit first. *)

From Stdlib Require Import ZArith String Ascii List Bool Lia.
From Stdlib Require DecimalString HexadecimalString.
Import ListNotations.
Open Scope string_scope.
Open Scope Z_scope.

(** ** Errors

    The source throws message strings (or, on [undefined.x], the engine throws
    a TypeError).  Each message is tagged by its kind. *)
Inductive error : Type :=
| InvalidOpcode     (* "Invalid opcode: ..." *)
| InvalidFunct      (* "Detected ... instruction but invalid funct.. field(s)" *)
| InvalidFence      (* "Invalid IO/Mem field" *)
| NonZeroReserved   (* "Registers rd and rs1 should be 0" *)
| ShiftOutOfRange   (* "... invalid shamt field for RV32I (out of range)" *)
| BadShtyp          (* "... shift instruction but invalid shtyp field" *)
| IsaMismatch       (* "Detected RV64x instruction but configuration ISA set to RV32I" *)
| MalformedField    (* "getBits: position error" *)
| TypeError.        (* property read on undefined, or a missing method *)

Inductive result (A : Type) : Type :=
| Ok (a : A)
| Throw (e : error).
Arguments Ok {A} a.
Arguments Throw {A} e.

Definition bind {A B} (r : result A) (k : A -> result B) : result B :=
  match r with
  | Ok a => k a
  | Throw e => Throw e
  end.

Notation "x <- r ;; k" := (bind r (fun x => k))
  (at level 61, r at next level, right associativity).

(** ** JavaScript values and built-ins used by the decoder *)

Inductive jsnum : Type :=
| Num (z : Z)
| NaN.

(** What a fragment's [asm] slot can hold: a mnemonic or register name, the
    number returned by [decImm], or [undefined]. *)
Inductive jsval : Type :=
| JUndefined
| JString (s : string)
| JNumber (n : jsnum).

Definition is_bit (c : ascii) : bool := (c =? "0")%char || (c =? "1")%char.

Fixpoint is_bin (s : string) : bool :=
  match s with
  | EmptyString => true
  | String c s' => is_bit c && is_bin s'
  end.

(** [parseInt(s, 2)] on a slice of the instruction text: the longest prefix of
    binary digits, [NaN] when there is none.  (Leading white space and a sign,
    which [parseInt] also accepts, do not occur in binary text.) *)
Fixpoint parse_digits (s : string) (acc : Z) : Z :=
  match s with
  | String c s' =>
      if (c =? "0")%char then parse_digits s' (2 * acc)
      else if (c =? "1")%char then parse_digits s' (2 * acc + 1)
      else acc
  | EmptyString => acc
  end.

Definition parseInt (s : string) : jsnum :=
  match s with
  | String c _ => if is_bit c then Num (parse_digits s 0) else NaN
  | EmptyString => NaN
  end.

(** ToInt32, and [a << n] on it: the count is taken modulo 32. *)
Definition to_int32 (z : Z) : Z :=
  let m := z mod 2 ^ 32 in
  if m <? 2 ^ 31 then m else m - 2 ^ 32.

Definition js_shl (a n : Z) : Z := to_int32 (Z.shiftl a (n mod 32)).

Definition js_sub (a b : jsnum) : jsnum :=
  match a, b with
  | Num x, Num y => Num (x - y)
  | _, _ => NaN
  end.

(** Number to string, radix 10 and radix 16 (integers only). *)
Definition dec_string (z : Z) : string :=
  DecimalString.NilZero.string_of_int (Z.to_int z).

Definition hex_string (z : Z) : string :=
  if z <? 0
  then "-" ++ HexadecimalString.NilZero.string_of_uint (N.to_hex_uint (Z.to_N (- z)))
  else HexadecimalString.NilZero.string_of_uint (N.to_hex_uint (Z.to_N z)).

Definition num_toString (n : jsnum) : string :=
  match n with
  | Num z => dec_string z
  | NaN => "NaN"
  end.

Definition num_toString16 (n : jsnum) : string :=
  match n with
  | Num z => hex_string z
  | NaN => "NaN"
  end.

Definition toString (v : jsval) : string :=
  match v with
  | JUndefined => "undefined"
  | JString s => s
  | JNumber n => num_toString n
  end.

(** [s.substring(a, b)]: both indices are clamped to [0, length] and swapped
    when out of order. *)
Definition clamp (len z : Z) : Z := Z.max 0 (Z.min z len).

Definition js_substring (s : string) (a b : Z) : string :=
  let len := Z.of_nat (String.length s) in
  let a' := clamp len a in
  let b' := clamp len b in
  let lo := Z.min a' b' in
  let hi := Z.max a' b' in
  substring (Z.to_nat lo) (Z.to_nat (hi - lo)) s.

Fixpoint repeat_char (c : ascii) (n : nat) : string :=
  match n with
  | O => EmptyString
  | S n' => String c (repeat_char c n')
  end.

(** [s.padStart(n, c)] for a one-character pad. *)
Definition padStart (s : string) (n : nat) (c : ascii) : string :=
  repeat_char c (n - String.length s) ++ s.

(** White space stripped by [trim], within ASCII. *)
Definition is_space (c : ascii) : bool :=
  let n := nat_of_ascii c in
  ((9 <=? n)%nat && (n <=? 13)%nat) || (n =? 32)%nat.

Fixpoint trim_start (s : string) : string :=
  match s with
  | String c s' => if is_space c then trim_start s' else s
  | EmptyString => EmptyString
  end.

Fixpoint trim_end (s : string) : string :=
  match s with
  | String c s' =>
      match trim_end s' with
      | EmptyString => if is_space c then EmptyString else String c EmptyString
      | t => String c t
      end
  | EmptyString => EmptyString
  end.

Definition trim (s : string) : string := trim_end (trim_start s).

(** [/^imm/.test(s)] *)
Definition test_imm (s : string) : bool := prefix "imm" s.

(** [/^RV64.$/.test(s)]: the dot is any character but a line terminator. *)
Definition test_RV64 (s : string) : bool :=
  match s with
  | String "R" (String "V" (String "6" (String "4" (String c EmptyString)))) =>
      negb ((c =? "010")%char || (c =? "013")%char)
  | _ => false
  end.

(** [/^lr\.[wd]$/.test(s)] *)
Definition test_lr (s : string) : bool := (s =? "lr.w")%string || (s =? "lr.d")%string.

(** A JS object used as a lookup table, as the list of its bindings (keys
    are distinct); [lookup t key] is [t[key]], [None] for [undefined]. *)
Definition table (V : Type) : Type := list (string * V).

Fixpoint lookup {V} (t : table V) (key : string) : option V :=
  match t with
  | [] => None
  | (k, v) :: t' => if (k =? key)%string then Some v else lookup t' key
  end.

(** ** Constants (core/Constants.js, core/Config.js) *)

(** Modelled from the spec: the [FIELDS] descriptor table of Constants.js,
    which is not part of the sources at hand: one key per descriptor the
    decoder reads, and [FIELDS.<key>.pos], the pair (high bit, width), read
    off the per-format bit layouts (bit 0 is the least significant).  The
    descriptor names, [FIELDS.<key>.name], are left to [Imports] below. *)
Module FIELDS.
Inductive key : Type :=
| opcode | rd | funct3 | rs1 | rs2
| r_funct5 | r_funct7 | r_aq | r_rl | r_fp_fmt
| i_imm_11_0 | i_shtyp_11_6 | i_shtyp_11_5 | i_shtyp
| i_shamt_5 | i_shamt_5_0 | i_shamt
| i_funct12 | i_csr | i_imm_4_0 | i_fm | i_pred | i_succ
| s_imm_4_0 | s_imm_11_5
| b_imm_4_1 | b_imm_11 | b_imm_10_5 | b_imm_12
| u_imm_31_12
| j_imm_20 | j_imm_10_1 | j_imm_11 | j_imm_19_12.

Definition pos (k : key) : Z * Z :=
  match k with
  | opcode => (6, 7)
  | rd => (11, 5)
  | funct3 => (14, 3)
  | rs1 => (19, 5)
  | rs2 => (24, 5)
  | r_funct5 => (31, 5)
  | r_funct7 => (31, 7)
  | r_aq => (26, 1)
  | r_rl => (25, 1)
  | r_fp_fmt => (26, 2)
  | i_imm_11_0 => (31, 12)
  | i_shtyp_11_6 => (31, 6)
  | i_shtyp_11_5 => (31, 7)
  | i_shtyp => (30, 1)
  | i_shamt_5 => (25, 1)
  | i_shamt_5_0 => (25, 6)
  | i_shamt => (24, 5)
  | i_funct12 => (31, 12)
  | i_csr => (31, 12)
  | i_imm_4_0 => (19, 5)
  | i_fm => (31, 4)
  | i_pred => (27, 4)
  | i_succ => (23, 4)
  | s_imm_4_0 => (11, 5)
  | s_imm_11_5 => (31, 7)
  | b_imm_4_1 => (11, 4)
  | b_imm_11 => (7, 1)
  | b_imm_10_5 => (30, 6)
  | b_imm_12 => (31, 1)
  | u_imm_31_12 => (31, 20)
  | j_imm_20 => (31, 1)
  | j_imm_10_1 => (30, 10)
  | j_imm_11 => (20, 1)
  | j_imm_19_12 => (19, 8)
  end.
End FIELDS.

(** Modelled from the spec: the [OPCODE] table of Constants.js (not part of
    the sources at hand), the 7-bit major opcodes of the RISC-V base encoding
    as binary text. *)
Module OPCODE.
Definition LOAD      := "0000011".
Definition LOAD_FP   := "0000111".
Definition MISC_MEM  := "0001111".
Definition OP_IMM    := "0010011".
Definition AUIPC     := "0010111".
Definition OP_IMM_32 := "0011011".
Definition STORE     := "0100011".
Definition STORE_FP  := "0100111".
Definition AMO       := "0101111".
Definition OP        := "0110011".
Definition LUI       := "0110111".
Definition OP_32     := "0111011".
Definition MADD      := "1000011".
Definition MSUB      := "1000111".
Definition NMSUB     := "1001011".
Definition NMADD     := "1001111".
Definition OP_FP     := "1010011".
Definition BRANCH    := "1100011".
Definition JALR      := "1100111".
Definition JAL       := "1101111".
Definition SYSTEM    := "1110011".
End OPCODE.

(** Modelled from the spec: the configuration options of Config.js (not part
    of the sources at hand): the ISA profile and the ABI naming switch. *)
Inductive COPTS_ISA : Type := RV32I | RV64I.

Record Config : Type := { ISA_opt : COPTS_ISA; ABI : bool }.

(** Modelled from the spec: class [Frag] of Instruction.js (not part of the
    sources at hand), as its constructor is called here:
    [new Frag(asm, bits, field, mem = false)].  The derived [index] of the
    specification is not an argument of the constructor and is left out. *)
Module Frag.
Record t : Type := new { asm : jsval; bits : string; field : string; mem : bool }.
End Frag.

(** A dispatch-table entry is a mnemonic or a nested table of mnemonics. *)
Inductive Entry : Type :=
| Mne (m : string)
| Sub (t : table string).

(** The properties of an [ISA[mnemonic]] record that the decoder reads. *)
Record IsaInfo : Type :=
  { i_fmt : string; i_isa : string; i_funct3 : option string; i_rs2 : option string }.

(** Everything else the decoder imports and whose contents the sources at
    hand do not fix; the decoder is parametric in it. *)
Record Imports : Type :=
  { FIELDS_name : FIELDS.key -> string;
    ISA_OP : table string;
    ISA_OP_32 : table string;
    ISA_LOAD : table string;
    ISA_STORE : table string;
    ISA_OP_IMM : table Entry;
    ISA_OP_IMM_32 : table Entry;
    ISA_BRANCH : table string;
    ISA_MISC_MEM : table string;
    ISA_SYSTEM : table Entry;
    ISA_AMO : table string;
    ISA_LOAD_FP : table string;
    ISA_STORE_FP : table string;
    ISA_OP_FP : table (table Entry);
    ISA_MADD : table string;
    ISA_MSUB : table string;
    ISA_NMADD : table string;
    ISA_NMSUB : table string;
    ISA : table IsaInfo;
    CSR : list (string * Z);
    convertRegToAbi : jsval -> jsval }.

(** ** Module-level helpers of Decoder.js *)

(** Get bits out of binary instruction. *)
Definition getBits (binary : string) (p : Z * Z) : result string :=
  let end_ := fst p + 1 in
  let start := end_ - snd p in
  let len := Z.of_nat (String.length binary) in
  if (start >? end_) || (len <? end_) then Throw MalformedField
  else Ok (js_substring binary (len - end_) (len - start)).

Definition first_is_1 (s : string) : bool :=
  match s with
  | String c _ => (c =? "1")%char
  | EmptyString => false
  end.

(** Parse given immediate to decimal. *)
Definition decImm (immediate : string) (signExtend : bool) : jsnum :=
  if signExtend && first_is_1 immediate
  then js_sub (parseInt immediate)
              (Num (js_shl 1 (Z.of_nat (String.length immediate))))
  else parseInt immediate.

(** Convert register numbers from binary to string. *)
Definition decReg (reg : string) (floatReg : bool) : string :=
  (if floatReg then "f" else "x") ++ num_toString (parseInt reg).

(** Get device I/O and memory accesses corresponding to given bits. *)
Definition access : list string := ["i"; "o"; "r"; "w"].

Fixpoint decMem_loop (bits : string) (i : nat) (output : string) : string :=
  match bits with
  | EmptyString => output
  | String c bits' =>
      decMem_loop bits' (S i)
        (if (c =? "1")%char then output ++ nth i access "undefined" else output)
  end.

Definition decMem (bits : string) : result string :=
  let output := decMem_loop bits 0%nat "" in
  if (output =? "")%string then Throw InvalidFence else Ok output.

(** Search for CSR name from the given binary string. *)
Fixpoint find_csr (entries : list (string * Z)) (val : jsnum) : option string :=
  match entries with
  | [] => None
  | (name, v) :: rest =>
      match val with
      | Num z => if v =? z then Some name else find_csr rest val
      | NaN => find_csr rest val
      end
  end.

Definition decCSR (csr_table : list (string * Z)) (binStr : string) : string :=
  let val := parseInt binStr in
  match find_csr csr_table val with
  | Some name => name
  | None => "0x" ++ padStart (num_toString16 val) 3 "0"
  end.

(** Render assembly instruction. *)
Fixpoint renderAsm_loop (abiConv : option (jsval -> jsval))
    (prev : Frag.t) (frags : list Frag.t) (i : nat) (inst : string) : string :=
  match frags with
  | [] => inst
  | f :: rest =>
      let asm := match abiConv with
                 | Some conv => conv (Frag.asm f)
                 | None => Frag.asm f
                 end in
      let inst :=
        if (i =? 1)%nat then inst ++ " "
        else if negb (Frag.mem f) || negb (test_imm (Frag.field prev))
             then inst ++ ", "
             else inst in
      let inst :=
        if Frag.mem f then inst ++ "(" ++ toString asm ++ ")"
        else inst ++ toString asm in
      renderAsm_loop abiConv f rest (S i) inst
  end.

Definition renderAsm (conv : jsval -> jsval) (asmFrags : list Frag.t) (abi : bool)
  : result string :=
  match asmFrags with
  | [] => Throw TypeError
  | f0 :: rest =>
      match rest, Frag.asm f0 with
      | [], JString s => Ok (trim s)
      | [], _ => Throw TypeError
      | _, v =>
          Ok (trim (renderAsm_loop (if abi then Some conv else None)
                      f0 rest 1%nat (toString v)))
      end
  end.

(** ** Field extraction *)

Module RFields.
Record t : Type :=
  mk { rs2 : string; rs1 : string; funct3 : string; rd : string;
       funct5 : string; funct7 : string; aq : string; rl : string;
       fmt : string }.
End RFields.

Module IFields.
Record t : Type :=
  mk { imm : string; rs1 : string; funct3 : string; rd : string;
       shtyp : string; shamt : string; shamt_5 : string;
       funct12 : string; fm : string; pred : string; succ : string }.
End IFields.

Module SFields.
Record t : Type :=
  mk { imm_11_5 : string; rs2 : string; rs1 : string; funct3 : string;
       imm_4_0 : string }.
End SFields.

Module BFields.
Record t : Type :=
  mk { imm_12 : string; imm_10_5 : string; rs2 : string; rs1 : string;
       funct3 : string; imm_4_1 : string; imm_11 : string }.
End BFields.

(** Extract R-types fields from instruction. *)
Definition extractRFields (binary : string) : result RFields.t :=
  rs2 <- getBits binary (FIELDS.pos FIELDS.rs2) ;;
  rs1 <- getBits binary (FIELDS.pos FIELDS.rs1) ;;
  funct3 <- getBits binary (FIELDS.pos FIELDS.funct3) ;;
  rd <- getBits binary (FIELDS.pos FIELDS.rd) ;;
  funct5 <- getBits binary (FIELDS.pos FIELDS.r_funct5) ;;
  funct7 <- getBits binary (FIELDS.pos FIELDS.r_funct7) ;;
  aq <- getBits binary (FIELDS.pos FIELDS.r_aq) ;;
  rl <- getBits binary (FIELDS.pos FIELDS.r_rl) ;;
  fmt <- getBits binary (FIELDS.pos FIELDS.r_fp_fmt) ;;
  Ok (RFields.mk rs2 rs1 funct3 rd funct5 funct7 aq rl fmt).

(** Extract I-types fields from instruction. *)
Definition extractIFields (binary : string) : result IFields.t :=
  imm <- getBits binary (FIELDS.pos FIELDS.i_imm_11_0) ;;
  rs1 <- getBits binary (FIELDS.pos FIELDS.rs1) ;;
  funct3 <- getBits binary (FIELDS.pos FIELDS.funct3) ;;
  rd <- getBits binary (FIELDS.pos FIELDS.rd) ;;
  shtyp <- getBits binary (FIELDS.pos FIELDS.i_shtyp) ;;
  shamt <- getBits binary (FIELDS.pos FIELDS.i_shamt) ;;
  shamt_5 <- getBits binary (FIELDS.pos FIELDS.i_shamt_5) ;;
  funct12 <- getBits binary (FIELDS.pos FIELDS.i_funct12) ;;
  fm <- getBits binary (FIELDS.pos FIELDS.i_fm) ;;
  pred <- getBits binary (FIELDS.pos FIELDS.i_pred) ;;
  succ <- getBits binary (FIELDS.pos FIELDS.i_succ) ;;
  Ok (IFields.mk imm rs1 funct3 rd shtyp shamt shamt_5 funct12 fm pred succ).

(** Extract S-types fields from instruction. *)
Definition extractSFields (binary : string) : result SFields.t :=
  imm_11_5 <- getBits binary (FIELDS.pos FIELDS.s_imm_11_5) ;;
  rs2 <- getBits binary (FIELDS.pos FIELDS.rs2) ;;
  rs1 <- getBits binary (FIELDS.pos FIELDS.rs1) ;;
  funct3 <- getBits binary (FIELDS.pos FIELDS.funct3) ;;
  imm_4_0 <- getBits binary (FIELDS.pos FIELDS.s_imm_4_0) ;;
  Ok (SFields.mk imm_11_5 rs2 rs1 funct3 imm_4_0).

(** Extract B-types fields from instruction. *)
Definition extractBFields (binary : string) : result BFields.t :=
  imm_12 <- getBits binary (FIELDS.pos FIELDS.b_imm_12) ;;
  imm_10_5 <- getBits binary (FIELDS.pos FIELDS.b_imm_10_5) ;;
  rs2 <- getBits binary (FIELDS.pos FIELDS.rs2) ;;
  rs1 <- getBits binary (FIELDS.pos FIELDS.rs1) ;;
  funct3 <- getBits binary (FIELDS.pos FIELDS.funct3) ;;
  imm_4_1 <- getBits binary (FIELDS.pos FIELDS.b_imm_4_1) ;;
  imm_11 <- getBits binary (FIELDS.pos FIELDS.b_imm_11) ;;
  Ok (BFields.mk imm_12 imm_10_5 rs2 rs1 funct3 imm_4_1 imm_11).

(** [s[i] === c] *)
Definition char_is (s : string) (i : nat) (c : ascii) : bool :=
  match String.get i s with
  | Some c' => (c' =? c)%char
  | None => false
  end.

(** ** class Decoder

    The object under construction is threaded through the handlers; [mne] is
    [None] while (or where) the source leaves [this.#mne] undefined, and so
    are [asm], [isa] and [fmt] until they are assigned. *)
Module Decoder.

Record t : Type :=
  mk { asm : option string;
       isa : option string;
       fmt : option string;
       binFrags : list Frag.t;
       asmFrags : list Frag.t;
       bin : string;
       config : Config;
       mne : option string;
       opcode : string }.

Definition set_asm (d : t) (a : string) : t :=
  mk (Some a) (isa d) (fmt d) (binFrags d) (asmFrags d) (bin d) (config d) (mne d) (opcode d).
Definition set_isa (d : t) (i : string) : t :=
  mk (asm d) (Some i) (fmt d) (binFrags d) (asmFrags d) (bin d) (config d) (mne d) (opcode d).
Definition set_fmt (d : t) (f : string) : t :=
  mk (asm d) (isa d) (Some f) (binFrags d) (asmFrags d) (bin d) (config d) (mne d) (opcode d).
Definition set_mne (d : t) (m : option string) : t :=
  mk (asm d) (isa d) (fmt d) (binFrags d) (asmFrags d) (bin d) (config d) m (opcode d).
Definition set_opcode (d : t) (o : string) : t :=
  mk (asm d) (isa d) (fmt d) (binFrags d) (asmFrags d) (bin d) (config d) (mne d) o.
Definition push_binFrags (d : t) (fs : list Frag.t) : t :=
  mk (asm d) (isa d) (fmt d) (binFrags d ++ fs) (asmFrags d) (bin d) (config d) (mne d) (opcode d).
Definition push_asmFrags (d : t) (fs : list Frag.t) : t :=
  mk (asm d) (isa d) (fmt d) (binFrags d) (asmFrags d ++ fs) (bin d) (config d) (mne d) (opcode d).

(** The value of [this.#mne] as a fragment token. *)
Definition mne_val (m : option string) : jsval :=
  match m with
  | Some s => JString s
  | None => JUndefined
  end.

Section Handlers.
Variable I : Imports.

Let name (k : FIELDS.key) : string := FIELDS_name I k.

(** Decodes OP instructions. *)
Definition decodeOP (d : t) : result t :=
  fields <- extractRFields (bin d) ;;
  let funct7 := RFields.funct7 fields in
  let funct3 := RFields.funct3 fields in
  let rs2 := RFields.rs2 fields in
  let rs1 := RFields.rs1 fields in
  let rd := RFields.rd fields in
  let op_32 := (opcode d =? OPCODE.OP_32)%string in
  match (if op_32 then lookup (ISA_OP_32 I) (funct7 ++ funct3)
         else lookup (ISA_OP I) (funct7 ++ funct3)) with
  | None => Throw InvalidFunct
  | Some m =>
      let d := set_mne d (Some m) in
      let src1 := decReg rs1 false in
      let src2 := decReg rs2 false in
      let dest := decReg rd false in
      let f_opcode := Frag.new (JString m) (opcode d) (name FIELDS.opcode) false in
      let f_funct3 := Frag.new (JString m) funct3 (name FIELDS.funct3) false in
      let f_funct7 := Frag.new (JString m) funct7 (name FIELDS.r_funct7) false in
      let f_rd := Frag.new (JString dest) rd (name FIELDS.rd) false in
      let f_rs1 := Frag.new (JString src1) rs1 (name FIELDS.rs1) false in
      let f_rs2 := Frag.new (JString src2) rs2 (name FIELDS.rs2) false in
      let d := push_asmFrags d [f_opcode; f_rd; f_rs1; f_rs2] in
      let d := push_binFrags d [f_funct7; f_rs2; f_rs1; f_funct3; f_rd; f_opcode] in
      Ok d
  end.

(** Decodes OP-FP instructions. *)
Definition decodeOP_FP (d : t) : result t :=
  fields <- extractRFields (bin d) ;;
  let funct5 := RFields.funct5 fields in
  let funct3 := RFields.funct3 fields in
  let fmt := RFields.fmt fields in
  let rs2 := RFields.rs2 fields in
  let rs1 := RFields.rs1 fields in
  let rd := RFields.rd fields in
  (* ISA_OP_FP[funct5]?.[fmt] *)
  let entry := match lookup (ISA_OP_FP I) funct5 with
               | Some byFmt => lookup byFmt fmt
               | None => None
               end in
  let found := match entry with
               | Some (Mne m) => Some m
               | Some (Sub tbl) =>
                   match lookup tbl rs2 with
                   | Some m => Some m            (* fcvt: rs2 as lookup *)
                   | None => lookup tbl funct3   (* others: funct3 as lookup *)
                   end
               | None => None
               end in
  match found with
  | None => Throw InvalidFunct
  | Some m =>
      let d := set_mne d (Some m) in
      match lookup (ISA I) m with
      | None => Throw TypeError
      | Some inst =>
          let useRs2 := match i_rs2 inst with None => true | Some _ => false end in
          let '(floatRd, floatRs1) :=
            if char_is funct5 0 "1"
            then (if char_is funct5 3 "1" then (true, false) else (false, true))
            else (true, true) in
          let src1 := decReg rs1 floatRs1 in
          let src2 := decReg rs2 true in
          let dest := decReg rd floatRd in
          let useRm := match i_funct3 inst with None => true | Some _ => false end in
          let f_opcode := Frag.new (JString m) (opcode d) (name FIELDS.opcode) false in
          let f_funct3 := Frag.new (JString m) funct3
                            (if useRm then "rm" else name FIELDS.funct3) false in
          let f_funct5 := Frag.new (JString m) funct5 (name FIELDS.r_funct5) false in
          let f_fmt := Frag.new (JString m) fmt (name FIELDS.r_fp_fmt) false in
          let f_rd := Frag.new (JString dest) rd (name FIELDS.rd) false in
          let f_rs1 := Frag.new (JString src1) rs1 (name FIELDS.rs1) false in
          let f_rs2 := Frag.new (JString src2) rs2 (name FIELDS.rs2) false in
          let d := push_asmFrags d [f_opcode; f_rd; f_rs1] in
          let d := if useRs2 then push_asmFrags d [f_rs2] else d in
          let d := push_binFrags d
                     [f_funct5; f_fmt; f_rs2; f_rs1; f_funct3; f_rd; f_opcode] in
          Ok d
      end
  end.

(** Decodes JALR instructions. *)
Definition decodeJALR (d : t) : result t :=
  fields <- extractIFields (bin d) ;;
  let imm := IFields.imm fields in
  let rs1 := IFields.rs1 fields in
  let funct3 := IFields.funct3 fields in
  let rd := IFields.rd fields in
  let m := "jalr" in
  let d := set_mne d (Some m) in
  let base := decReg rs1 false in
  let dest := decReg rd false in
  let offset := decImm imm true in
  let f_opcode := Frag.new (JString m) (opcode d) (name FIELDS.opcode) false in
  let f_funct3 := Frag.new (JString m) funct3 (name FIELDS.funct3) false in
  let f_rd := Frag.new (JString dest) rd (name FIELDS.rd) false in
  let f_rs1 := Frag.new (JString base) rs1 (name FIELDS.rs1) false in
  let f_imm := Frag.new (JNumber offset) imm (name FIELDS.i_imm_11_0) false in
  let d := push_asmFrags d [f_opcode; f_rd; f_rs1; f_imm] in
  let d := push_binFrags d [f_imm; f_rs1; f_funct3; f_rd; f_opcode] in
  Ok d.

(** Decodes LOAD instructions. *)
Definition decodeLOAD (d : t) : result t :=
  fields <- extractIFields (bin d) ;;
  let imm := IFields.imm fields in
  let rs1 := IFields.rs1 fields in
  let funct3 := IFields.funct3 fields in
  let rd := IFields.rd fields in
  let floatInst := (opcode d =? OPCODE.LOAD_FP)%string in
  match (if floatInst then lookup (ISA_LOAD_FP I) funct3
         else lookup (ISA_LOAD I) funct3) with
  | None => Throw InvalidFunct
  | Some m =>
      let d := set_mne d (Some m) in
      let base := decReg rs1 false in
      let dest := decReg rd floatInst in
      let offset := decImm imm true in
      let f_opcode := Frag.new (JString m) (opcode d) (name FIELDS.opcode) false in
      let f_funct3 := Frag.new (JString m) funct3 (name FIELDS.funct3) false in
      let f_rd := Frag.new (JString dest) rd (name FIELDS.rd) false in
      let f_rs1 := Frag.new (JString base) rs1 (name FIELDS.rs1) true in
      let f_imm := Frag.new (JNumber offset) imm (name FIELDS.i_imm_11_0) false in
      let d := push_asmFrags d [f_opcode; f_rd; f_imm; f_rs1] in
      let d := push_binFrags d [f_imm; f_rs1; f_funct3; f_rd; f_opcode] in
      Ok d
  end.

(** Decodes OP_IMM instructions; [shamt_64] is the width decision taken
    inside its shift branch. *)
Definition shamt_64 (d : t) (op_imm_32 : bool) (shamt_5 : string) : bool :=
  negb op_imm_32 &&
  (match ISA_opt (config d) with RV64I => true | RV32I => false end
   || (shamt_5 =? "1")%string).

Definition decodeOP_IMM (d : t) : result t :=
  fields <- extractIFields (bin d) ;;
  let imm := IFields.imm fields in
  let rs1 := IFields.rs1 fields in
  let funct3 := IFields.funct3 fields in
  let rd := IFields.rd fields in
  let op_imm_32 := (opcode d =? OPCODE.OP_IMM_32)%string in
  match (if op_imm_32 then lookup (ISA_OP_IMM_32 I) funct3
         else lookup (ISA_OP_IMM I) funct3) with
  | None => Throw InvalidFunct
  | Some entry =>
      (* Shift instructions *)
      sm <- match entry with
            | Sub tbl => Ok (true, lookup tbl (IFields.shtyp fields))
            | Mne m =>
                match lookup (ISA I) "slli" with
                | None => Throw TypeError
                | Some slli =>
                    Ok (match i_funct3 slli with
                        | Some f => (funct3 =? f)%string
                        | None => false
                        end, Some m)
                end
            end ;;
      let shift := fst sm in
      let d := set_mne d (snd sm) in
      let m := mne_val (mne d) in
      let src := decReg rs1 false in
      let dest := decReg rd false in
      let f_opcode := Frag.new m (opcode d) (name FIELDS.opcode) false in
      let f_funct3 := Frag.new m funct3 (name FIELDS.funct3) false in
      let f_rd := Frag.new (JString dest) rd (name FIELDS.rd) false in
      let f_rs1 := Frag.new (JString src) rs1 (name FIELDS.rs1) false in
      df <-
        (if shift then
           let shtyp := IFields.shtyp fields in
           let shamt_4_0 := IFields.shamt fields in
           let shamt_5 := IFields.shamt_5 fields in
           let imm_11_6 := "0" ++ shtyp ++ "0000" in
           let imm_11_5 := imm_11_6 ++ "0" in
           let shamt_64 := shamt_64 d op_imm_32 shamt_5 in
           dff <-
             (if shamt_64 then
                let shamt_5_0 := shamt_5 ++ shamt_4_0 in
                let shamt := decImm shamt_5_0 false in
                match ISA_opt (config d) with
                | RV32I => Throw ShiftOutOfRange
                | RV64I =>
                    let f_imm := Frag.new (JNumber shamt) shamt_5_0
                                   (name FIELDS.i_shamt_5_0) false in
                    let f_shift := Frag.new m imm_11_6
                                     (name FIELDS.i_shtyp_11_6) false in
                    Ok (set_isa d "RV64I", f_imm, f_shift)
                end
              else
                let shamt := decImm shamt_4_0 false in
                let f_imm := Frag.new (JNumber shamt) shamt_4_0
                               (name FIELDS.i_shamt) false in
                let f_shift := Frag.new m imm_11_5
                                 (name FIELDS.i_shtyp_11_5) false in
                Ok (d, f_imm, f_shift)) ;;
           let '(d, f_imm, f_shift) := dff in
           if (negb shamt_64 && negb (imm_11_5 =? js_substring imm 0 7)%string)
              || (shamt_64 && negb (imm_11_6 =? js_substring imm 0 6)%string)
           then Throw BadShtyp
           else
             Ok (push_binFrags d
                   [f_shift; f_imm; f_rs1; f_funct3; f_rd; f_opcode], f_imm)
         else
           let imm := IFields.imm fields in
           let immediate := decImm imm true in
           let f_imm := Frag.new (JNumber immediate) imm
                          (name FIELDS.i_imm_11_0) false in
           Ok (push_binFrags d [f_imm; f_rs1; f_funct3; f_rd; f_opcode], f_imm)) ;;
      let '(d, f_imm) := df in
      Ok (push_asmFrags d [f_opcode; f_rd; f_rs1; f_imm])
  end.

(** Decode MISC_MEM instructions. *)
Definition decodeMISC_MEM (d : t) : result t :=
  fields <- extractIFields (bin d) ;;
  let imm := IFields.imm fields in
  let fm := IFields.fm fields in
  let pred := IFields.pred fields in
  let succ := IFields.succ fields in
  let rs1 := IFields.rs1 fields in
  let funct3 := IFields.funct3 fields in
  let rd := IFields.rd fields in
  match lookup (ISA_MISC_MEM I) funct3 with
  | None => Throw InvalidFunct
  | Some m =>
      let d := set_mne d (Some m) in
      if negb (rd =? "00000")%string || negb (rs1 =? "00000")%string
      then Throw NonZeroReserved
      else
        let f_opcode := Frag.new (JString m) (opcode d) (name FIELDS.opcode) false in
        let f_funct3 := Frag.new (JString m) funct3 (name FIELDS.funct3) false in
        let f_rd := Frag.new (JString m) rd (name FIELDS.rd) false in
        let f_rs1 := Frag.new (JString m) rs1 (name FIELDS.rs1) false in
        if (m =? "fence")%string then
          predecessor <- decMem pred ;;
          successor <- decMem succ ;;
          let f_fm := Frag.new (JString m) fm (name FIELDS.i_fm) false in
          let f_pred := Frag.new (JString predecessor) pred (name FIELDS.i_pred) false in
          let f_succ := Frag.new (JString successor) succ (name FIELDS.i_succ) false in
          let d := push_asmFrags d [f_opcode; f_pred; f_succ] in
          let d := push_binFrags d
                     [f_fm; f_pred; f_succ; f_rs1; f_funct3; f_rd; f_opcode] in
          Ok d
        else
          (* FENCE.I case *)
          let f_imm := Frag.new (JString m) imm (name FIELDS.i_imm_11_0) false in
          let d := push_asmFrags d [f_opcode] in
          let d := push_binFrags d [f_imm; f_rs1; f_funct3; f_rd; f_opcode] in
          Ok d
  end.

(** Decode SYSTEM instructions. *)
Definition decodeSYSTEM (d : t) : result t :=
  fields <- extractIFields (bin d) ;;
  let funct12 := IFields.imm fields in
  let rs1 := IFields.rs1 fields in
  let funct3 := IFields.funct3 fields in
  let rd := IFields.rd fields in
  match lookup (ISA_SYSTEM I) funct3 with
  | None => Throw InvalidFunct
  | Some (Sub tbl) =>
      (* Trap instructions - determine mnemonic from funct12 *)
      match lookup tbl funct12 with
      | None => Throw InvalidFunct
      | Some m =>
          let d := set_mne d (Some m) in
          if negb (rd =? "00000")%string || negb (rs1 =? "00000")%string
          then Throw NonZeroReserved
          else
            let f_opcode := Frag.new (JString m) (opcode d) (name FIELDS.opcode) false in
            let f_funct3 := Frag.new (JString m) funct3 (name FIELDS.funct3) false in
            let f_rd := Frag.new (JString m) rd (name FIELDS.rd) false in
            let f_rs1 := Frag.new (JString m) rs1 (name FIELDS.rs1) false in
            let f_funct12 := Frag.new (JString m) funct12 (name FIELDS.i_funct12) false in
            let d := push_asmFrags d [f_opcode] in
            let d := push_binFrags d [f_funct12; f_rs1; f_funct3; f_rd; f_opcode] in
            Ok d
      end
  | Some (Mne m) =>
      (* Zicsr instructions *)
      let d := set_mne d (Some m) in
      let f_opcode := Frag.new (JString m) (opcode d) (name FIELDS.opcode) false in
      let f_funct3 := Frag.new (JString m) funct3 (name FIELDS.funct3) false in
      let csrBin := funct12 in
      let dest := decReg rd false in
      let csr := decCSR (CSR I) csrBin in
      (* rs1 is a register or an immediate, by the high bit of funct3 *)
      let '(src, srcFieldName) :=
        if char_is funct3 0 "0"
        then (JString (decReg rs1 false), name FIELDS.rs1)
        else (JNumber (decImm rs1 false), name FIELDS.i_imm_4_0) in
      let f_rd := Frag.new (JString dest) rd (name FIELDS.rd) false in
      let f_csr := Frag.new (JString csr) csrBin (name FIELDS.i_csr) false in
      let f_rs1 := Frag.new src rs1 srcFieldName false in
      let d := push_asmFrags d [f_opcode; f_rd; f_csr; f_rs1] in
      let d := push_binFrags d [f_csr; f_rs1; f_funct3; f_rd; f_opcode] in
      Ok d
  end.

(** Decodes STORE instruction. *)
Definition decodeSTORE (d : t) : result t :=
  fields <- extractSFields (bin d) ;;
  let imm_11_5 := SFields.imm_11_5 fields in
  let rs2 := SFields.rs2 fields in
  let rs1 := SFields.rs1 fields in
  let funct3 := SFields.funct3 fields in
  let imm_4_0 := SFields.imm_4_0 fields in
  let imm := imm_11_5 ++ imm_4_0 in
  let floatInst := (opcode d =? OPCODE.STORE_FP)%string in
  match (if floatInst then lookup (ISA_STORE_FP I) funct3
         else lookup (ISA_STORE I) funct3) with
  | None => Throw InvalidFunct
  | Some m =>
      let d := set_mne d (Some m) in
      let offset := decImm imm true in
      let base := decReg rs1 false in
      let src := decReg rs2 floatInst in
      let f_opcode := Frag.new (JString m) (opcode d) (name FIELDS.opcode) false in
      let f_funct3 := Frag.new (JString m) funct3 (name FIELDS.funct3) false in
      let f_rs1 := Frag.new (JString base) rs1 (name FIELDS.rs1) true in
      let f_rs2 := Frag.new (JString src) rs2 (name FIELDS.rs2) false in
      let f_imm_4_0 := Frag.new (JNumber offset) imm_4_0 (name FIELDS.s_imm_4_0) false in
      let f_imm_11_5 := Frag.new (JNumber offset) imm_11_5 (name FIELDS.s_imm_11_5) false in
      let f_imm := Frag.new (JNumber offset) imm "imm" false in
      let d := push_asmFrags d [f_opcode; f_rs2; f_imm; f_rs1] in
      let d := push_binFrags d
                 [f_imm_11_5; f_rs2; f_rs1; f_funct3; f_imm_4_0; f_opcode] in
      Ok d
  end.

(** Decodes BRANCH instruction. *)
Definition decodeBRANCH (d : t) : result t :=
  fields <- extractBFields (bin d) ;;
  let imm_12 := BFields.imm_12 fields in
  let imm_10_5 := BFields.imm_10_5 fields in
  let rs2 := BFields.rs2 fields in
  let rs1 := BFields.rs1 fields in
  let funct3 := BFields.funct3 fields in
  let imm_4_1 := BFields.imm_4_1 fields in
  let imm_11 := BFields.imm_11 fields in
  (* Reconstitute immediate *)
  let imm := imm_12 ++ imm_11 ++ imm_10_5 ++ imm_4_1 ++ "0" in
  match lookup (ISA_BRANCH I) funct3 with
  | None => Throw InvalidFunct
  | Some m =>
      let d := set_mne d (Some m) in
      let offset := decImm imm true in
      let src2 := decReg rs2 false in
      let src1 := decReg rs1 false in
      let f_opcode := Frag.new (JString m) (opcode d) (name FIELDS.opcode) false in
      let f_funct3 := Frag.new (JString m) funct3 (name FIELDS.funct3) false in
      let f_rs1 := Frag.new (JString src1) rs1 (name FIELDS.rs1) false in
      let f_rs2 := Frag.new (JString src2) rs2 (name FIELDS.rs2) false in
      let f_imm_12 := Frag.new (JNumber offset) imm_12 (name FIELDS.b_imm_12) false in
      let f_imm_11 := Frag.new (JNumber offset) imm_11 (name FIELDS.b_imm_11) false in
      let f_imm_10_5 := Frag.new (JNumber offset) imm_10_5 (name FIELDS.b_imm_10_5) false in
      let f_imm_4_1 := Frag.new (JNumber offset) imm_4_1 (name FIELDS.b_imm_4_1) false in
      let f_imm := Frag.new (JNumber offset) imm "imm" false in
      let d := push_asmFrags d [f_opcode; f_rs1; f_rs2; f_imm] in
      let d := push_binFrags d
                 [f_imm_10_5; f_rs2; f_rs1; f_funct3; f_imm_4_1; f_opcode] in
      Ok d
  end.

(** Decodes U-type instruction. *)
Definition decodeUType (d : t) : result t :=
  imm <- getBits (bin d) (FIELDS.pos FIELDS.u_imm_31_12) ;;
  rd <- getBits (bin d) (FIELDS.pos FIELDS.rd) ;;
  let immediate := decImm imm true in
  let dest := decReg rd false in
  let m := if (opcode d =? OPCODE.AUIPC)%string then "auipc" else "lui" in
  let d := set_mne d (Some m) in
  let f_opcode := Frag.new (JString m) (opcode d) (name FIELDS.opcode) false in
  let f_imm := Frag.new (JNumber immediate) imm (name FIELDS.u_imm_31_12) false in
  let f_rd := Frag.new (JString dest) rd (name FIELDS.rd) false in
  let d := push_asmFrags d [f_opcode; f_rd; f_imm] in
  let d := push_binFrags d [f_imm; f_rd; f_opcode] in
  Ok d.

(** Decodes JAL instruction. *)
Definition decodeJAL (d : t) : result t :=
  imm_20 <- getBits (bin d) (FIELDS.pos FIELDS.j_imm_20) ;;
  imm_10_1 <- getBits (bin d) (FIELDS.pos FIELDS.j_imm_10_1) ;;
  imm_11 <- getBits (bin d) (FIELDS.pos FIELDS.j_imm_11) ;;
  imm_19_12 <- getBits (bin d) (FIELDS.pos FIELDS.j_imm_19_12) ;;
  rd <- getBits (bin d) (FIELDS.pos FIELDS.rd) ;;
  (* Reconstitute immediate *)
  let imm := imm_20 ++ imm_19_12 ++ imm_11 ++ imm_10_1 ++ "0" in
  let m := "jal" in
  let d := set_mne d (Some m) in
  let offset := decImm imm true in
  let dest := decReg rd false in
  let f_opcode := Frag.new (JString m) (opcode d) (name FIELDS.opcode) false in
  let f_rd := Frag.new (JString dest) rd (name FIELDS.rd) false in
  let f_imm_20 := Frag.new (JNumber offset) imm_20 (name FIELDS.j_imm_20) false in
  let f_imm_10_1 := Frag.new (JNumber offset) imm_10_1 (name FIELDS.j_imm_10_1) false in
  let f_imm_11 := Frag.new (JNumber offset) imm_11 (name FIELDS.j_imm_11) false in
  let f_imm_19_12 := Frag.new (JNumber offset) imm_19_12 (name FIELDS.j_imm_19_12) false in
  let f_imm := Frag.new (JNumber offset) imm "imm" false in
  let d := push_asmFrags d [f_opcode; f_rd; f_imm] in
  let d := push_binFrags d
             [f_imm_20; f_imm_10_1; f_imm_11; f_imm_19_12; f_rd; f_opcode] in
  Ok d.

(** Decodes AMO instruction. *)
Definition decodeAMO (d : t) : result t :=
  fields <- extractRFields (bin d) ;;
  let funct5 := RFields.funct5 fields in
  let aq := RFields.aq fields in
  let rl := RFields.rl fields in
  let rs2 := RFields.rs2 fields in
  let rs1 := RFields.rs1 fields in
  let funct3 := RFields.funct3 fields in
  let rd := RFields.rd fields in
  match lookup (ISA_AMO I) (funct5 ++ funct3) with
  | None => Throw InvalidFunct
  | Some m =>
      let d := set_mne d (Some m) in
      (* Check if 'lr' instruction *)
      let lr := test_lr m in
      let dest := decReg rd false in
      let addr := decReg rs1 false in
      let src := if lr then "n/a" else decReg rs2 false in
      let f_opcode := Frag.new (JString m) (opcode d) (name FIELDS.opcode) false in
      let f_rd := Frag.new (JString dest) rd (name FIELDS.rd) false in
      let f_funct3 := Frag.new (JString m) funct3 (name FIELDS.funct3) false in
      let f_rs1 := Frag.new (JString addr) rs1 (name FIELDS.rs1) true in
      let f_rs2 := Frag.new (JString src) rs2 (name FIELDS.rs2) false in
      let f_rl := Frag.new (JString m) rl (name FIELDS.r_rl) false in
      let f_aq := Frag.new (JString m) aq (name FIELDS.r_aq) false in
      let f_funct5 := Frag.new (JString m) funct5 (name FIELDS.r_funct5) false in
      let d := push_asmFrags d [f_opcode; f_rd] in
      let d := if negb lr then push_asmFrags d [f_rs2] else d in
      let d := push_asmFrags d [f_rs1] in
      let d := push_binFrags d
                 [f_funct5; f_aq; f_rl; f_rs2; f_rs1; f_funct3; f_rd; f_opcode] in
      Ok d
  end.

(** Decodes R4 instructions. *)
Definition decodeR4 (d : t) : result t :=
  fields <- extractRFields (bin d) ;;
  let rs3 := RFields.funct5 fields in
  let fmt := RFields.fmt fields in
  let rs2 := RFields.rs2 fields in
  let rs1 := RFields.rs1 fields in
  let rm := RFields.funct3 fields in
  let rd := RFields.rd fields in
  let found :=
    if (opcode d =? OPCODE.MADD)%string then lookup (ISA_MADD I) fmt
    else if (opcode d =? OPCODE.MSUB)%string then lookup (ISA_MSUB I) fmt
    else if (opcode d =? OPCODE.NMADD)%string then lookup (ISA_NMADD I) fmt
    else if (opcode d =? OPCODE.NMSUB)%string then lookup (ISA_NMSUB I) fmt
    else mne d in
  match found with
  | None => Throw InvalidFunct
  | Some m =>
      let d := set_mne d (Some m) in
      let src1 := decReg rs1 true in
      let src2 := decReg rs2 true in
      let src3 := decReg rs3 true in
      let dest := decReg rd true in
      let f_opcode := Frag.new (JString m) (opcode d) (name FIELDS.opcode) false in
      let f_fmt := Frag.new (JString m) fmt (name FIELDS.r_fp_fmt) false in
      let f_rm := Frag.new (JString m) rm "rm" false in
      let f_rd := Frag.new (JString dest) rd (name FIELDS.rd) false in
      let f_rs1 := Frag.new (JString src1) rs1 (name FIELDS.rs1) false in
      let f_rs2 := Frag.new (JString src2) rs2 (name FIELDS.rs2) false in
      let f_rs3 := Frag.new (JString src3) rs3 "rs3" false in
      let d := push_asmFrags d [f_opcode; f_rd; f_rs1; f_rs2; f_rs3] in
      let d := push_binFrags d [f_rs3; f_fmt; f_rs2; f_rs1; f_rm; f_rd; f_opcode] in
      Ok d
  end.

(** [op] is one of the [case] labels [l]. *)
Definition is_case (op : string) (l : list string) : bool :=
  existsb (String.eqb op) l.

(** Convert binary instruction to assembly, in three steps: the opcode
    is read, the [switch] on it runs one handler, and the format, the ISA
    and the assembly text are set. *)
Definition dispatch (d : t) : result t :=
  let op := opcode d in
  if is_case op [OPCODE.OP; OPCODE.OP_32] then decodeOP d
  else if is_case op [OPCODE.OP_FP] then decodeOP_FP d
  else if is_case op [OPCODE.AMO] then decodeAMO d
  else if is_case op [OPCODE.JALR] then decodeJALR d
  else if is_case op [OPCODE.LOAD; OPCODE.LOAD_FP] then decodeLOAD d
  else if is_case op [OPCODE.OP_IMM; OPCODE.OP_IMM_32] then decodeOP_IMM d
  else if is_case op [OPCODE.MISC_MEM] then decodeMISC_MEM d
  else if is_case op [OPCODE.SYSTEM] then decodeSYSTEM d
  else if is_case op [OPCODE.STORE; OPCODE.STORE_FP] then decodeSTORE d
  else if is_case op [OPCODE.BRANCH] then decodeBRANCH d
  else if is_case op [OPCODE.LUI; OPCODE.AUIPC] then decodeUType d
  else if is_case op [OPCODE.JAL] then decodeJAL d
  else if is_case op [OPCODE.MADD; OPCODE.MSUB; OPCODE.NMADD; OPCODE.NMSUB]
       then decodeR4 d
  else Throw InvalidOpcode.

Definition finish (d : t) : result t :=
  (* [typeof this.#mne === undefined] never holds: no throw there *)
  (* Set instruction's format and ISA *)
  match lookup (ISA I) (toString (mne_val (mne d))) with
  | None => Throw TypeError
  | Some inst =>
      let d := set_fmt d (i_fmt inst) in
      let isa' := match isa d with
                  | Some i => i
                  | None => i_isa inst
                  end in
      let d := set_isa d isa' in
      (* Detect mismatch between ISA and configuration *)
      if match ISA_opt (config d) with RV32I => true | RV64I => false end
         && test_RV64 isa'
      then Throw IsaMismatch
      else
        (* Render ASM instruction string *)
        a <- renderAsm (convertRegToAbi I) (asmFrags d) (ABI (config d)) ;;
        Ok (set_asm d a)
  end.

Definition convertBinToAsm (d : t) : result t :=
  (* Use opcode to determine instruction type *)
  op <- getBits (bin d) (FIELDS.pos FIELDS.opcode) ;;
  d <- dispatch (set_opcode d op) ;;
  finish d.

(** [new Decoder(bin, config)] *)
Definition constructor (bin_ : string) (config_ : Config) : result t :=
  convertBinToAsm (mk None None None [] [] bin_ config_ None "").

End Handlers.
End Decoder.

(** ** A concrete instance of the imports

    Modelled from the spec: the dispatch tables, the [ISA] records, the CSR
    names and [convertRegToAbi] (Constants.js and Instruction.js, not part of
    the sources at hand), for the mnemonics of the base ISA and for the
    extension instructions the specification names.  Descriptor names follow
    the labels of the per-format bit layouts.  The theorems below hold for
    every instance; this one serves to run the decoder on concrete words. *)
Module RV.

Definition FIELDS_name (k : FIELDS.key) : string :=
  match k with
  | FIELDS.opcode => "opcode"
  | FIELDS.rd => "rd"
  | FIELDS.funct3 => "funct3"
  | FIELDS.rs1 => "rs1"
  | FIELDS.rs2 => "rs2"
  | FIELDS.r_funct5 => "funct5"
  | FIELDS.r_funct7 => "funct7"
  | FIELDS.r_aq => "aq"
  | FIELDS.r_rl => "rl"
  | FIELDS.r_fp_fmt => "fmt"
  | FIELDS.i_imm_11_0 => "imm[11:0]"
  | FIELDS.i_shtyp_11_6 => "shtyp[11:6]"
  | FIELDS.i_shtyp_11_5 => "shtyp[11:5]"
  | FIELDS.i_shtyp => "shtyp"
  | FIELDS.i_shamt_5 => "shamt[5]"
  | FIELDS.i_shamt_5_0 => "shamt[5:0]"
  | FIELDS.i_shamt => "shamt[4:0]"
  | FIELDS.i_funct12 => "funct12"
  | FIELDS.i_csr => "csr"
  | FIELDS.i_imm_4_0 => "imm[4:0]"
  | FIELDS.i_fm => "fm"
  | FIELDS.i_pred => "pred"
  | FIELDS.i_succ => "succ"
  | FIELDS.s_imm_4_0 => "imm[4:0]"
  | FIELDS.s_imm_11_5 => "imm[11:5]"
  | FIELDS.b_imm_4_1 => "imm[4:1]"
  | FIELDS.b_imm_11 => "imm[11]"
  | FIELDS.b_imm_10_5 => "imm[10:5]"
  | FIELDS.b_imm_12 => "imm[12]"
  | FIELDS.u_imm_31_12 => "imm[31:12]"
  | FIELDS.j_imm_20 => "imm[20]"
  | FIELDS.j_imm_10_1 => "imm[10:1]"
  | FIELDS.j_imm_11 => "imm[11]"
  | FIELDS.j_imm_19_12 => "imm[19:12]"
  end.

Definition ISA_OP : table string :=
  [ ("0000000000", "add"); ("0100000000", "sub"); ("0000000001", "sll");
    ("0000000010", "slt"); ("0000000011", "sltu"); ("0000000100", "xor");
    ("0000000101", "srl"); ("0100000101", "sra"); ("0000000110", "or");
    ("0000000111", "and") ].

Definition ISA_OP_32 : table string :=
  [ ("0000000000", "addw"); ("0100000000", "subw"); ("0000000001", "sllw");
    ("0000000101", "srlw"); ("0100000101", "sraw") ].

Definition ISA_LOAD : table string :=
  [ ("000", "lb"); ("001", "lh"); ("010", "lw"); ("011", "ld");
    ("100", "lbu"); ("101", "lhu"); ("110", "lwu") ].

Definition ISA_STORE : table string :=
  [ ("000", "sb"); ("001", "sh"); ("010", "sw"); ("011", "sd") ].

Definition ISA_OP_IMM : table Entry :=
  [ ("000", Mne "addi"); ("010", Mne "slti"); ("011", Mne "sltiu");
    ("100", Mne "xori"); ("110", Mne "ori"); ("111", Mne "andi");
    ("001", Mne "slli"); ("101", Sub [("0", "srli"); ("1", "srai")]) ].

Definition ISA_OP_IMM_32 : table Entry :=
  [ ("000", Mne "addiw"); ("001", Mne "slliw");
    ("101", Sub [("0", "srliw"); ("1", "sraiw")]) ].

Definition ISA_BRANCH : table string :=
  [ ("000", "beq"); ("001", "bne"); ("100", "blt"); ("101", "bge");
    ("110", "bltu"); ("111", "bgeu") ].

Definition ISA_MISC_MEM : table string :=
  [ ("000", "fence"); ("001", "fence.i") ].

Definition ISA_SYSTEM : table Entry :=
  [ ("000", Sub [("000000000000", "ecall"); ("000000000001", "ebreak")]);
    ("001", Mne "csrrw"); ("010", Mne "csrrs"); ("011", Mne "csrrc");
    ("101", Mne "csrrwi"); ("110", Mne "csrrsi"); ("111", Mne "csrrci") ].

Definition ISA_AMO : table string :=
  [ ("00010010", "lr.w"); ("00011010", "sc.w"); ("00001010", "amoswap.w");
    ("00000010", "amoadd.w"); ("00010011", "lr.d"); ("00011011", "sc.d") ].

Definition ISA_LOAD_FP : table string := [ ("010", "flw"); ("011", "fld") ].
Definition ISA_STORE_FP : table string := [ ("010", "fsw"); ("011", "fsd") ].

Definition ISA_OP_FP : table (table Entry) :=
  [ ("00000", [("00", Mne "fadd.s"); ("01", Mne "fadd.d")]);
    ("00100", [("00", Sub [("000", "fsgnj.s"); ("001", "fsgnjn.s");
                           ("010", "fsgnjx.s")])]);
    ("11000", [("00", Sub [("00000", "fcvt.w.s"); ("00001", "fcvt.wu.s")])]);
    ("11010", [("00", Sub [("00000", "fcvt.s.w"); ("00001", "fcvt.s.wu")])]);
    ("11100", [("00", Sub [("000", "fmv.x.w"); ("001", "fclass.s")])]) ].

Definition ISA_MADD : table string := [ ("00", "fmadd.s"); ("01", "fmadd.d") ].
Definition ISA_MSUB : table string := [ ("00", "fmsub.s"); ("01", "fmsub.d") ].
Definition ISA_NMADD : table string := [ ("00", "fnmadd.s"); ("01", "fnmadd.d") ].
Definition ISA_NMSUB : table string := [ ("00", "fnmsub.s"); ("01", "fnmsub.d") ].

Definition info (fmt isa : string) (funct3 rs2 : option string) : IsaInfo :=
  {| i_fmt := fmt; i_isa := isa; i_funct3 := funct3; i_rs2 := rs2 |}.

(** The records of the mnemonics of a plain table, all of one format and
    ISA tag, [funct3] being the last three characters of the key. *)
Definition infos (fmt isa : string) (keyed3 : bool) (tbl : table string)
  : table IsaInfo :=
  map (fun kv : string * string =>
         let k := fst kv in
         (snd kv,
          info fmt isa
            (if keyed3
             then Some (substring (String.length k - 3) 3 k)
             else None)
            None)) tbl.

Definition ISA : table IsaInfo :=
  (infos "R-type" "RV32I" true ISA_OP
  ++ infos "R-type" "RV64I" true ISA_OP_32
  ++ infos "I-type" "RV32I" true
       [("000", "lb"); ("001", "lh"); ("010", "lw"); ("100", "lbu"); ("101", "lhu")]
  ++ infos "I-type" "RV64I" true [("011", "ld"); ("110", "lwu")]
  ++ infos "S-type" "RV32I" true [("000", "sb"); ("001", "sh"); ("010", "sw")]
  ++ infos "S-type" "RV64I" true [("011", "sd")]
  ++ infos "I-type" "RV32I" true
       [("000", "addi"); ("010", "slti"); ("011", "sltiu"); ("100", "xori");
        ("110", "ori"); ("111", "andi"); ("001", "slli"); ("101", "srli");
        ("101", "srai"); ("000", "jalr")]
  ++ infos "I-type" "RV64I" true
       [("000", "addiw"); ("001", "slliw"); ("101", "srliw"); ("101", "sraiw")]
  ++ infos "B-type" "RV32I" true ISA_BRANCH
  ++ infos "I-type" "RV32I" true [("000", "fence"); ("000", "ecall"); ("000", "ebreak")]
  ++ infos "I-type" "EXT_Zifencei" true [("001", "fence.i")]
  ++ infos "I-type" "EXT_Zicsr" true
       [("001", "csrrw"); ("010", "csrrs"); ("011", "csrrc");
        ("101", "csrrwi"); ("110", "csrrsi"); ("111", "csrrci")]
  ++ infos "R-type" "EXT_A" true ISA_AMO
  ++ infos "I-type" "EXT_F" true [("010", "flw")]
  ++ infos "I-type" "EXT_D" true [("011", "fld")]
  ++ infos "S-type" "EXT_F" true [("010", "fsw")]
  ++ infos "S-type" "EXT_D" true [("011", "fsd")]
  ++ [ ("fadd.s", info "R-type" "EXT_F" None None);
       ("fadd.d", info "R-type" "EXT_D" None None);
       ("fsgnj.s", info "R-type" "EXT_F" (Some "000") None);
       ("fsgnjn.s", info "R-type" "EXT_F" (Some "001") None);
       ("fsgnjx.s", info "R-type" "EXT_F" (Some "010") None);
       ("fcvt.w.s", info "R-type" "EXT_F" None (Some "00000"));
       ("fcvt.wu.s", info "R-type" "EXT_F" None (Some "00001"));
       ("fcvt.s.w", info "R-type" "EXT_F" None (Some "00000"));
       ("fcvt.s.wu", info "R-type" "EXT_F" None (Some "00001"));
       ("fmv.x.w", info "R-type" "EXT_F" (Some "000") (Some "00000"));
       ("fclass.s", info "R-type" "EXT_F" (Some "001") (Some "00000")) ]
  ++ infos "R4-type" "EXT_F" false
       [("00", "fmadd.s"); ("00", "fmsub.s"); ("00", "fnmadd.s"); ("00", "fnmsub.s")]
  ++ infos "R4-type" "EXT_D" false
       [("01", "fmadd.d"); ("01", "fmsub.d"); ("01", "fnmadd.d"); ("01", "fnmsub.d")]
  ++ [ ("lui", info "U-type" "RV32I" None None);
       ("auipc", info "U-type" "RV32I" None None);
       ("jal", info "J-type" "RV32I" None None) ])%list.

Definition CSR : list (string * Z) :=
  [ ("cycle", 0xC00); ("time", 0xC01); ("instret", 0xC02);
    ("mstatus", 0x300); ("misa", 0x301); ("mtvec", 0x305);
    ("mepc", 0x341); ("mcause", 0x342) ].

Definition abi_x : list string :=
  [ "zero"; "ra"; "sp"; "gp"; "tp"; "t0"; "t1"; "t2"; "s0"; "s1";
    "a0"; "a1"; "a2"; "a3"; "a4"; "a5"; "a6"; "a7";
    "s2"; "s3"; "s4"; "s5"; "s6"; "s7"; "s8"; "s9"; "s10"; "s11";
    "t3"; "t4"; "t5"; "t6" ].

Definition abi_f : list string :=
  [ "ft0"; "ft1"; "ft2"; "ft3"; "ft4"; "ft5"; "ft6"; "ft7"; "fs0"; "fs1";
    "fa0"; "fa1"; "fa2"; "fa3"; "fa4"; "fa5"; "fa6"; "fa7";
    "fs2"; "fs3"; "fs4"; "fs5"; "fs6"; "fs7"; "fs8"; "fs9"; "fs10"; "fs11";
    "ft8"; "ft9"; "ft10"; "ft11" ].

Fixpoint abi_of (pre : string) (names : list string) (n : nat) (s : string)
  : option string :=
  match names with
  | [] => None
  | a :: rest =>
      if (s =? pre ++ dec_string (Z.of_nat n))%string then Some a
      else abi_of pre rest (S n) s
  end.

Definition convertRegToAbi (v : jsval) : jsval :=
  match v with
  | JString s =>
      match abi_of "x" abi_x 0 s, abi_of "f" abi_f 0 s with
      | Some a, _ => JString a
      | None, Some a => JString a
      | None, None => v
      end
  | _ => v
  end.

Definition imports : Imports :=
  Build_Imports FIELDS_name
    ISA_OP ISA_OP_32 ISA_LOAD ISA_STORE ISA_OP_IMM ISA_OP_IMM_32
    ISA_BRANCH ISA_MISC_MEM ISA_SYSTEM ISA_AMO ISA_LOAD_FP ISA_STORE_FP
    ISA_OP_FP ISA_MADD ISA_MSUB ISA_NMADD ISA_NMSUB
    ISA CSR convertRegToAbi.

End RV.

(** * Vocabulary of the properties *)

(** ** Words, slices and values *)

(** A 32-bit instruction word: 32 characters of binary text. *)
Definition word32 (w : string) : Prop :=
  String.length w = 32%nat /\ is_bin w = true.

(** Bits [high .. high-width+1] of a 32-character word, MSB first: bit [b]
    sits at index [31 - b] of the text. *)
Definition slice (w : string) (high width : nat) : string :=
  substring (31 - high) width w.

(** The slice a field descriptor denotes. *)
Definition fslice (w : string) (k : FIELDS.key) : string :=
  slice w (Z.to_nat (fst (FIELDS.pos k))) (Z.to_nat (snd (FIELDS.pos k))).

(** The unsigned value of binary text, by positional weight. *)
Fixpoint unsigned (s : string) : Z :=
  match s with
  | EmptyString => 0
  | String c s' =>
      (if (c =? "1")%char then 2 ^ Z.of_nat (String.length s') else 0) + unsigned s'
  end.

(** The two's-complement value of binary text, of width its length [n]: the
    unsigned value [u] when [u] is below 2^(n-1), and [u - 2^n] from there
    on. *)
Definition twos_complement (s : string) : Z :=
  let n := Z.of_nat (String.length s) in
  if 2 ^ (n - 1) <=? unsigned s then unsigned s - 2 ^ n else unsigned s.

(** [s] is three lowercase hexadecimal digits that spell [v]. *)
Definition is_lower_hex (c : ascii) : bool :=
  let n := nat_of_ascii c in
  ((48 <=? n)%nat && (n <=? 57)%nat) || ((97 <=? n)%nat && (n <=? 102)%nat).

Definition hex_value (c : ascii) : Z :=
  let n := Z.of_nat (nat_of_ascii c) in
  if n <=? 57 then n - 48 else n - 87.

Definition hex3 (s : string) (v : Z) : bool :=
  match s with
  | String a (String b (String c EmptyString)) =>
      is_lower_hex a && is_lower_hex b && is_lower_hex c
      && (256 * hex_value a + 16 * hex_value b + hex_value c =? v)
  | _ => false
  end.

(** ** Decoding a word *)

(** The decoder object as the handlers receive it. *)
Definition start (w : string) (cfg : Config) : Decoder.t :=
  Decoder.mk None None None [] [] w cfg None (fslice w FIELDS.opcode).

(** The decoder's result on a word known to decode (the initial object
    otherwise). *)
Definition decoded (I : Imports) (w : string) (cfg : Config) : Decoder.t :=
  match Decoder.constructor I w cfg with
  | Ok d => d
  | Throw _ => start w cfg
  end.

Definition cfg32 : Config := {| ISA_opt := RV32I; ABI := false |}.
Definition cfg64 : Config := {| ISA_opt := RV64I; ABI := false |}.

(** [frags.map(f => f.bits).join('')] *)
Definition joined (fs : list Frag.t) : string := String.concat "" (map Frag.bits fs).

(** Whether [#decodeOP_IMM] takes its shift branch on the entry of [tbl] at
    [funct3]: the entry is a nested table, or it is a mnemonic and [funct3] is
    that of [slli]. *)
Definition is_shift (I : Imports) (tbl : table Entry) (funct3 : string) : bool :=
  match lookup tbl funct3 with
  | Some (Sub _) => true
  | Some (Mne _) =>
      match lookup (ISA I) "slli" with
      | Some slli =>
          match i_funct3 slli with
          | Some f => (funct3 =? f)%string
          | None => false
          end
      | None => false
      end
  | None => false
  end.

(** ** Tokens *)

(** The letters of a fence mask: one of [i], [o], [r], [w] per set bit, MSB
    first. *)
Fixpoint set_letters (letters : list string) (mask : string) : string :=
  match mask, letters with
  | String c mask', l :: letters' =>
      (if (c =? "1")%char then l else "") ++ set_letters letters' mask'
  | _, _ => ""
  end.

Definition mask_letters (mask : string) : string :=
  set_letters ["i"; "o"; "r"; "w"] mask.

(** Register fragments are told by their field name: [rd], [rs1], [rs2] of
    the descriptor table, and the literal [rs3] of the R4 format. *)
Definition reg_keys : list FIELDS.key := [FIELDS.rd; FIELDS.rs1; FIELDS.rs2].

Definition reg_names (I : Imports) : list string :=
  (map (FIELDS_name I) reg_keys ++ ["rs3"])%list.

Definition is_reg_name (I : Imports) (n : string) : bool :=
  existsb (String.eqb n) (reg_names I).

Definition is_reg_frag (I : Imports) (f : Frag.t) : bool :=
  is_reg_name I (Frag.field f).

(** The names under which everything else is filed: the other descriptors,
    and the literals [imm] and [rm]. *)
Definition other_names (I : Imports) : list string :=
  (map (FIELDS_name I)
     [FIELDS.opcode; FIELDS.funct3; FIELDS.r_funct5; FIELDS.r_funct7;
      FIELDS.r_aq; FIELDS.r_rl; FIELDS.r_fp_fmt;
      FIELDS.i_imm_11_0; FIELDS.i_shtyp_11_6; FIELDS.i_shtyp_11_5;
      FIELDS.i_shtyp; FIELDS.i_shamt_5; FIELDS.i_shamt_5_0; FIELDS.i_shamt;
      FIELDS.i_funct12; FIELDS.i_csr; FIELDS.i_imm_4_0; FIELDS.i_fm;
      FIELDS.i_pred; FIELDS.i_succ;
      FIELDS.s_imm_4_0; FIELDS.s_imm_11_5;
      FIELDS.b_imm_4_1; FIELDS.b_imm_11; FIELDS.b_imm_10_5; FIELDS.b_imm_12;
      FIELDS.u_imm_31_12;
      FIELDS.j_imm_20; FIELDS.j_imm_10_1; FIELDS.j_imm_11; FIELDS.j_imm_19_12]
   ++ ["imm"; "rm"])%list.

Fixpoint distinct (l : list string) : bool :=
  match l with
  | [] => true
  | n :: l' => negb (existsb (String.eqb n) l') && distinct l'
  end.

(** A well-formed descriptor table gives the registers four names, and files
    nothing else under one of them. *)
Definition names_apart (I : Imports) : bool :=
  distinct (reg_names I) &&
  forallb (fun n => negb (is_reg_name I n)) (other_names I).

(** Bit [b] of a word is set. *)
Definition bit_set (w : string) (b : nat) : bool := (slice w b 1 =? "1")%string.

(** The register file of a register operand, by the instruction's opcode:
    the letter [f] for the four registers of the fused multiply-add opcodes,
    for rd of LOAD_FP and rs2 of STORE_FP, and for the registers of OP_FP,
    where however rd is an integer register when bit 31 is set and bit 28 is
    not, and rs1 is one when both are set; the letter [x] everywhere else. *)
Definition reg_letter (w : string) (k : FIELDS.key) : string :=
  let op := slice w 6 7 in
  if existsb (String.eqb op) [OPCODE.MADD; OPCODE.MSUB; OPCODE.NMADD; OPCODE.NMSUB]
  then "f"
  else if (op =? OPCODE.OP_FP)%string then
    match k with
    | FIELDS.rd => if bit_set w 31 && negb (bit_set w 28) then "x" else "f"
    | FIELDS.rs1 => if bit_set w 31 && bit_set w 28 then "x" else "f"
    | _ => "f"
    end
  else if (op =? OPCODE.LOAD_FP)%string then
    match k with
    | FIELDS.rd => "f"
    | _ => "x"
    end
  else if (op =? OPCODE.STORE_FP)%string then
    match k with
    | FIELDS.rs2 => "f"
    | _ => "x"
    end
  else "x".

(** The token of register field [k] of a word: the letter of its register
    file and the number the five bits spell. *)
Definition reg_token (w : string) (k : FIELDS.key) : jsval :=
  JString (reg_letter w k ++ dec_string (unsigned (fslice w k))).

(** Register fields an instruction does not use are kept in [binFrags] all
    the same.  Two kinds hold no register token: rd and rs1 of the MISC_MEM
    instructions and of the SYSTEM instructions that are no Zicsr ones (the
    table entry at funct3 is a nested table) hold the mnemonic, and rs2 of
    [lr.w] and [lr.d] holds the text n/a. *)
Definition is_trap (I : Imports) (w : string) : bool :=
  match lookup (ISA_SYSTEM I) (slice w 14 3) with
  | Some (Sub _) => true
  | _ => false
  end.

Definition is_load_reserved (m : option string) : bool :=
  match m with
  | Some s => (s =? "lr.w")%string || (s =? "lr.d")%string
  | None => false
  end.

Definition unused_token (I : Imports) (w : string) (m : option string)
    (k : FIELDS.key) : option jsval :=
  let op := slice w 6 7 in
  let mnemonic := match m with
                  | Some s => JString s
                  | None => JUndefined
                  end in
  match k with
  | FIELDS.rd | FIELDS.rs1 =>
      if (op =? OPCODE.MISC_MEM)%string
         || ((op =? OPCODE.SYSTEM)%string && is_trap I w)
      then Some mnemonic else None
  | FIELDS.rs2 =>
      if (op =? OPCODE.AMO)%string && is_load_reserved m
      then Some (JString "n/a") else None
  | _ => None
  end.

(** What the fragment of register field [k] holds in [binFrags]. *)
Definition binary_reg_token (I : Imports) (w : string) (m : option string)
    (k : FIELDS.key) : jsval :=
  match unused_token I w m k with
  | Some t => t
  | None => reg_token w k
  end.

(** What the fragment lists hold under the register names. *)
Definition asm_reg_ok (I : Imports) (w : string) (f : Frag.t) : Prop :=
  (forall k, In k reg_keys -> Frag.field f = FIELDS_name I k ->
     Frag.bits f = fslice w k /\ Frag.asm f = reg_token w k) /\
  (Frag.field f = "rs3" ->
     Frag.bits f = slice w 31 5 /\
     Frag.asm f = JString ("f" ++ dec_string (unsigned (slice w 31 5)))).

Definition bin_reg_ok (I : Imports) (w : string) (m : option string)
    (f : Frag.t) : Prop :=
  (forall k, In k reg_keys -> Frag.field f = FIELDS_name I k ->
     Frag.bits f = fslice w k /\ Frag.asm f = binary_reg_token I w m k) /\
  (Frag.field f = "rs3" ->
     Frag.bits f = slice w 31 5 /\
     Frag.asm f = JString ("f" ++ dec_string (unsigned (slice w 31 5)))).

(** ** The assembly text *)

(** An immediate field is one whose name begins with the letters imm. *)
Definition names_immediate (n : string) : bool :=
  (substring 0 3 n =? "imm")%string.

(** How the operands follow the mnemonic: a blank before the first one, then
    [", "] between operands, except that nothing separates an immediate field
    from the memory base after it; a memory base is written in parentheses.
    [conv] is the ABI renaming, when it is on. *)
Definition separator (first : bool) (prev f : Frag.t) : string :=
  if first then " "
  else if Frag.mem f && names_immediate (Frag.field prev) then ""
  else ", ".

Definition operand (conv : option (jsval -> jsval)) (f : Frag.t) : string :=
  let tok := match conv with
             | Some c => c (Frag.asm f)
             | None => Frag.asm f
             end in
  if Frag.mem f then "(" ++ toString tok ++ ")" else toString tok.

Fixpoint operands (conv : option (jsval -> jsval)) (first : bool)
    (prev : Frag.t) (fs : list Frag.t) : string :=
  match fs with
  | [] => ""
  | f :: rest =>
      separator first prev f ++ operand conv f ++ operands conv false f rest
  end.

(** ** Sample words *)

(** [beq x0, x0, -4], 0xfe000ee3. *)
Definition beq_word : string := "11111110000000000000111011100011".

(** [lui x1, 0x80000], 0x800000b7: bit 31 is set. *)
Definition lui_word : string := "10000000000000000000000010110111".

(** [slli x1, x1, 40], 0x02809093, and [slli x1, x1, 3], 0x00309093. *)
Definition slli40_word : string := "00000010100000001001000010010011".
Definition slli3_word : string := "00000000001100001001000010010011".

(** [slliw x1, x1, 3], 0x0030909b, and the same word with bit 25 set. *)
Definition slliw3_word : string := "00000000001100001001000010011011".
Definition slliw35_word : string := "00000010001100001001000010011011".

(** [csrrw x0, mtvec, x5], 0x30529073, and [csrrwi x0, 0x7c0, 5], 0x7c02d073. *)
Definition csrrw_word : string := "00110000010100101001000001110011".
Definition csrrwi_word : string := "01111100000000101101000001110011".

(** [fence iorw, iorw], 0x0ff0000f; a fence with an empty predecessor set,
    0x00f0000f; a fence with both sets empty and rd = 1, 0x0000008f. *)
Definition fence_word : string := "00001111111100000000000000001111".
Definition fence_nopred_word : string := "00000000111100000000000000001111".
Definition fence_rd1_word : string := "00000000000000000000000010001111".

(** [lw x5, -4(x2)], 0xffc12283. *)
Definition lw_word : string := "11111111110000010010001010000011".

(** [fmadd.s f0, f1, f1, f3], 0x18108043. *)
Definition fmadd_word : string := "00011000000100001000000001000011".

(** [lr.w x5, (x0)], 0x100022af. *)
Definition lr_w_word : string := "00010000000000000010001010101111".

(** [auipc x5, 74565], 0x12345297: bit 31 is clear. *)
Definition auipc_word : string := "00010010001101000101001010010111".

(** [bne x1, x2, 2056], 0x002094e3: a forward branch, bit 31 is clear. *)
Definition bne_word : string := "00000000001000001001010011100011".

(** [sw x5, -4(x2)], 0xfe512e23. *)
Definition sw_word : string := "11111110010100010010111000100011".

(** [amoadd.w x5, x6, (x7)], 0x0063a2af. *)
Definition amoadd_w_word : string := "00000000011000111010001010101111".

(** [add x1, x2, x3], 0x003100b3. *)
Definition add_word : string := "00000000001100010000000010110011".

(** [fcvt.w.s x1, f2], 0xc00100d3, and [fcvt.s.w f1, x2], 0xd00100d3. *)
Definition fcvt_w_s_word : string := "11000000000000010000000011010011".
Definition fcvt_s_w_word : string := "11010000000000010000000011010011".

(** [flw f1, 8(x2)], 0x00812087, and [ecall], 0x00000073. *)
Definition flw_word : string := "00000000100000010010000010000111".
Definition ecall_word : string := "00000000000000000000000001110011".

(** ** Vocabulary of the further properties *)

(** The [case] labels of the [switch] in [#convertBinToAsm]. *)
Definition known_opcodes : list string :=
  [OPCODE.OP; OPCODE.OP_32; OPCODE.OP_FP; OPCODE.AMO; OPCODE.JALR;
   OPCODE.LOAD; OPCODE.LOAD_FP; OPCODE.OP_IMM; OPCODE.OP_IMM_32;
   OPCODE.MISC_MEM; OPCODE.SYSTEM; OPCODE.STORE; OPCODE.STORE_FP;
   OPCODE.BRANCH; OPCODE.LUI; OPCODE.AUIPC; OPCODE.JAL;
   OPCODE.MADD; OPCODE.MSUB; OPCODE.NMADD; OPCODE.NMSUB].

Definition is_known_opcode (op : string) : bool :=
  existsb (fun known => (known =? op)%string) known_opcodes.

(** A result with its value mapped, errors kept. *)
Definition map_result {A B} (f : A -> B) (r : result A) : result B :=
  match r with
  | Ok a => Ok (f a)
  | Throw e => Throw e
  end.

(** The decoder object with another input text, or another configuration,
    in its private slot. *)
Definition with_bin (b : string) (d : Decoder.t) : Decoder.t :=
  Decoder.mk (Decoder.asm d) (Decoder.isa d) (Decoder.fmt d) (Decoder.binFrags d)
    (Decoder.asmFrags d) b (Decoder.config d) (Decoder.mne d) (Decoder.opcode d).

Definition with_config (c : Config) (d : Decoder.t) : Decoder.t :=
  Decoder.mk (Decoder.asm d) (Decoder.isa d) (Decoder.fmt d) (Decoder.binFrags d)
    (Decoder.asmFrags d) (Decoder.bin d) c (Decoder.mne d) (Decoder.opcode d).

(** The last [n] characters of a text (all of it when it is shorter). *)
Definition last_chars (n : nat) (s : string) : string :=
  substring (String.length s - n) n s.

(** The opcodes whose handlers mark a fragment as a memory base. *)
Definition mem_opcodes : list string :=
  [OPCODE.LOAD; OPCODE.LOAD_FP; OPCODE.STORE; OPCODE.STORE_FP; OPCODE.AMO].

(** ** Further sample words *)

(** [jal x1, -8], 0xff9ff0ef. *)
Definition jal_word : string := "11111111100111111111000011101111".

(** [jalr x1, x2, 16], 0x010100e7. *)
Definition jalr_word : string := "00000001000000010000000011100111".

(** [addi x1, x2, -1], 0xfff10093. *)
Definition addi_word : string := "11111111111100010000000010010011".

(** [fadd.s f1, f2, f3], 0x003100d3. *)
Definition fadd_s_word : string := "00000000001100010000000011010011".


(** Some character of the text is a 1. *)
Fixpoint has_set_bit (s : string) : bool :=
  match s with
  | EmptyString => false
  | String c s' => (c =? "1")%char || has_set_bit s'
  end.

(** Two results that differ in the assembly text, and in the private input
    and configuration, at most. *)
Definition same_but_text (d d' : Decoder.t) : Prop :=
  Decoder.binFrags d = Decoder.binFrags d' /\
  Decoder.asmFrags d = Decoder.asmFrags d' /\
  Decoder.isa d = Decoder.isa d' /\
  Decoder.fmt d = Decoder.fmt d' /\
  Decoder.mne d = Decoder.mne d' /\
  Decoder.opcode d = Decoder.opcode d'.

Definition cfg32_abi : Config := {| ISA_opt := RV32I; ABI := true |}.

(** ** Closed tables

    The imported tables are closed when every mnemonic they can yield, and
    the five the decoder names itself, has a record in [ISA], and the nested
    tables of the shifts have an entry for either value of the shtyp bit. *)
Definition has_record (I : Imports) (m : string) : bool :=
  match lookup (ISA I) m with
  | Some _ => true
  | None => false
  end.

Definition all_recorded (I : Imports) (tbl : table string) : bool :=
  forallb (fun kv => has_record I (snd kv)) tbl.

Definition has_key {V} (tbl : table V) (k : string) : bool :=
  match lookup tbl k with
  | Some _ => true
  | None => false
  end.

Definition entry_closed (I : Imports) (by_shtyp : bool) (e : Entry) : bool :=
  match e with
  | Mne m => has_record I m
  | Sub tbl =>
      all_recorded I tbl &&
      (if by_shtyp then has_key tbl "0" && has_key tbl "1" else true)
  end.

Definition entries_closed (I : Imports) (by_shtyp : bool) (tbl : table Entry) : bool :=
  forallb (fun kv => entry_closed I by_shtyp (snd kv)) tbl.

Definition tables_closed (I : Imports) : bool :=
  forallb (all_recorded I)
    [ISA_OP I; ISA_OP_32 I; ISA_LOAD I; ISA_LOAD_FP I; ISA_STORE I;
     ISA_STORE_FP I; ISA_BRANCH I; ISA_MISC_MEM I; ISA_AMO I;
     ISA_MADD I; ISA_MSUB I; ISA_NMADD I; ISA_NMSUB I]
  && entries_closed I true (ISA_OP_IMM I)
  && entries_closed I true (ISA_OP_IMM_32 I)
  && entries_closed I false (ISA_SYSTEM I)
  && forallb (fun kv => entries_closed I false (snd kv)) (ISA_OP_FP I)
  && forallb (has_record I) ["slli"; "jalr"; "jal"; "lui"; "auipc"].

(** * Properties *)

(** ** Binary text *)

Lemma substring_length (s : string) : forall n m,
  String.length (substring n m s) = Nat.min m (String.length s - n).
Proof.
  induction s as [|c s IH]; intros n m.
  - destruct n, m; reflexivity.
  - destruct n as [|n]; simpl.
    + destruct m as [|m]; simpl; [reflexivity|].
      rewrite IH. rewrite Nat.sub_0_r. reflexivity.
    + apply IH.
Qed.

Lemma is_bin_substring (s : string) : forall n m,
  is_bin s = true -> is_bin (substring n m s) = true.
Proof.
  induction s as [|c s IH]; intros n m H; simpl in *.
  - destruct n, m; reflexivity.
  - apply andb_true_iff in H as [Hc Hs].
    destruct n as [|n].
    + destruct m as [|m]; simpl; [reflexivity|].
      rewrite Hc. apply IH, Hs.
    + apply IH, Hs.
Qed.

Lemma is_bin_app (a b : string) :
  is_bin (a ++ b) = is_bin a && is_bin b.
Proof.
  induction a as [|c a IH]; simpl; [reflexivity|].
  rewrite IH. apply andb_assoc.
Qed.

Lemma app_length (a b : string) :
  String.length (a ++ b) = (String.length a + String.length b)%nat.
Proof. induction a; simpl; congruence. Qed.

Lemma append_assoc (a b c : string) : (a ++ b) ++ c = a ++ b ++ c.
Proof. induction a as [|x a IH]; simpl; [reflexivity | now rewrite IH]. Qed.

Lemma append_nil_r (a : string) : a ++ "" = a.
Proof. induction a as [|x a IH]; simpl; [reflexivity | now rewrite IH]. Qed.

Lemma length_nonempty (s : string) (n : nat) :
  String.length s = S n -> s <> "".
Proof. intros H ->. discriminate H. Qed.

Lemma eqb_true_l (s t : string) : s = t -> (s =? t)%string = true.
Proof. intros ->. apply String.eqb_refl. Qed.

Lemma is_bit_cases c : is_bit c = true -> c = "0"%char \/ c = "1"%char.
Proof.
  unfold is_bit. intros H. apply orb_true_iff in H as [H|H];
    apply Ascii.eqb_eq in H; auto.
Qed.

(** On binary text [parseInt] reads the positional value. *)
Lemma parse_digits_unsigned (s : string) : forall acc,
  is_bin s = true ->
  parse_digits s acc = acc * 2 ^ Z.of_nat (String.length s) + unsigned s.
Proof.
  induction s as [|c s IH]; intros acc H; simpl in H.
  - simpl. lia.
  - apply andb_true_iff in H as [Hc Hs].
    cbn [parse_digits unsigned String.length].
    rewrite Nat2Z.inj_succ, Z.pow_succ_r by lia.
    destruct (is_bit_cases _ Hc) as [-> | ->]; simpl Ascii.eqb; cbv iota;
      rewrite IH by assumption; lia.
Qed.

Lemma parseInt_unsigned (s : string) :
  is_bin s = true -> s <> "" -> parseInt s = Num (unsigned s).
Proof.
  intros H Hne. destruct s as [|c s]; [congruence|].
  unfold parseInt. pose proof H as H'. simpl in H'.
  apply andb_true_iff in H' as [-> _].
  rewrite parse_digits_unsigned by assumption. f_equal.
Qed.

Lemma unsigned_bounds (s : string) :
  0 <= unsigned s < 2 ^ Z.of_nat (String.length s).
Proof.
  induction s as [|c s IH]; simpl unsigned; cbn [String.length].
  - simpl. lia.
  - rewrite Nat2Z.inj_succ, Z.pow_succ_r by lia.
    destruct (c =? "1")%char; lia.
Qed.

Lemma unsigned_app (a b : string) :
  unsigned (a ++ b) = unsigned a * 2 ^ Z.of_nat (String.length b) + unsigned b.
Proof.
  induction a as [|c a IH]; cbn [append unsigned]; [lia|].
  rewrite IH, app_length, Nat2Z.inj_add, Z.pow_add_r by lia.
  destruct (c =? "1")%char; lia.
Qed.

(** A word of 32 characters, spelled out character by character. *)
Ltac destruct_word w H :=
  do 32 (destruct w as [|? w]; [discriminate H|]);
  destruct w as [|? w]; [clear H|discriminate H].

(** ** The bit-slice primitive *)

Lemma getBits_slice (w : string) (high width : nat) :
  String.length w = 32%nat ->
  (high < 32)%nat -> (width <= high + 1)%nat ->
  getBits w (Z.of_nat high, Z.of_nat width) = Ok (slice w high width).
Proof.
  intros Hlen Hh Hw. unfold getBits, js_substring, slice, clamp. simpl fst; simpl snd.
  rewrite Hlen.
  replace (Z.of_nat high + 1 - Z.of_nat width >? Z.of_nat high + 1) with false
    by (symmetry; rewrite Z.gtb_ltb; apply Z.ltb_ge; lia).
  replace (Z.of_nat 32 <? Z.of_nat high + 1) with false
    by (symmetry; apply Z.ltb_ge; lia).
  simpl orb. cbv iota. f_equal. f_equal; lia.
Qed.

Lemma getBits_throw_iff (w : string) (high width : Z) :
  String.length w = 32%nat ->
  getBits w (high, width) = Throw MalformedField <-> width < 0 \/ high >= 32.
Proof.
  intros Hlen. unfold getBits. cbn [fst snd]. rewrite Hlen.
  destruct (high + 1 - width >? high + 1) eqn:E1;
    destruct (Z.of_nat 32 <? high + 1) eqn:E2; cbn [orb];
    rewrite Z.gtb_ltb in E1;
    try apply Z.ltb_lt in E1; try apply Z.ltb_ge in E1;
    try apply Z.ltb_lt in E2; try apply Z.ltb_ge in E2;
    split; intros H; try reflexivity; try discriminate; lia.
Qed.

Lemma getBits_zero_width (w : string) (high : Z) :
  String.length w = 32%nat -> high < 32 -> getBits w (high, 0) = Ok "".
Proof.
  intros Hlen Hh. unfold getBits, js_substring, clamp. cbn [fst snd]. rewrite Hlen.
  replace (high + 1 - 0 >? high + 1) with false
    by (symmetry; rewrite Z.gtb_ltb; apply Z.ltb_ge; lia).
  replace (Z.of_nat 32 <? high + 1) with false by (symmetry; apply Z.ltb_ge; lia).
  cbn [orb]. f_equal.
  match goal with
  | |- substring ?a (Z.to_nat ?b) w = _ =>
      replace (Z.to_nat b) with 0%nat by lia; generalize a
  end.
  clear. induction w as [|c w IH]; intros [|n]; cbn; auto.
Qed.

Lemma getBits_truncated (w : string) (high width : Z) :
  String.length w = 32%nat -> 0 <= high < 32 -> high + 1 <= width ->
  getBits w (high, width) = Ok (slice w (Z.to_nat high) (Z.to_nat high + 1)).
Proof.
  intros Hlen Hh Hw. unfold getBits, js_substring, clamp, slice. cbn [fst snd].
  rewrite Hlen.
  replace (high + 1 - width >? high + 1) with false
    by (symmetry; rewrite Z.gtb_ltb; apply Z.ltb_ge; lia).
  replace (Z.of_nat 32 <? high + 1) with false by (symmetry; apply Z.ltb_ge; lia).
  cbn [orb]. f_equal. f_equal; lia.
Qed.

(** C5, as amended.  On a 32-character word, [getBits] with 0 <= high < 32
    and 1 <= width <= high + 1 returns exactly [width] characters, the bits
    high .. high-width+1, MSB first.  It fails (position error) exactly when
    width < 0 or high >= 32.  A zero width is no error but yields the empty
    text, and a slice that would run below bit 0 is no error either: it is
    cut at bit 0 and yields the high + 1 lowest bits. *)
Theorem C5_getBits_position_errors (w : string) (high width : Z) :
  String.length w = 32%nat ->
  (0 <= high < 32 -> 1 <= width <= high + 1 ->
   exists s,
     getBits w (high, width) = Ok s /\
     Z.of_nat (String.length s) = width /\
     forall i, (i < Z.to_nat width)%nat ->
       String.get i s = String.get (i + Z.to_nat (31 - high)) w) /\
  (getBits w (high, width) = Throw MalformedField <-> width < 0 \/ high >= 32) /\
  (high < 32 -> width = 0 -> getBits w (high, width) = Ok "") /\
  (0 <= high < 32 -> high + 1 <= width ->
   getBits w (high, width) = Ok (slice w (Z.to_nat high) (Z.to_nat high + 1))).
Proof.
  intros Hlen. repeat split.
  - intros Hh Hw. exists (slice w (Z.to_nat high) (Z.to_nat width)).
    split; [|split].
    + rewrite <- (getBits_slice w (Z.to_nat high) (Z.to_nat width) Hlen) by lia.
      f_equal. f_equal; lia.
    + unfold slice. rewrite substring_length, Hlen. lia.
    + intros i Hi. unfold slice. rewrite substring_correct1 by exact Hi.
      f_equal. lia.
  - apply getBits_throw_iff, Hlen.
  - apply getBits_throw_iff, Hlen.
  - intros Hh ->. apply getBits_zero_width; assumption.
  - apply getBits_truncated, Hlen.
Qed.

Lemma C5_getBits_position_errors_witness :
  (exists s,
     getBits beq_word (30, 6) = Ok s /\
     Z.of_nat (String.length s) = 6 /\
     forall i, (i < Z.to_nat 6)%nat ->
       String.get i s = String.get (i + Z.to_nat (31 - 30)) beq_word) /\
  getBits beq_word (32, 1) = Throw MalformedField.
Proof.
  pose proof (C5_getBits_position_errors beq_word 30 6 eq_refl) as (H & _).
  pose proof (C5_getBits_position_errors beq_word 32 1 eq_refl) as (_ & H' & _).
  split.
  - apply H; lia.
  - apply H'. right. lia.
Defined.

(** The claim has a zero width fail; [getBits(word, [5, 0])] returns the
    empty text. *)
Lemma C5_counterexample :
  ~ (getBits beq_word (5, 0) = Throw MalformedField <->
     (0 = 0 \/ 5 >= 32 \/ 5 - 0 + 1 < 0)).
Proof.
  intros [_ H].
  assert (E : getBits beq_word (5, 0) = Throw MalformedField)
    by (apply H; left; reflexivity).
  vm_compute in E. discriminate E.
Qed.

(** ** The fields of a word *)

Section Word.
Variable w : string.
Hypothesis Hlen : String.length w = 32%nat.

Lemma getBits_field (k : FIELDS.key) :
  getBits w (FIELDS.pos k) = Ok (fslice w k).
Proof.
  unfold fslice.
  rewrite <- (getBits_slice w (Z.to_nat (fst (FIELDS.pos k)))
                (Z.to_nat (snd (FIELDS.pos k))) Hlen).
  - destruct k; reflexivity.
  - destruct k; cbn; lia.
  - destruct k; cbn; lia.
Qed.

Lemma extractRFields_word :
  extractRFields w =
  Ok (RFields.mk (fslice w FIELDS.rs2) (fslice w FIELDS.rs1) (fslice w FIELDS.funct3)
        (fslice w FIELDS.rd) (fslice w FIELDS.r_funct5) (fslice w FIELDS.r_funct7)
        (fslice w FIELDS.r_aq) (fslice w FIELDS.r_rl) (fslice w FIELDS.r_fp_fmt)).
Proof. unfold extractRFields. rewrite !getBits_field. reflexivity. Qed.

Lemma extractIFields_word :
  extractIFields w =
  Ok (IFields.mk (fslice w FIELDS.i_imm_11_0) (fslice w FIELDS.rs1)
        (fslice w FIELDS.funct3) (fslice w FIELDS.rd) (fslice w FIELDS.i_shtyp)
        (fslice w FIELDS.i_shamt) (fslice w FIELDS.i_shamt_5)
        (fslice w FIELDS.i_funct12) (fslice w FIELDS.i_fm) (fslice w FIELDS.i_pred)
        (fslice w FIELDS.i_succ)).
Proof. unfold extractIFields. rewrite !getBits_field. reflexivity. Qed.

Lemma extractSFields_word :
  extractSFields w =
  Ok (SFields.mk (fslice w FIELDS.s_imm_11_5) (fslice w FIELDS.rs2)
        (fslice w FIELDS.rs1) (fslice w FIELDS.funct3) (fslice w FIELDS.s_imm_4_0)).
Proof. unfold extractSFields. rewrite !getBits_field. reflexivity. Qed.

Lemma extractBFields_word :
  extractBFields w =
  Ok (BFields.mk (fslice w FIELDS.b_imm_12) (fslice w FIELDS.b_imm_10_5)
        (fslice w FIELDS.rs2) (fslice w FIELDS.rs1) (fslice w FIELDS.funct3)
        (fslice w FIELDS.b_imm_4_1) (fslice w FIELDS.b_imm_11)).
Proof. unfold extractBFields. rewrite !getBits_field. reflexivity. Qed.

Lemma fslice_length (k : FIELDS.key) :
  String.length (fslice w k) = Z.to_nat (snd (FIELDS.pos k)).
Proof.
  unfold fslice, slice. rewrite substring_length, Hlen.
  destruct k; reflexivity.
Qed.

Lemma fslice_nonempty (k : FIELDS.key) : fslice w k <> "".
Proof.
  pose proof (fslice_length k) as HL.
  intros E. rewrite E in HL. destruct k; discriminate HL.
Qed.

Lemma unsigned_field_bounds (k : FIELDS.key) :
  0 <= unsigned (fslice w k) < 2 ^ snd (FIELDS.pos k).
Proof.
  pose proof (unsigned_bounds (fslice w k)) as HB.
  rewrite fslice_length in HB.
  replace (Z.of_nat (Z.to_nat (snd (FIELDS.pos k)))) with (snd (FIELDS.pos k)) in HB
    by (destruct k; reflexivity).
  exact HB.
Qed.

End Word.

Lemma fslice_is_bin (w : string) (k : FIELDS.key) :
  is_bin w = true -> is_bin (fslice w k) = true.
Proof. intros H. apply is_bin_substring, H. Qed.

Lemma shamt_5_0_split (w : string) :
  String.length w = 32%nat ->
  fslice w FIELDS.i_shamt_5 ++ fslice w FIELDS.i_shamt = fslice w FIELDS.i_shamt_5_0.
Proof. intros Hlen. destruct_word w Hlen. reflexivity. Qed.

(** The test of the upper immediate bits of a 5-bit shift passes only if
    bit 25 is 0. *)
Lemma shtyp_11_5_check (w : string) :
  String.length w = 32%nat ->
  (("0" ++ fslice w FIELDS.i_shtyp ++ "0000") ++ "0" =?
   js_substring (fslice w FIELDS.i_imm_11_0) 0 7)%string = true ->
  fslice w FIELDS.i_shamt_5 = "0".
Proof.
  intros Hlen E. apply String.eqb_eq in E. destruct_word w Hlen.
  cbn in E. injection E as E. intros. subst. reflexivity.
Qed.

(** ** Immediates and registers *)

Lemma js_shl_1 (n : Z) : 0 <= n < 31 -> js_shl 1 n = 2 ^ n.
Proof.
  intros Hn. unfold js_shl, to_int32.
  rewrite (Z.mod_small n 32) by lia. rewrite Z.shiftl_1_l.
  assert (H31 : 2 ^ n < 2 ^ 31) by (apply Z.pow_lt_mono_r; lia).
  assert (H0 : 0 < 2 ^ n) by (apply Z.pow_pos_nonneg; lia).
  rewrite Z.mod_small by lia.
  destruct (2 ^ n <? 2 ^ 31) eqn:E; [reflexivity|].
  apply Z.ltb_ge in E. lia.
Qed.

(** The first character of binary text is a 1 exactly when the unsigned
    value reaches half the range. *)
Lemma first_is_1_half (s : string) :
  is_bin s = true -> s <> "" ->
  first_is_1 s = (2 ^ (Z.of_nat (String.length s) - 1) <=? unsigned s).
Proof.
  intros Hb Hne. destruct s as [|c s]; [congruence|].
  cbn [first_is_1 unsigned String.length].
  replace (Z.of_nat (S (String.length s)) - 1) with (Z.of_nat (String.length s))
    by lia.
  pose proof (unsigned_bounds s) as HB.
  cbn [is_bin] in Hb. apply andb_true_iff in Hb as [Hc _].
  apply is_bit_cases in Hc as [-> | ->]; cbn [Ascii.eqb Bool.eqb];
    symmetry; [apply Z.leb_gt | apply Z.leb_le]; lia.
Qed.

Lemma decImm_signed (s : string) :
  is_bin s = true -> s <> "" -> (String.length s < 31)%nat ->
  decImm s true = Num (twos_complement s).
Proof.
  intros Hb Hne Hlen. unfold decImm, twos_complement. cbn [andb].
  rewrite parseInt_unsigned by assumption.
  rewrite <- first_is_1_half by assumption.
  destruct (first_is_1 s); [|reflexivity].
  cbn [js_sub]. rewrite js_shl_1 by lia. reflexivity.
Qed.

(** The two's-complement value, by the leading bit. *)
Lemma twos_complement_msb (s : string) :
  is_bin s = true ->
  (substring 0 1 s = "0" -> twos_complement s = unsigned s) /\
  (substring 0 1 s = "1" ->
   twos_complement s = unsigned s - 2 ^ Z.of_nat (String.length s)).
Proof.
  intros Hb. destruct s as [|c s]; [split; discriminate|].
  unfold twos_complement.
  rewrite <- (first_is_1_half (String c s) Hb) by discriminate.
  cbn [substring first_is_1].
  replace (substring 0 0 s) with "" by (destruct s; reflexivity).
  split; intros E; injection E as ->; reflexivity.
Qed.

Lemma twos_complement_range (s : string) :
  is_bin s = true -> s <> "" ->
  - 2 ^ (Z.of_nat (String.length s) - 1) <= twos_complement s
  < 2 ^ (Z.of_nat (String.length s) - 1).
Proof.
  intros Hb Hne. unfold twos_complement.
  pose proof (unsigned_bounds s) as HB.
  assert (Hn : 1 <= Z.of_nat (String.length s))
    by (destruct s; [congruence | cbn [String.length]; lia]).
  replace (2 ^ Z.of_nat (String.length s))
    with (2 * 2 ^ (Z.of_nat (String.length s) - 1)) in *
    by (rewrite <- Z.pow_succ_r by lia; f_equal; lia).
  destruct (_ <=? _) eqn:E; [apply Z.leb_le in E | apply Z.leb_gt in E]; lia.
Qed.

Lemma decImm_unsigned (s : string) :
  is_bin s = true -> s <> "" -> decImm s false = Num (unsigned s).
Proof. intros Hb Hne. unfold decImm. cbn [andb]. apply parseInt_unsigned; assumption. Qed.

Lemma decImm_field_unsigned (w : string) (k : FIELDS.key) :
  word32 w -> decImm (fslice w k) false = Num (unsigned (fslice w k)).
Proof.
  intros [Hlen Hbin]. apply decImm_unsigned.
  - apply fslice_is_bin, Hbin.
  - apply fslice_nonempty, Hlen.
Qed.

Lemma decReg_total (reg : string) (fl : bool) :
  is_bin reg = true -> String.length reg = 5%nat ->
  decReg reg fl = (if fl then "f" else "x") ++ dec_string (unsigned reg) /\
  0 <= unsigned reg <= 31.
Proof.
  intros Hb Hl. split.
  - unfold decReg. rewrite parseInt_unsigned; [reflexivity | exact Hb |].
    apply (length_nonempty _ 4), Hl.
  - pose proof (unsigned_bounds reg) as HB. rewrite Hl in HB.
    change (2 ^ Z.of_nat 5) with 32 in HB. lia.
Qed.

Lemma decReg_field (w : string) (k : FIELDS.key) (fl : bool) :
  word32 w ->
  decReg (fslice w k) fl
  = (if fl then "f" else "x") ++ dec_string (unsigned (fslice w k)).
Proof.
  intros Hw. unfold decReg. pose proof (decImm_field_unsigned w k Hw) as E.
  unfold decImm in E. cbn [andb] in E. rewrite E. reflexivity.
Qed.

(** ** The assembly renderer *)

(** The test [/^imm/] holds of the names that begin with the letters imm. *)
Lemma test_imm_names_immediate (n : string) : test_imm n = names_immediate n.
Proof.
  unfold test_imm, names_immediate.
  destruct (prefix "imm" n) eqn:E.
  - apply prefix_correct in E. cbn [String.length] in E. rewrite E. reflexivity.
  - symmetry. apply String.eqb_neq. intros H.
    assert (P : prefix "imm" n = true) by (apply prefix_correct; exact H).
    rewrite P in E. discriminate E.
Qed.

(** The loop of [renderAsm] appends the operands, one by one. *)
Lemma renderAsm_loop_operands conv : forall frags prev i inst,
  (1 <= i)%nat ->
  renderAsm_loop conv prev frags i inst
  = inst ++ operands conv (i =? 1)%nat prev frags.
Proof.
  induction frags as [|f rest IH]; intros prev i inst Hi.
  - cbn. symmetry. apply append_nil_r.
  - cbn [renderAsm_loop operands]. rewrite IH by lia.
    replace (S i =? 1)%nat with false by (symmetry; apply Nat.eqb_neq; lia).
    unfold separator, operand. rewrite test_imm_names_immediate.
    destruct (i =? 1)%nat; destruct (Frag.mem f); cbn [negb orb andb];
      try destruct (names_immediate (Frag.field prev)); cbn [negb];
      rewrite ?append_assoc; reflexivity.
Qed.

Lemma renderAsm_operands conv f0 rest abi a :
  renderAsm conv (f0 :: rest) abi = Ok a ->
  a = trim (toString (Frag.asm f0)
            ++ operands (if abi then Some conv else None) true f0 rest).
Proof.
  unfold renderAsm. destruct rest as [|f1 rest].
  - destruct (Frag.asm f0); try discriminate. intros H. injection H as <-.
    cbn [operands toString]. now rewrite append_nil_r.
  - rewrite renderAsm_loop_operands by lia. cbn [Nat.eqb].
    destruct (Frag.asm f0); intros H; injection H as <-; reflexivity.
Qed.

(** Trimming leaves a text alone that has no white space around it, also
    when more text follows it. *)
Lemma trim_start_length (s : string) :
  (String.length (trim_start s) <= String.length s)%nat.
Proof.
  induction s as [|c s IH]; cbn; [lia|]. destruct (is_space c); cbn; lia.
Qed.

Lemma trim_end_length (s : string) :
  (String.length (trim_end s) <= String.length s)%nat.
Proof.
  induction s as [|c s IH]; cbn; [lia|].
  destruct (trim_end s); [destruct (is_space c)|]; cbn in *; lia.
Qed.

Lemma trim_fixed (m : string) :
  trim m = m -> trim_start m = m /\ trim_end m = m.
Proof.
  unfold trim. intros H.
  assert (E : trim_start m = m).
  { destruct m as [|c m]; [reflexivity|]. cbn in *.
    destruct (is_space c); [|reflexivity].
    exfalso.
    pose proof (trim_end_length (trim_start m)) as H1.
    pose proof (trim_start_length m) as H2.
    rewrite H in H1. cbn in H1. lia. }
  rewrite E in H. split; assumption.
Qed.

Lemma trim_end_app (m r : string) :
  trim_end m = m -> m <> "" -> exists r', trim_end (m ++ r) = m ++ r'.
Proof.
  induction m as [|c m IH]; intros H Hne; [congruence|].
  destruct m as [|c' m'].
  - cbn in H. destruct (is_space c) eqn:Ec; [discriminate|].
    cbn. rewrite Ec. destruct (trim_end r) as [|x t]; eauto.
  - assert (Hm : trim_end (String c' m') = String c' m').
    { change (trim_end (String c (String c' m')))
        with (match trim_end (String c' m') with
              | EmptyString => if is_space c then EmptyString else String c EmptyString
              | t => String c t
              end) in H.
      destruct (trim_end (String c' m')) as [|x t].
      - destruct (is_space c); discriminate H.
      - congruence. }
    destruct (IH Hm ltac:(discriminate)) as (r' & Hr).
    exists r'.
    change (String c (String c' m') ++ r) with (String c (String c' m' ++ r)).
    cbn [trim_end]. rewrite Hr. reflexivity.
Qed.

Lemma prefix_app (m r : string) : prefix m (m ++ r) = true.
Proof.
  induction m as [|c m IH]; cbn.
  - destruct r; reflexivity.
  - destruct (ascii_dec c c); [exact IH | congruence].
Qed.

Lemma trim_keeps_prefix (m r : string) :
  trim m = m -> prefix m (trim (m ++ r)) = true.
Proof.
  intros H. destruct (trim_fixed m H) as [Hs He].
  destruct m as [|c m].
  - destruct (trim ("" ++ r)); reflexivity.
  - unfold trim.
    assert (Ec : is_space c = false).
    { cbn in Hs. destruct (is_space c); [|reflexivity].
      exfalso. pose proof (trim_start_length m) as HL. rewrite Hs in HL.
      cbn in HL. lia. }
    replace (trim_start (String c m ++ r)) with (String c m ++ r)
      by (cbn; rewrite Ec; reflexivity).
    destruct (trim_end_app (String c m) r He ltac:(discriminate)) as (r' & ->).
    apply prefix_app.
Qed.

(** ** The frame around the handlers *)

Section Frame.
Variable I : Imports.
Variables (w : string) (cfg : Config).
Hypothesis Hlen : String.length w = 32%nat.

Lemma constructor_unfold :
  Decoder.constructor I w cfg =
  bind (Decoder.dispatch I (start w cfg)) (Decoder.finish I).
Proof.
  unfold Decoder.constructor, Decoder.convertBinToAsm.
  cbn [Decoder.bin]. rewrite getBits_field by exact Hlen. reflexivity.
Qed.

(** The three ways the constructor can end. *)
Lemma constructor_cases :
  match Decoder.constructor I w cfg with
  | Ok d => exists d1, Decoder.dispatch I (start w cfg) = Ok d1 /\
                       Decoder.finish I d1 = Ok d
  | Throw e => Decoder.dispatch I (start w cfg) = Throw e \/
               exists d1, Decoder.dispatch I (start w cfg) = Ok d1 /\
                          Decoder.finish I d1 = Throw e
  end.
Proof.
  rewrite constructor_unfold.
  destruct (Decoder.dispatch I (start w cfg)) as [d1|e]; cbn [bind].
  - destruct (Decoder.finish I d1) eqn:E; eauto.
  - left; reflexivity.
Qed.

Lemma constructor_inv (d : Decoder.t) :
  Decoder.constructor I w cfg = Ok d ->
  exists d1, Decoder.dispatch I (start w cfg) = Ok d1 /\ Decoder.finish I d1 = Ok d.
Proof.
  intros H. pose proof constructor_cases as HC. rewrite H in HC. exact HC.
Qed.

End Frame.

(** What [finish] changes: the format, the ISA and the text, nothing else. *)
Lemma finish_inv I d1 d :
  Decoder.finish I d1 = Ok d ->
  Decoder.binFrags d = Decoder.binFrags d1 /\
  Decoder.asmFrags d = Decoder.asmFrags d1 /\
  Decoder.mne d = Decoder.mne d1 /\
  Decoder.opcode d = Decoder.opcode d1 /\
  exists inst a,
    lookup (ISA I) (toString (Decoder.mne_val (Decoder.mne d1))) = Some inst /\
    Decoder.fmt d = Some (i_fmt inst) /\
    Decoder.isa d = Some (match Decoder.isa d1 with Some i => i | None => i_isa inst end) /\
    renderAsm (convertRegToAbi I) (Decoder.asmFrags d1) (ABI (Decoder.config d1)) = Ok a /\
    Decoder.asm d = Some a.
Proof.
  unfold Decoder.finish. intros H.
  destruct (lookup (ISA I) _) as [inst|] eqn:EI; [|discriminate].
  cbn in H.
  match type of H with (if ?c then _ else _) = _ => destruct c; [discriminate|] end.
  destruct (renderAsm _ _ _) as [a|] eqn:ER; [|discriminate].
  cbn in H. injection H as <-. cbn.
  repeat split. exists inst, a. repeat split; assumption.
Qed.

(** The [switch] on a known opcode. *)
Section Dispatch.
Variable I : Imports.
Variable d : Decoder.t.

Lemma dispatch_BRANCH :
  Decoder.opcode d = OPCODE.BRANCH -> Decoder.dispatch I d = Decoder.decodeBRANCH I d.
Proof. intros E. unfold Decoder.dispatch. rewrite E. reflexivity. Qed.

Lemma dispatch_UType :
  Decoder.opcode d = OPCODE.LUI \/ Decoder.opcode d = OPCODE.AUIPC ->
  Decoder.dispatch I d = Decoder.decodeUType I d.
Proof. intros [E|E]; unfold Decoder.dispatch; rewrite E; reflexivity. Qed.

Lemma dispatch_OP_IMM :
  Decoder.opcode d = OPCODE.OP_IMM \/ Decoder.opcode d = OPCODE.OP_IMM_32 ->
  Decoder.dispatch I d = Decoder.decodeOP_IMM I d.
Proof. intros [E|E]; unfold Decoder.dispatch; rewrite E; reflexivity. Qed.

Lemma dispatch_SYSTEM :
  Decoder.opcode d = OPCODE.SYSTEM -> Decoder.dispatch I d = Decoder.decodeSYSTEM I d.
Proof. intros E. unfold Decoder.dispatch. rewrite E. reflexivity. Qed.

Lemma dispatch_MISC_MEM :
  Decoder.opcode d = OPCODE.MISC_MEM ->
  Decoder.dispatch I d = Decoder.decodeMISC_MEM I d.
Proof. intros E. unfold Decoder.dispatch. rewrite E. reflexivity. Qed.

End Dispatch.

(** ** Running a handler on a word

    [dispatch_cases] splits on the opcode, [unfold_handler] and [run_handler]
    open the handler and read its fields, [step_handler] follows its tests
    one outcome at a time. *)

Ltac dispatch_cases H :=
  unfold Decoder.dispatch in H;
  repeat match type of H with
         | (if ?c then _ else _) = _ => destruct c eqn:?
         end; [.. | discriminate H].

Ltac unfold_handler H :=
  unfold Decoder.decodeOP, Decoder.decodeOP_FP, Decoder.decodeAMO,
    Decoder.decodeJALR, Decoder.decodeLOAD, Decoder.decodeOP_IMM,
    Decoder.decodeMISC_MEM, Decoder.decodeSYSTEM, Decoder.decodeSTORE,
    Decoder.decodeBRANCH, Decoder.decodeUType, Decoder.decodeJAL,
    Decoder.decodeR4, decMem in H.

Ltac run_handler H Hlen :=
  cbn [Decoder.bin start] in H;
  first [ rewrite (extractRFields_word _ Hlen) in H
        | rewrite (extractIFields_word _ Hlen) in H
        | rewrite (extractSFields_word _ Hlen) in H
        | rewrite (extractBFields_word _ Hlen) in H
        | rewrite !(getBits_field _ Hlen) in H ];
  cbn [bind RFields.rs2 RFields.rs1 RFields.funct3 RFields.rd RFields.funct5
       RFields.funct7 RFields.aq RFields.rl RFields.fmt
       IFields.imm IFields.rs1 IFields.funct3 IFields.rd IFields.shtyp
       IFields.shamt IFields.shamt_5 IFields.funct12 IFields.fm IFields.pred
       IFields.succ
       SFields.imm_11_5 SFields.rs2 SFields.rs1 SFields.funct3 SFields.imm_4_0
       BFields.imm_12 BFields.imm_10_5 BFields.rs2 BFields.rs1 BFields.funct3
       BFields.imm_4_1 BFields.imm_11] in H.

Ltac step_handler H :=
  repeat (cbn [bind fst snd] in H;
          match type of H with
          | context [match ?x with _ => _ end] => destruct x eqn:?; try discriminate H
          end);
  cbn [bind fst snd] in H.

(** [#decodeOP_IMM] on a shift word: open it up to its first test. *)
Ltac open_OP_IMM Hd Hlen Hop Hs :=
  unfold Decoder.decodeOP_IMM, Decoder.shamt_64 in Hd; run_handler Hd Hlen;
  unfold is_shift in Hs;
  change (Decoder.opcode (start ?w ?cfg)) with (fslice w FIELDS.opcode) in Hd;
  rewrite Hop in Hd;
  cbn [String.eqb Ascii.eqb Bool.eqb OPCODE.OP_IMM OPCODE.OP_IMM_32 negb andb
       Decoder.config Decoder.set_mne start] in Hd.

(** The state a handler returns, spelled out. *)
Ltac spell_out :=
  cbn [Decoder.asmFrags Decoder.binFrags Decoder.push_asmFrags
       Decoder.push_binFrags Decoder.set_mne Decoder.set_isa Decoder.mne
       Decoder.isa Decoder.opcode Decoder.config start app] in *.

(** ** The binary fragments (C1) *)

(** For every opcode but BRANCH the binary fragments spell the word. *)
Lemma binFrags_partition I w cfg d :
  String.length w = 32%nat ->
  Decoder.constructor I w cfg = Ok d ->
  fslice w FIELDS.opcode <> OPCODE.BRANCH ->
  joined (Decoder.binFrags d) = w.
Proof.
  intros Hlen H Hop.
  destruct (constructor_inv I w cfg Hlen d H) as (d1 & Hd & Hf).
  apply finish_inv in Hf as (-> & _).
  dispatch_cases Hd.
  10: { exfalso. apply Hop. cbn in *.
        match goal with
        | E : (_ || false) = true |- _ =>
            rewrite orb_false_r in E; apply String.eqb_eq in E; exact E
        end. }
  all: unfold_handler Hd; run_handler Hd Hlen; step_handler Hd.
  all: injection Hd as <-; cbn.
  all: try (destruct_word w Hlen; reflexivity).
  (* shifts: the upper immediate bits are the ones just tested *)
  all: match goal with
       | E : (_ || _) = false |- _ =>
           cbn [negb andb orb] in E; rewrite ?orb_false_r in E;
           apply negb_false_iff, String.eqb_eq in E;
           destruct_word w Hlen; cbn in E; injection E as E; intros; subst;
           reflexivity
       end.
Qed.

(** Every B-type result carries 30 of the 32 bits in [binFrags]. *)
Lemma binFrags_BRANCH I w cfg d :
  String.length w = 32%nat ->
  fslice w FIELDS.opcode = OPCODE.BRANCH ->
  Decoder.constructor I w cfg = Ok d ->
  joined (Decoder.binFrags d)
  = slice w 30 6 ++ slice w 24 13 ++ slice w 11 4 ++ slice w 6 7
  /\ String.length (joined (Decoder.binFrags d)) = 30%nat.
Proof.
  intros Hlen Hop H.
  destruct (constructor_inv I w cfg Hlen d H) as (d1 & Hd & Hf).
  apply finish_inv in Hf as (-> & _).
  rewrite dispatch_BRANCH in Hd by exact Hop.
  unfold Decoder.decodeBRANCH in Hd. run_handler Hd Hlen. step_handler Hd.
  injection Hd as <-. cbn. destruct_word w Hlen. split; reflexivity.
Qed.

(** C1, evaluated on [beq x0, x0, -4] (0xfe000ee3).  The claim is that the
    [binFrags] of every successful decode partition the word, B-type results
    included.  On this branch word the decoder succeeds, yet its [binFrags]
    are imm[10:5], rs2, rs1, funct3, imm[4:1] and opcode only: the fragments
    of imm[12] and imm[11] are built but never pushed, so the concatenated
    bits are 30 characters long and differ from the 32-character word. *)
Theorem C1_BRANCH_binFrags_miss_two_bits :
  exists d,
    Decoder.constructor RV.imports beq_word cfg32 = Ok d /\
    Decoder.asm d = Some "beq x0, x0, -4" /\
    map Frag.bits (Decoder.binFrags d) =
      ["111111"; "00000"; "00000"; "000"; "1110"; "1100011"] /\
    String.length (joined (Decoder.binFrags d)) = 30%nat /\
    joined (Decoder.binFrags d) <> beq_word.
Proof.
  eexists. split; [vm_compute; reflexivity|].
  repeat split. cbn. discriminate.
Qed.

(** ** U-type immediates (C2) *)

(** C2, as amended.  For every successful decode of a LUI or AUIPC word the
    assembly fragments are opcode, rd and the immediate; the immediate
    fragment holds the raw 20 bits imm[31:12], and its token is that field
    read as a 20-bit two's-complement number, not shifted: the unsigned field
    value when bit 31 of the word is 0, and that value minus 2^20 when bit 31
    is 1. *)
Theorem C2_UType_imm_sign_extended I cfg w d :
  word32 w ->
  fslice w FIELDS.opcode = OPCODE.LUI \/ fslice w FIELDS.opcode = OPCODE.AUIPC ->
  Decoder.constructor I w cfg = Ok d ->
  let field := unsigned (fslice w FIELDS.u_imm_31_12) in
  (slice w 31 1 = "0" \/ slice w 31 1 = "1") /\
  0 <= field < 2 ^ 20 /\
  exists f_op f_rd f_imm,
    Decoder.asmFrags d = [f_op; f_rd; f_imm] /\
    Frag.bits f_imm = fslice w FIELDS.u_imm_31_12 /\
    (slice w 31 1 = "0" -> Frag.asm f_imm = JNumber (Num field)) /\
    (slice w 31 1 = "1" -> Frag.asm f_imm = JNumber (Num (field - 2 ^ 20))).
Proof.
  intros [Hlen Hbin] Hop H field.
  assert (Hbit : slice w 31 1 = "0" \/ slice w 31 1 = "1").
  { pose proof (is_bin_substring w 0 1 Hbin) as B. unfold slice. cbn [Nat.sub].
    pose proof (substring_length w 0 1) as L. rewrite Hlen in L. cbn in L.
    destruct (substring 0 1 w) as [|c [|c' r]]; try discriminate L.
    cbn in B. rewrite andb_true_r in B.
    apply is_bit_cases in B as [-> | ->]; auto. }
  split; [exact Hbit|].
  split; [apply (unsigned_field_bounds w Hlen FIELDS.u_imm_31_12)|].
  destruct (constructor_inv I w cfg Hlen d H) as (d1 & Hd & Hf).
  apply finish_inv in Hf as (_ & -> & _).
  rewrite dispatch_UType in Hd by exact Hop.
  unfold Decoder.decodeUType in Hd. run_handler Hd Hlen.
  injection Hd as <-. spell_out.
  do 3 eexists. split; [reflexivity|]. cbn [Frag.bits Frag.asm]. split; [reflexivity|].
  rewrite decImm_signed.
  - destruct (twos_complement_msb (fslice w FIELDS.u_imm_31_12)
                (fslice_is_bin w _ Hbin)) as [H0 H1].
    rewrite fslice_length in H1 by exact Hlen.
    replace (substring 0 1 (fslice w FIELDS.u_imm_31_12)) with (slice w 31 1)
      in H0, H1 by (destruct_word w Hlen; reflexivity).
    split; intros E; [rewrite (H0 E) | rewrite (H1 E)]; reflexivity.
  - apply fslice_is_bin, Hbin.
  - apply (length_nonempty _ 19). apply fslice_length, Hlen.
  - rewrite fslice_length by exact Hlen. cbn. lia.
Qed.

Lemma C2_UType_imm_sign_extended_witness :
  (Decoder.asm (decoded RV.imports lui_word cfg32) = Some "lui x1, -524288" /\
   Decoder.asm (decoded RV.imports auipc_word cfg32) = Some "auipc x5, 74565") /\
  (exists f_op f_rd f_imm,
     Decoder.asmFrags (decoded RV.imports lui_word cfg32) = [f_op; f_rd; f_imm] /\
     Frag.bits f_imm = "10000000000000000000" /\
     Frag.asm f_imm = JNumber (Num (524288 - 2 ^ 20))) /\
  (exists f_op f_rd f_imm,
     Decoder.asmFrags (decoded RV.imports auipc_word cfg32) = [f_op; f_rd; f_imm] /\
     Frag.bits f_imm = "00010010001101000101" /\
     Frag.asm f_imm = JNumber (Num 74565)).
Proof.
  split; [split; vm_compute; reflexivity|].
  split.
  - destruct (C2_UType_imm_sign_extended RV.imports cfg32 lui_word
                (decoded RV.imports lui_word cfg32)
                (conj eq_refl eq_refl) (or_introl eq_refl) eq_refl)
      as (_ & _ & f_op & f_rd & f_imm & Ha & Hb & _ & H1).
    exists f_op, f_rd, f_imm. split; [exact Ha|]. split; [exact Hb|].
    apply H1. reflexivity.
  - destruct (C2_UType_imm_sign_extended RV.imports cfg32 auipc_word
                (decoded RV.imports auipc_word cfg32)
                (conj eq_refl eq_refl) (or_intror eq_refl) eq_refl)
      as (_ & _ & f_op & f_rd & f_imm & Ha & Hb & H0 & _).
    exists f_op, f_rd, f_imm. split; [exact Ha|]. split; [exact Hb|].
    apply H0. reflexivity.
Defined.

(** The claim has the token unsigned; for [lui x1, 0x80000] it is -524288. *)
Lemma C2_counterexample :
  ~ (forall d f,
        Decoder.constructor RV.imports lui_word cfg32 = Ok d ->
        nth_error (Decoder.asmFrags d) 2 = Some f ->
        Frag.asm f = JNumber (Num (unsigned (fslice lui_word FIELDS.u_imm_31_12)))).
Proof.
  intros H.
  specialize (H (decoded RV.imports lui_word cfg32)
                (Frag.new (JNumber (Num (-524288))) "10000000000000000000"
                   "imm[31:12]" false)).
  assert (E1 : Decoder.constructor RV.imports lui_word cfg32
               = Ok (decoded RV.imports lui_word cfg32)) by (vm_compute; reflexivity).
  assert (E2 : nth_error (Decoder.asmFrags (decoded RV.imports lui_word cfg32)) 2
               = Some (Frag.new (JNumber (Num (-524288))) "10000000000000000000"
                         "imm[31:12]" false)) by (vm_compute; reflexivity).
  specialize (H E1 E2). vm_compute in H. discriminate H.
Qed.

(** ** Shift amounts of OP-IMM (C3) *)

(** C3.  For every OP-IMM shift word: the decoder takes the shift amount as
    6 bits exactly when the configured ISA is RV64I or bit 25 of the word is
    1; when it is 6 bits and the configured ISA is RV32I, decoding fails with
    ShiftOutOfRange; and on success the shift-amount fragment is the 6-bit
    field shamt[5:0] with the result tagged RV64I when the amount is 6 bits,
    the 5-bit field shamt[4:0] otherwise, its token being the unsigned value
    of the field. *)
Theorem C3_OP_IMM_shamt_width I cfg w :
  word32 w ->
  fslice w FIELDS.opcode = OPCODE.OP_IMM ->
  is_shift I (ISA_OP_IMM I) (fslice w FIELDS.funct3) = true ->
  let six := Decoder.shamt_64 (start w cfg) false (fslice w FIELDS.i_shamt_5) in
  (six = true <-> ISA_opt cfg = RV64I \/ fslice w FIELDS.i_shamt_5 = "1") /\
  (six = true -> ISA_opt cfg = RV32I ->
   Decoder.constructor I w cfg = Throw ShiftOutOfRange) /\
  (forall d, Decoder.constructor I w cfg = Ok d ->
   exists f_op f_rd f_rs1 f_imm,
     Decoder.asmFrags d = [f_op; f_rd; f_rs1; f_imm] /\
     if six
     then Decoder.isa d = Some "RV64I" /\
          Frag.bits f_imm = fslice w FIELDS.i_shamt_5_0 /\
          Frag.asm f_imm = JNumber (Num (unsigned (fslice w FIELDS.i_shamt_5_0)))
     else Frag.bits f_imm = fslice w FIELDS.i_shamt /\
          Frag.asm f_imm = JNumber (Num (unsigned (fslice w FIELDS.i_shamt)))).
Proof.
  intros [Hlen Hbin] Hop Hs six.
  assert (Hsix : six = true <-> ISA_opt cfg = RV64I \/ fslice w FIELDS.i_shamt_5 = "1").
  { unfold six, Decoder.shamt_64. cbn [negb andb start Decoder.config].
    rewrite orb_true_iff, String.eqb_eq.
    destruct (ISA_opt cfg); split; intros [H|H]; auto; discriminate. }
  split; [exact Hsix|]. split.
  - intros H6 H32. apply Hsix in H6 as [H6|H6]; [congruence|].
    apply eqb_true_l in H6.
    pose proof (constructor_cases I w cfg Hlen) as HC.
    destruct (Decoder.constructor I w cfg) as [d|e];
      [ exfalso; destruct HC as (d1 & Hd & _)
      | destruct HC as [Hd | (d1 & Hd & _)]; [|exfalso] ].
    all: rewrite dispatch_OP_IMM in Hd by (left; exact Hop).
    all: open_OP_IMM Hd Hlen Hop Hs.
    all: rewrite H32, H6 in Hd; cbn [orb] in Hd.
    all: step_handler Hd; congruence.
  - intros d H.
    destruct (constructor_inv I w cfg Hlen d H) as (d1 & Hd & Hf).
    apply finish_inv in Hf as (_ & -> & _ & _ & inst & a & _ & _ & -> & _).
    rewrite dispatch_OP_IMM in Hd by (left; exact Hop).
    open_OP_IMM Hd Hlen Hop Hs.
    unfold six, Decoder.shamt_64. cbn [negb andb start Decoder.config].
    step_handler Hd; try congruence.
    all: injection Hd as <-.
    all: spell_out.
    all: do 4 eexists; (split; [reflexivity|]); cbn [Frag.bits Frag.asm].
    all: rewrite ?shamt_5_0_split by exact Hlen.
    all: rewrite decImm_field_unsigned by (split; assumption).
    all: repeat split.
Qed.

Lemma C3_OP_IMM_shamt_width_witness :
  Decoder.constructor RV.imports slli40_word cfg32 = Throw ShiftOutOfRange /\
  Decoder.isa (decoded RV.imports slli40_word cfg64) = Some "RV64I" /\
  Decoder.isa (decoded RV.imports slli3_word cfg32) = Some "RV32I" /\
  (exists f_op f_rd f_rs1 f_imm,
     Decoder.asmFrags (decoded RV.imports slli40_word cfg64)
       = [f_op; f_rd; f_rs1; f_imm] /\
     if Decoder.shamt_64 (start slli40_word cfg64) false
          (fslice slli40_word FIELDS.i_shamt_5)
     then Decoder.isa (decoded RV.imports slli40_word cfg64) = Some "RV64I" /\
          Frag.bits f_imm = fslice slli40_word FIELDS.i_shamt_5_0 /\
          Frag.asm f_imm =
            JNumber (Num (unsigned (fslice slli40_word FIELDS.i_shamt_5_0)))
     else Frag.bits f_imm = fslice slli40_word FIELDS.i_shamt /\
          Frag.asm f_imm =
            JNumber (Num (unsigned (fslice slli40_word FIELDS.i_shamt)))).
Proof.
  pose proof (C3_OP_IMM_shamt_width RV.imports cfg32 slli40_word
                (conj eq_refl eq_refl) eq_refl eq_refl) as (_ & H32 & _).
  pose proof (C3_OP_IMM_shamt_width RV.imports cfg64 slli40_word
                (conj eq_refl eq_refl) eq_refl eq_refl) as (_ & _ & H64).
  split; [apply H32; reflexivity|].
  split; [vm_compute; reflexivity|].
  split; [vm_compute; reflexivity|].
  apply H64. vm_compute. reflexivity.
Defined.

(** ** Shift amounts of OP-IMM-32 (C4) *)

(** C4.  For every OP-IMM-32 shift word: if bit 25 (shamt[5]) is 1 the word
    is rejected (the check of the upper immediate bits fails, BadShtyp); and
    whenever decoding succeeds, bit 25 is 0 and the shift amount is the
    unsigned value, between 0 and 31, of the 5-bit field shamt[4:0]. *)
Theorem C4_OP_IMM_32_shamt I cfg w :
  word32 w ->
  fslice w FIELDS.opcode = OPCODE.OP_IMM_32 ->
  is_shift I (ISA_OP_IMM_32 I) (fslice w FIELDS.funct3) = true ->
  (fslice w FIELDS.i_shamt_5 = "1" ->
   Decoder.constructor I w cfg = Throw BadShtyp) /\
  (forall d, Decoder.constructor I w cfg = Ok d ->
   fslice w FIELDS.i_shamt_5 = "0" /\
   exists f_op f_rd f_rs1 f_imm,
     Decoder.asmFrags d = [f_op; f_rd; f_rs1; f_imm] /\
     Frag.bits f_imm = fslice w FIELDS.i_shamt /\
     Frag.asm f_imm = JNumber (Num (unsigned (fslice w FIELDS.i_shamt))) /\
     0 <= unsigned (fslice w FIELDS.i_shamt) < 32).
Proof.
  intros [Hlen Hbin] Hop Hs.
  assert (Hok : forall d1,
             Decoder.dispatch I (start w cfg) = Ok d1 ->
             fslice w FIELDS.i_shamt_5 = "0" /\
             exists f_op f_rd f_rs1 f_imm,
               Decoder.asmFrags d1 = [f_op; f_rd; f_rs1; f_imm] /\
               Frag.bits f_imm = fslice w FIELDS.i_shamt /\
               Frag.asm f_imm = JNumber (Num (unsigned (fslice w FIELDS.i_shamt)))).
  { intros d1 Hd. rewrite dispatch_OP_IMM in Hd by (right; exact Hop).
    open_OP_IMM Hd Hlen Hop Hs. step_handler Hd; try congruence.
    all: injection Hd as <-.
    all: match goal with
         | E : (_ || _) = false |- _ =>
             cbn [negb andb orb] in E; rewrite ?orb_false_r in E;
             apply negb_false_iff in E
         end.
    all: split; [apply shtyp_11_5_check; assumption|].
    all: spell_out.
    all: do 4 eexists; (split; [reflexivity|]); cbn [Frag.bits Frag.asm].
    all: rewrite decImm_field_unsigned by (split; assumption).
    all: split; reflexivity. }
  split.
  - intros H5.
    pose proof (constructor_cases I w cfg Hlen) as HC.
    destruct (Decoder.constructor I w cfg) as [d|e];
      [ destruct HC as (d1 & Hd & _); apply Hok in Hd as [Hd _]; congruence
      | destruct HC as [Hd | (d1 & Hd & _)];
        [| apply Hok in Hd as [Hd _]; congruence] ].
    rewrite dispatch_OP_IMM in Hd by (right; exact Hop).
    open_OP_IMM Hd Hlen Hop Hs. step_handler Hd; congruence.
  - intros d H.
    destruct (constructor_inv I w cfg Hlen d H) as (d1 & Hd & Hf).
    apply finish_inv in Hf as (_ & -> & _).
    apply Hok in Hd as (H0 & f_op & f_rd & f_rs1 & f_imm & Ha & Hb & Hv).
    split; [exact H0|]. exists f_op, f_rd, f_rs1, f_imm.
    repeat split; try assumption.
    + apply unsigned_bounds.
    + pose proof (unsigned_bounds (fslice w FIELDS.i_shamt)) as HB.
      rewrite fslice_length in HB by exact Hlen. apply HB.
Qed.

Lemma C4_OP_IMM_32_shamt_witness :
  Decoder.constructor RV.imports slliw35_word cfg64 = Throw BadShtyp /\
  fslice slliw3_word FIELDS.i_shamt_5 = "0" /\
  exists f_op f_rd f_rs1 f_imm,
    Decoder.asmFrags (decoded RV.imports slliw3_word cfg64)
      = [f_op; f_rd; f_rs1; f_imm] /\
    Frag.bits f_imm = fslice slliw3_word FIELDS.i_shamt /\
    Frag.asm f_imm = JNumber (Num (unsigned (fslice slliw3_word FIELDS.i_shamt))) /\
    0 <= unsigned (fslice slliw3_word FIELDS.i_shamt) < 32.
Proof.
  pose proof (C4_OP_IMM_32_shamt RV.imports cfg64 slliw35_word
                (conj eq_refl eq_refl) eq_refl eq_refl) as (Hbad & _).
  pose proof (C4_OP_IMM_32_shamt RV.imports cfg64 slliw3_word
                (conj eq_refl eq_refl) eq_refl eq_refl) as (_ & Hok).
  split; [apply Hbad; reflexivity|].
  apply Hok. vm_compute. reflexivity.
Defined.

(** ** Branch offsets (C6) *)

(** C6.  For every successfully decoded BRANCH word, the offset token is the
    13-bit text imm[12], imm[11], imm[10:5], imm[4:1] followed by a 0, read
    in two's complement: its unsigned value when bit 31 of the word (imm[12])
    is 0, its unsigned value minus 8192 when that bit is 1; it is an even
    number from -4096 to 4094, and with ABI naming off the assembly text ends
    with it in decimal.  (The witnesses are 0xfe000ee3, offset -4, and a
    forward branch, offset 2056.) *)
Theorem C6_BRANCH_offset I cfg w d :
  word32 w ->
  fslice w FIELDS.opcode = OPCODE.BRANCH ->
  Decoder.constructor I w cfg = Ok d ->
  let imm := fslice w FIELDS.b_imm_12 ++ fslice w FIELDS.b_imm_11 ++
             fslice w FIELDS.b_imm_10_5 ++ fslice w FIELDS.b_imm_4_1 ++ "0" in
  let offset := if 4096 <=? unsigned imm then unsigned imm - 8192
                else unsigned imm in
  String.length imm = 13%nat /\
  (slice w 31 1 = "0" -> offset = unsigned imm) /\
  (slice w 31 1 = "1" -> offset = unsigned imm - 8192) /\
  (- 4096 <= offset <= 4094 /\ offset mod 2 = 0) /\
  exists f_op f_rs1 f_rs2 f_imm m,
    Decoder.asmFrags d = [f_op; f_rs1; f_rs2; f_imm] /\
    Frag.bits f_imm = imm /\
    Frag.asm f_imm = JNumber (Num offset) /\
    Frag.asm f_op = JString m /\
    (ABI cfg = false ->
     Decoder.asm d =
       Some (trim (m ++ " " ++ toString (Frag.asm f_rs1) ++ ", " ++
                   toString (Frag.asm f_rs2) ++ ", " ++
                   dec_string offset))).
Proof.
  intros [Hlen Hbin] Hop H imm offset.
  assert (Himm : String.length imm = 13%nat).
  { unfold imm. rewrite !app_length, !fslice_length by exact Hlen. reflexivity. }
  assert (Hib : is_bin imm = true).
  { unfold imm. rewrite !is_bin_app, !fslice_is_bin by exact Hbin. reflexivity. }
  assert (Hoff : offset = twos_complement imm).
  { unfold offset, twos_complement. rewrite Himm. reflexivity. }
  split; [exact Himm|].
  destruct (twos_complement_msb imm Hib) as [H0 H1].
  rewrite Himm in H1. change (2 ^ Z.of_nat 13) with 8192 in H1.
  replace (substring 0 1 imm) with (slice w 31 1) in H0, H1
    by (unfold imm; destruct_word w Hlen; reflexivity).
  split; [intros E; rewrite Hoff; exact (H0 E)|].
  split; [intros E; rewrite Hoff; exact (H1 E)|].
  split.
  { set (hi := fslice w FIELDS.b_imm_12 ++ fslice w FIELDS.b_imm_11 ++
               fslice w FIELDS.b_imm_10_5 ++ fslice w FIELDS.b_imm_4_1).
    assert (Ei : imm = hi ++ "0")
      by (unfold imm, hi; rewrite !append_assoc; reflexivity).
    assert (Hh : String.length hi = 12%nat)
      by (unfold hi; rewrite !app_length, !fslice_length by exact Hlen;
          reflexivity).
    pose proof (unsigned_bounds hi) as HB. rewrite Hh in HB.
    change (2 ^ Z.of_nat 12) with 4096 in HB.
    assert (Eu : unsigned imm = 2 * unsigned hi).
    { rewrite Ei, unsigned_app. change (unsigned "0") with 0.
      change (2 ^ Z.of_nat (String.length "0")) with 2. lia. }
    unfold offset. rewrite Eu.
    destruct (4096 <=? 2 * unsigned hi) eqn:E;
      [apply Z.leb_le in E | apply Z.leb_gt in E].
    - split; [lia|].
      replace (2 * unsigned hi - 8192) with ((unsigned hi - 4096) * 2) by lia.
      apply Z.mod_mul. lia.
    - split; [lia|]. rewrite Z.mul_comm. apply Z.mod_mul. lia. }
  destruct (constructor_inv I w cfg Hlen d H) as (d1 & Hd & Hf).
  apply finish_inv in Hf as (_ & -> & _ & _ & inst & a & _ & _ & _ & Hr & ->).
  rewrite dispatch_BRANCH in Hd by exact Hop.
  unfold Decoder.decodeBRANCH in Hd. run_handler Hd Hlen. step_handler Hd.
  injection Hd as <-.
  spell_out.
  fold imm in Hr |- *.
  assert (Hdec : decImm imm true = Num offset).
  { rewrite Hoff. apply decImm_signed.
    - exact Hib.
    - apply (length_nonempty _ 12), Himm.
    - rewrite Himm. lia. }
  rewrite Hdec in *.
  do 5 eexists. split; [reflexivity|]. cbn [Frag.bits Frag.asm].
  split; [reflexivity|]. split; [reflexivity|]. split; [reflexivity|].
  intros Habi. rewrite Habi in Hr. apply renderAsm_operands in Hr as ->.
  cbn [operands separator operand Frag.asm Frag.mem Frag.field andb
       toString num_toString].
  rewrite append_nil_r. reflexivity.
Qed.

Lemma C6_BRANCH_offset_witness :
  (Decoder.asm (decoded RV.imports beq_word cfg32) = Some "beq x0, x0, -4" /\
   Decoder.asm (decoded RV.imports bne_word cfg32) = Some "bne x1, x2, 2056") /\
  (exists f_op f_rs1 f_rs2 f_imm m,
     Decoder.asmFrags (decoded RV.imports beq_word cfg32) = [f_op; f_rs1; f_rs2; f_imm] /\
     Frag.bits f_imm = "1111111111100" /\
     Frag.asm f_imm = JNumber (Num (-4)) /\
     Frag.asm f_op = JString m /\
     (ABI cfg32 = false ->
      Decoder.asm (decoded RV.imports beq_word cfg32) =
        Some (trim (m ++ " " ++ toString (Frag.asm f_rs1) ++ ", " ++
                    toString (Frag.asm f_rs2) ++ ", " ++ dec_string (-4))))) /\
  (exists f_op f_rs1 f_rs2 f_imm m,
     Decoder.asmFrags (decoded RV.imports bne_word cfg32) = [f_op; f_rs1; f_rs2; f_imm] /\
     Frag.bits f_imm = "0100000001000" /\
     Frag.asm f_imm = JNumber (Num 2056) /\
     Frag.asm f_op = JString m /\
     (ABI cfg32 = false ->
      Decoder.asm (decoded RV.imports bne_word cfg32) =
        Some (trim (m ++ " " ++ toString (Frag.asm f_rs1) ++ ", " ++
                    toString (Frag.asm f_rs2) ++ ", " ++ dec_string 2056)))).
Proof.
  split; [split; vm_compute; reflexivity|].
  split.
  - apply (C6_BRANCH_offset RV.imports cfg32 beq_word
             (decoded RV.imports beq_word cfg32)
             (conj eq_refl eq_refl) eq_refl eq_refl).
  - apply (C6_BRANCH_offset RV.imports cfg32 bne_word
             (decoded RV.imports bne_word cfg32)
             (conj eq_refl eq_refl) eq_refl eq_refl).
Defined.

(** ** Zicsr operands (C7) *)

Lemma hex3_table :
  forallb (fun n => hex3 (padStart (hex_string (Z.of_nat n)) 3 "0") (Z.of_nat n))
          (seq 0 4096) = true.
Proof. vm_compute. reflexivity. Qed.

Lemma hex3_padStart (v : Z) :
  0 <= v < 4096 -> hex3 (padStart (hex_string v) 3 "0") v = true.
Proof.
  intros Hv. pose proof hex3_table as T. rewrite forallb_forall in T.
  specialize (T (Z.to_nat v)). rewrite Z2Nat.id in T by lia.
  apply T. apply in_seq. lia.
Qed.

Lemma find_csr_Some (t : list (string * Z)) (z : Z) (name : string) :
  find_csr t (Num z) = Some name -> In (name, z) t.
Proof.
  induction t as [|[n v] t IH]; cbn; [discriminate|].
  destruct (v =? z) eqn:E.
  - intros H. injection H as <-. apply Z.eqb_eq in E as ->. now left.
  - intros H. right. apply IH, H.
Qed.

Lemma find_csr_None (t : list (string * Z)) (z : Z) :
  find_csr t (Num z) = None -> forall name, ~ In (name, z) t.
Proof.
  induction t as [|[n v] t IH]; cbn; [tauto|].
  destruct (v =? z) eqn:E; [discriminate|].
  intros H name [Hin|Hin].
  - injection Hin as -> ->. rewrite Z.eqb_refl in E. discriminate.
  - exact (IH H name Hin).
Qed.

(** In the instance [RV] the Zicsr mnemonics sit at the non-zero [funct3]. *)
Lemma RV_Zicsr_funct3_nonzero (f m : string) :
  lookup (ISA_SYSTEM RV.imports) f = Some (Mne m) -> f <> "000".
Proof. intros H ->. discriminate H. Qed.

(** C7.  For every SYSTEM word whose funct3 selects a Zicsr mnemonic and that
    decodes successfully, the operands are rd, csr and the source.  The
    source is the integer register x<rs1> when the high bit of funct3
    (bit 14 of the word) is 0, and the unsigned value, below 32, of the five
    bits when that bit is 1.  The csr token is a name the CSR table gives for
    the 12-bit address when there is one, and otherwise [0x] followed by
    exactly three lowercase hexadecimal digits spelling the address. *)
Theorem C7_Zicsr_source_and_csr I cfg w d m :
  word32 w ->
  fslice w FIELDS.opcode = OPCODE.SYSTEM ->
  lookup (ISA_SYSTEM I) (fslice w FIELDS.funct3) = Some (Mne m) ->
  Decoder.constructor I w cfg = Ok d ->
  let addr := unsigned (fslice w FIELDS.i_csr) in
  let src := unsigned (fslice w FIELDS.rs1) in
  exists f_op f_rd f_csr f_src,
    Decoder.asmFrags d = [f_op; f_rd; f_csr; f_src] /\
    Frag.bits f_src = fslice w FIELDS.rs1 /\
    0 <= src < 32 /\
    (slice w 14 1 = "0" -> Frag.asm f_src = JString ("x" ++ dec_string src)) /\
    (slice w 14 1 = "1" -> Frag.asm f_src = JNumber (Num src)) /\
    Frag.bits f_csr = fslice w FIELDS.i_csr /\
    ((exists name, In (name, addr) (CSR I)) ->
     exists name, In (name, addr) (CSR I) /\ Frag.asm f_csr = JString name) /\
    ((forall name, ~ In (name, addr) (CSR I)) ->
     exists digits, Frag.asm f_csr = JString ("0x" ++ digits) /\
                    hex3 digits addr = true).
Proof.
  intros Hw Hop Hm H addr src. pose proof Hw as [Hlen Hbin].
  destruct (constructor_inv I w cfg Hlen d H) as (d1 & Hd & Hf).
  apply finish_inv in Hf as (_ & -> & _).
  rewrite dispatch_SYSTEM in Hd by exact Hop.
  unfold Decoder.decodeSYSTEM in Hd. run_handler Hd Hlen.
  rewrite Hm in Hd.
  assert (Hsrc : 0 <= src < 32) by (apply (unsigned_field_bounds w Hlen FIELDS.rs1)).
  assert (Haddr : 0 <= addr < 4096) by (apply (unsigned_field_bounds w Hlen FIELDS.i_csr)).
  assert (Hcsr :
    ((exists name, In (name, addr) (CSR I)) ->
     exists name, In (name, addr) (CSR I) /\
                  JString (decCSR (CSR I) (fslice w FIELDS.i_csr)) = JString name) /\
    ((forall name, ~ In (name, addr) (CSR I)) ->
     exists digits, JString (decCSR (CSR I) (fslice w FIELDS.i_csr)) = JString ("0x" ++ digits) /\
                    hex3 digits addr = true)).
  { unfold decCSR.
    pose proof (decImm_field_unsigned w FIELDS.i_csr Hw) as E.
    unfold decImm in E. cbn [andb] in E. rewrite E. fold addr.
    destruct (find_csr (CSR I) (Num addr)) as [name|] eqn:F.
    - split.
      + intros _. exists name. split; [apply find_csr_Some, F | reflexivity].
      + intros Hno. exfalso. apply (Hno name), find_csr_Some, F.
    - split.
      + intros [name Hin]. exfalso. exact (find_csr_None _ _ F name Hin).
      + intros _. eexists. split; [reflexivity|]. apply hex3_padStart, Haddr. }
  assert (Hbit : char_is (fslice w FIELDS.funct3) 0 "0" = true <-> slice w 14 1 = "0").
  { destruct_word w Hlen.
    repeat match goal with
           | |- context [fslice ?x ?k] =>
               let v := eval cbv in (fslice x k) in change (fslice x k) with v
           | |- context [slice ?x ?h ?n] =>
               let v := eval cbv in (slice x h n) in change (slice x h n) with v
           end.
    cbn [char_is String.get]. rewrite Ascii.eqb_eq. split; congruence. }
  destruct (char_is (fslice w FIELDS.funct3) 0 "0") eqn:E0.
  - injection Hd as <-. spell_out.
    do 4 eexists. split; [reflexivity|]. cbn [Frag.bits Frag.asm].
    rewrite decReg_field by exact Hw. fold src.
    split; [reflexivity|]. split; [exact Hsrc|].
    split; [reflexivity|].
    split; [intros E1; assert (slice w 14 1 = "0") by (now apply Hbit); congruence|].
    split; [reflexivity | exact Hcsr].
  - injection Hd as <-. spell_out.
    do 4 eexists. split; [reflexivity|]. cbn [Frag.bits Frag.asm].
    rewrite decImm_field_unsigned by exact Hw. fold src.
    split; [reflexivity|]. split; [exact Hsrc|].
    split; [intros E1; apply Hbit in E1; discriminate|].
    split; [reflexivity|].
    split; [reflexivity | exact Hcsr].
Qed.

Lemma C7_Zicsr_source_and_csr_witness :
  Decoder.asm (decoded RV.imports csrrw_word cfg32) = Some "csrrw x0, mtvec, x5" /\
  Decoder.asm (decoded RV.imports csrrwi_word cfg32) = Some "csrrwi x0, 0x7c0, 5" /\
  exists f_op f_rd f_csr f_src,
    Decoder.asmFrags (decoded RV.imports csrrwi_word cfg32)
      = [f_op; f_rd; f_csr; f_src] /\
    Frag.bits f_src = fslice csrrwi_word FIELDS.rs1 /\
    0 <= unsigned (fslice csrrwi_word FIELDS.rs1) < 32 /\
    (slice csrrwi_word 14 1 = "0" ->
     Frag.asm f_src
     = JString ("x" ++ dec_string (unsigned (fslice csrrwi_word FIELDS.rs1)))) /\
    (slice csrrwi_word 14 1 = "1" ->
     Frag.asm f_src = JNumber (Num (unsigned (fslice csrrwi_word FIELDS.rs1)))) /\
    Frag.bits f_csr = fslice csrrwi_word FIELDS.i_csr /\
    ((exists name, In (name, unsigned (fslice csrrwi_word FIELDS.i_csr)) (CSR RV.imports)) ->
     exists name, In (name, unsigned (fslice csrrwi_word FIELDS.i_csr)) (CSR RV.imports) /\
                  Frag.asm f_csr = JString name) /\
    ((forall name, ~ In (name, unsigned (fslice csrrwi_word FIELDS.i_csr)) (CSR RV.imports)) ->
     exists digits, Frag.asm f_csr = JString ("0x" ++ digits) /\
                    hex3 digits (unsigned (fslice csrrwi_word FIELDS.i_csr)) = true).
Proof.
  split; [vm_compute; reflexivity|]. split; [vm_compute; reflexivity|].
  apply (C7_Zicsr_source_and_csr RV.imports cfg32 csrrwi_word
           (decoded RV.imports csrrwi_word cfg32) "csrrwi").
  - split; reflexivity.
  - reflexivity.
  - reflexivity.
  - vm_compute; reflexivity.
Defined.

(** ** Fence masks (C8) *)

Lemma decMem_mask (s : string) :
  is_bin s = true -> String.length s = 4%nat ->
  decMem s = if (s =? "0000")%string then Throw InvalidFence
             else Ok (mask_letters s).
Proof.
  intros Hb Hl.
  do 4 (destruct s as [|? s]; [discriminate Hl|]).
  destruct s; [|discriminate Hl].
  cbn [is_bin] in Hb.
  repeat match type of Hb with
         | (_ && _) = true => apply andb_true_iff in Hb as [?H Hb]
         end.
  repeat match goal with
         | H : is_bit _ = true |- _ => apply is_bit_cases in H as [-> | ->]
         end; reflexivity.
Qed.

Lemma decMem_field (w : string) (k : FIELDS.key) :
  word32 w -> snd (FIELDS.pos k) = 4 ->
  decMem (fslice w k) = if (fslice w k =? "0000")%string then Throw InvalidFence
                        else Ok (mask_letters (fslice w k)).
Proof.
  intros [Hlen Hbin] Hk. apply decMem_mask.
  - apply fslice_is_bin, Hbin.
  - rewrite fslice_length by exact Hlen. rewrite Hk. reflexivity.
Qed.

(** C8, as amended.  For every fence word: on a successful decode the pred
    and succ tokens are the letters i, o, r, w of the set bits of the 4-bit
    masks, in that order from the MSB; and when either mask is all zero
    decoding fails, with InvalidFence provided the rd and rs1 fields are
    zero (the decoder checks them first, and reports them first). *)
Theorem C8_fence_masks I cfg w :
  word32 w ->
  fslice w FIELDS.opcode = OPCODE.MISC_MEM ->
  lookup (ISA_MISC_MEM I) (fslice w FIELDS.funct3) = Some "fence" ->
  (forall d, Decoder.constructor I w cfg = Ok d ->
   exists f_op f_pred f_succ,
     Decoder.asmFrags d = [f_op; f_pred; f_succ] /\
     Frag.bits f_pred = fslice w FIELDS.i_pred /\
     Frag.asm f_pred = JString (mask_letters (fslice w FIELDS.i_pred)) /\
     Frag.bits f_succ = fslice w FIELDS.i_succ /\
     Frag.asm f_succ = JString (mask_letters (fslice w FIELDS.i_succ)) /\
     (ABI cfg = false ->
      Decoder.asm d = Some (trim ("fence " ++ mask_letters (fslice w FIELDS.i_pred)
                                  ++ ", " ++ mask_letters (fslice w FIELDS.i_succ))))) /\
  (fslice w FIELDS.i_pred = "0000" \/ fslice w FIELDS.i_succ = "0000" ->
   (exists e, Decoder.constructor I w cfg = Throw e) /\
   (fslice w FIELDS.rd = "00000" -> fslice w FIELDS.rs1 = "00000" ->
    Decoder.constructor I w cfg = Throw InvalidFence)).
Proof.
  intros Hw Hop Hm. pose proof Hw as [Hlen Hbin].
  pose proof (decMem_field w FIELDS.i_pred Hw eq_refl) as Hp.
  pose proof (decMem_field w FIELDS.i_succ Hw eq_refl) as Hs.
  assert (Hrun : Decoder.dispatch I (start w cfg)
                 = Decoder.decodeMISC_MEM I (start w cfg))
    by (apply dispatch_MISC_MEM, Hop).
  split.
  - intros d H.
    destruct (constructor_inv I w cfg Hlen d H) as (d1 & Hd & Hf).
    apply finish_inv in Hf as (_ & -> & _ & _ & inst & a & _ & _ & _ & Hr & ->).
    rewrite Hrun in Hd.
    unfold Decoder.decodeMISC_MEM in Hd. run_handler Hd Hlen.
    rewrite Hm, Hp, Hs in Hd. cbn [String.eqb Ascii.eqb Bool.eqb] in Hd.
    step_handler Hd. injection Hd as <-.
    spell_out.
    do 3 eexists. split; [reflexivity|]. cbn [Frag.bits Frag.asm].
    do 4 (split; [reflexivity|]).
    intros Habi. rewrite Habi in Hr. apply renderAsm_operands in Hr as ->.
    cbn [operands separator operand Frag.asm Frag.mem Frag.field andb
         toString num_toString].
    rewrite append_nil_r. reflexivity.
  - intros Hz.
    pose proof (constructor_cases I w cfg Hlen) as HC.
    assert (Hno : forall d1, Decoder.dispatch I (start w cfg) <> Ok d1).
    { intros d1 Hd. rewrite Hrun in Hd.
      unfold Decoder.decodeMISC_MEM in Hd. run_handler Hd Hlen.
      rewrite Hm, Hp, Hs in Hd. cbn [String.eqb Ascii.eqb Bool.eqb] in Hd.
      step_handler Hd.
      destruct Hz as [Hz|Hz]; rewrite Hz in *; discriminate. }
    destruct (Decoder.constructor I w cfg) as [d|e].
    { destruct HC as (d1 & Hd & _). exfalso. exact (Hno d1 Hd). }
    split; [exists e; reflexivity|].
    intros Hrd Hrs1.
    destruct HC as [Hd | (d1 & Hd & _)]; [|exfalso; exact (Hno d1 Hd)].
    rewrite Hrun in Hd.
    unfold Decoder.decodeMISC_MEM in Hd. run_handler Hd Hlen.
    rewrite Hm, Hp, Hs, Hrd, Hrs1 in Hd.
    cbn [String.eqb Ascii.eqb Bool.eqb negb orb] in Hd.
    step_handler Hd; congruence.
Qed.

Lemma C8_fence_masks_witness :
  Decoder.asm (decoded RV.imports fence_word cfg32) = Some "fence iorw, iorw" /\
  Decoder.constructor RV.imports fence_nopred_word cfg32 = Throw InvalidFence /\
  exists f_op f_pred f_succ,
    Decoder.asmFrags (decoded RV.imports fence_word cfg32) = [f_op; f_pred; f_succ] /\
    Frag.bits f_pred = fslice fence_word FIELDS.i_pred /\
    Frag.asm f_pred = JString (mask_letters (fslice fence_word FIELDS.i_pred)) /\
    Frag.bits f_succ = fslice fence_word FIELDS.i_succ /\
    Frag.asm f_succ = JString (mask_letters (fslice fence_word FIELDS.i_succ)) /\
    (ABI cfg32 = false ->
     Decoder.asm (decoded RV.imports fence_word cfg32)
     = Some (trim ("fence " ++ mask_letters (fslice fence_word FIELDS.i_pred)
                   ++ ", " ++ mask_letters (fslice fence_word FIELDS.i_succ)))).
Proof.
  pose proof (C8_fence_masks RV.imports cfg32 fence_word
                (conj eq_refl eq_refl) eq_refl eq_refl) as (Hok & _).
  pose proof (C8_fence_masks RV.imports cfg32 fence_nopred_word
                (conj eq_refl eq_refl) eq_refl eq_refl) as (_ & Hbad).
  split; [vm_compute; reflexivity|].
  split.
  - apply Hbad; [left|..]; reflexivity.
  - apply Hok. vm_compute. reflexivity.
Defined.

(** The fence word 0x0000008f has both masks empty, and rd = 1: the decoder
    reports the register, not the masks. *)
Lemma C8_counterexample :
  fslice fence_rd1_word FIELDS.opcode = OPCODE.MISC_MEM /\
  lookup (ISA_MISC_MEM RV.imports) (fslice fence_rd1_word FIELDS.funct3) = Some "fence" /\
  Decoder.constructor RV.imports fence_rd1_word cfg32 = Throw NonZeroReserved /\
  ~ (fslice fence_rd1_word FIELDS.i_pred = "0000" \/
     fslice fence_rd1_word FIELDS.i_succ = "0000" ->
     Decoder.constructor RV.imports fence_rd1_word cfg32 = Throw InvalidFence).
Proof.
  repeat split; try reflexivity.
  intros H. assert (E : Decoder.constructor RV.imports fence_rd1_word cfg32
                        = Throw InvalidFence) by (apply H; left; reflexivity).
  vm_compute in E. discriminate E.
Qed.


(** ** Register tokens (C9) *)

Lemma not_reg_name I (n : string) :
  names_apart I = true -> In n (other_names I) -> is_reg_name I n = false.
Proof.
  unfold names_apart. intros H Hin. apply andb_prop in H as [_ H].
  rewrite forallb_forall in H. apply negb_true_iff, H, Hin.
Qed.

Lemma reg_key_name I (k : FIELDS.key) :
  In k reg_keys -> is_reg_name I (FIELDS_name I k) = true.
Proof.
  intros [<-|[<-|[<-|[]]]]; unfold is_reg_name, reg_names; cbn [map app existsb reg_keys];
    rewrite String.eqb_refl, ?orb_true_r; reflexivity.
Qed.

Lemma rs3_name I : is_reg_name I "rs3" = true.
Proof.
  unfold is_reg_name, reg_names. cbn [map app existsb reg_keys].
  rewrite !orb_true_r. reflexivity.
Qed.

(** Distinct names tell the register fields apart. *)
Lemma reg_names_apart I (k k' : FIELDS.key) :
  names_apart I = true -> In k reg_keys -> In k' reg_keys ->
  (FIELDS_name I k = FIELDS_name I k' -> k = k') /\ FIELDS_name I k <> "rs3".
Proof.
  unfold names_apart. intros H Hk Hk'. apply andb_prop in H as [H _].
  unfold reg_names in H. cbn [map app reg_keys distinct existsb] in H.
  repeat match type of H with
         | _ && _ = true => apply andb_prop in H as [?H H]
         end.
  repeat match goal with
         | E : negb _ = true |- _ => apply negb_true_iff in E
         | E : _ || _ = false |- _ => apply orb_false_iff in E as [? ?]
         | E : (_ =? _)%string = false |- _ => apply String.eqb_neq in E
         end.
  destruct Hk as [<-|[<-|[<-|[]]]]; destruct Hk' as [<-|[<-|[<-|[]]]];
    split; congruence.
Qed.

Lemma funct5_bits (w : string) :
  String.length w = 32%nat ->
  char_is (fslice w FIELDS.r_funct5) 0 "1" = bit_set w 31 /\
  char_is (fslice w FIELDS.r_funct5) 3 "1" = bit_set w 28.
Proof.
  intros Hlen. destruct_word w Hlen. unfold char_is, bit_set.
  repeat match goal with
         | |- context [fslice ?x ?k] =>
             let v := eval cbv in (fslice x k) in change (fslice x k) with v
         | |- context [slice ?x ?h ?n] =>
             let v := eval cbv in (slice x h n) in change (slice x h n) with v
         end.
  cbn [String.get String.eqb].
  split;
    match goal with
    | |- context [(?c =? "1")%char] => destruct (c =? "1")%char
    end; reflexivity.
Qed.

Lemma is_case_In (op : string) (l : list string) :
  Decoder.is_case op l = true <-> In op l.
Proof.
  unfold Decoder.is_case. rewrite existsb_exists. split.
  - intros (x & Hin & E). apply String.eqb_eq in E. now subst.
  - intros H. exists op. split; [exact H | apply String.eqb_refl].
Qed.

(** A name that is not the register's own. *)
Ltac wrong_name I Hn Hf :=
  exfalso;
  first
    [ (* another register *)
      match type of Hf with
      | FIELDS_name _ ?x = FIELDS_name _ ?k =>
          let A := fresh in
          destruct (reg_names_apart I x k Hn) as [A _];
          [cbn; tauto | cbn; tauto | specialize (A Hf); discriminate A]
      | FIELDS_name _ ?x = "rs3" =>
          let A := fresh in
          destruct (reg_names_apart I x x Hn) as [_ A];
          [cbn; tauto | cbn; tauto | exact (A Hf)]
      | "rs3" = FIELDS_name _ ?k =>
          let A := fresh in
          destruct (reg_names_apart I k k Hn) as [_ A];
          [cbn; tauto | cbn; tauto | exact (A (eq_sym Hf))]
      end
    | (* no register at all *)
      match type of Hf with
      | ?n = ?r =>
          let N := fresh in
          assert (N : is_reg_name I n = false)
            by (apply (not_reg_name I n Hn); unfold other_names; cbn; tauto);
          rewrite Hf in N;
          first [ rewrite reg_key_name in N by (cbn; tauto)
                | rewrite rs3_name in N ];
          discriminate N
      end ].

(** The token of a register fragment, once the opcode is known. *)
Ltac right_token Hw :=
  unfold binary_reg_token, unused_token, reg_token, reg_letter, is_trap;
  change (slice ?w 6 7) with (fslice w FIELDS.opcode);
  change (slice ?w 14 3) with (fslice w FIELDS.funct3);
  change (is_load_reserved (Some ?m)) with (test_lr m);
  repeat match goal with
         | E : ?c = fslice _ FIELDS.opcode |- _ => rewrite <- E
         | E : lookup _ _ = _ |- _ => rewrite E
         | E : test_lr _ = _ |- _ => rewrite E
         | E : bit_set _ _ = _ |- _ => rewrite E
         end;
  rewrite ?(decReg_field _ _ _ Hw);
  reflexivity.

Ltac settle_reg I Hw Hn :=
  split;
  [ let k := fresh "k" in
    let Hk := fresh "Hk" in
    let Hf := fresh "Hf" in
    intros k Hk Hf; cbn [Frag.field Frag.bits Frag.asm] in Hf |- *;
    destruct Hk as [<-|[<-|[<-|[]]]];
    first [ wrong_name I Hn Hf
          | split; [reflexivity | right_token Hw] ]
  | let Hf := fresh "Hf" in
    intros Hf; cbn [Frag.field Frag.bits Frag.asm] in Hf |- *;
    first [ wrong_name I Hn Hf
          | split; [reflexivity|]; rewrite ?(decReg_field _ _ _ Hw); reflexivity ] ].

Lemma dispatch_reg_tokens I w cfg d1 :
  word32 w -> names_apart I = true ->
  Decoder.dispatch I (start w cfg) = Ok d1 ->
  Forall (asm_reg_ok I w) (Decoder.asmFrags d1) /\
  Forall (bin_reg_ok I w (Decoder.mne d1)) (Decoder.binFrags d1).
Proof.
  intros Hw Hn Hd. pose proof Hw as [Hlen Hbin].
  destruct (funct5_bits w Hlen) as [B31 B28].
  dispatch_cases Hd.
  all: repeat match goal with
              | E : Decoder.is_case _ _ = false |- _ => clear E
              | E : Decoder.is_case _ _ = true |- _ =>
                  apply is_case_In in E; cbn [In Decoder.opcode start] in E
              end.
  all: unfold_handler Hd; run_handler Hd Hlen; rewrite ?B31, ?B28 in Hd;
    step_handler Hd.
  all: injection Hd as <-; spell_out.
  all: try match goal with
           | E : negb true = true |- _ => discriminate E
           end.
  all: repeat match goal with
              | E : (if ?c then _ else _) = (_, _) |- _ =>
                  destruct c eqn:?; try injection E as <- <-
              end.
  all: repeat match goal with
              | E : _ \/ _ |- _ => destruct E as [E|E]
              | E : False |- _ => destruct E
              | E : negb _ = true |- _ => apply negb_true_iff in E
              | E : negb _ = false |- _ => apply negb_false_iff in E
              end.
  all: unfold asm_reg_ok, bin_reg_ok.
  all: split; repeat (apply Forall_cons; [settle_reg I Hw Hn|]); apply Forall_nil.
Qed.

(** C9, as amended.  Register conversion is total: on any five bits [decReg]
    returns the letter x, or f when a float register is asked for, followed
    by the decimal value of the bits, which lies in 0..31.  In every
    successful decode each fragment of [asmFrags] filed under the name of a
    register field (rd, rs1, rs2) holds the five bits of that field and the
    token made of the letter of its register file and the decimal value of
    the bits; the letter is f for the registers of the fused multiply-add
    opcodes, for rd of LOAD_FP, for rs2 of STORE_FP and for the registers of
    OP_FP (but there rd is an x register when bit 31 is 1 and bit 28 is 0,
    and rs1 is one when both bits are 1), and x for every other register.  A
    fragment of [binFrags] filed under such a name holds the same bits and
    the same token, with two kinds of exception, for register fields the
    instruction does not use: rd and rs1 of the MISC_MEM instructions (fence,
    fence.i) and of the SYSTEM instructions that are no Zicsr ones (ecall,
    ebreak) hold the mnemonic, and rs2 of lr.w and lr.d holds the text n/a.
    A fragment filed as rs3 holds bits 31 to 27 and their f register.  The
    tokens kept in the fragments are never ABI names. *)
Theorem C9_register_tokens I cfg w d :
  word32 w ->
  names_apart I = true ->
  Decoder.constructor I w cfg = Ok d ->
  (forall reg fl, is_bin reg = true -> String.length reg = 5%nat ->
     decReg reg fl = (if fl then "f" else "x") ++ dec_string (unsigned reg) /\
     0 <= unsigned reg <= 31) /\
  (forall f k, In f (Decoder.asmFrags d) -> In k reg_keys ->
     Frag.field f = FIELDS_name I k ->
     Frag.bits f = fslice w k /\
     0 <= unsigned (fslice w k) <= 31 /\
     Frag.asm f = reg_token w k) /\
  (forall f k, In f (Decoder.binFrags d) -> In k reg_keys ->
     Frag.field f = FIELDS_name I k ->
     Frag.bits f = fslice w k /\
     Frag.asm f = binary_reg_token I w (Decoder.mne d) k) /\
  (forall f, In f (Decoder.asmFrags d ++ Decoder.binFrags d)%list ->
     Frag.field f = "rs3" ->
     Frag.bits f = slice w 31 5 /\
     Frag.asm f = JString ("f" ++ dec_string (unsigned (slice w 31 5)))).
Proof.
  intros Hw Hn H. split; [intros; apply decReg_total; assumption|].
  pose proof Hw as [Hlen Hbin].
  destruct (constructor_inv I w cfg Hlen d H) as (d1 & Hd & Hf).
  apply finish_inv in Hf as (-> & -> & -> & _).
  destruct (dispatch_reg_tokens I w cfg d1 Hw Hn Hd) as [HA HB].
  rewrite Forall_forall in HA, HB.
  split; [|split].
  - intros f k Hin Hk Hf. destruct (HA f Hin) as [Hr _].
    destruct (Hr k Hk Hf) as [Eb Ea]. split; [exact Eb|]. split; [|exact Ea].
    assert (L : String.length (fslice w k) = 5%nat)
      by (rewrite fslice_length by exact Hlen;
          destruct Hk as [<-|[<-|[<-|[]]]]; reflexivity).
    apply (decReg_total (fslice w k) false (fslice_is_bin w k Hbin) L).
  - intros f k Hin Hk Hf. destruct (HB f Hin) as [Hr _]. exact (Hr k Hk Hf).
  - intros f Hin Hf. apply in_app_or in Hin as [Hin|Hin].
    + destruct (HA f Hin) as [_ Hr]. exact (Hr Hf).
    + destruct (HB f Hin) as [_ Hr]. exact (Hr Hf).
Qed.

Lemma C9_register_tokens_witness :
  (Decoder.asm (decoded RV.imports fcvt_w_s_word cfg32) = Some "fcvt.w.s x1, f2" /\
   Decoder.asm (decoded RV.imports fcvt_s_w_word cfg32) = Some "fcvt.s.w f1, x2" /\
   Decoder.asm (decoded RV.imports flw_word cfg32) = Some "flw f1, 8(x2)" /\
   Decoder.asm (decoded RV.imports add_word cfg32) = Some "add x1, x2, x3") /\
  (map Frag.asm (Decoder.binFrags (decoded RV.imports fcvt_w_s_word cfg32))
   = [JString "fcvt.w.s"; JString "fcvt.w.s"; JString "f0"; JString "f2";
      JString "fcvt.w.s"; JString "x1"; JString "fcvt.w.s"] /\
   map Frag.asm (Decoder.binFrags (decoded RV.imports lr_w_word cfg32))
   = [JString "lr.w"; JString "lr.w"; JString "lr.w"; JString "n/a";
      JString "x0"; JString "lr.w"; JString "x5"; JString "lr.w"] /\
   map Frag.asm (Decoder.binFrags (decoded RV.imports ecall_word cfg32))
   = [JString "ecall"; JString "ecall"; JString "ecall"; JString "ecall";
      JString "ecall"]) /\
  (forall f k, In f (Decoder.asmFrags (decoded RV.imports fcvt_w_s_word cfg32)) ->
     In k reg_keys -> Frag.field f = FIELDS_name RV.imports k ->
     Frag.bits f = fslice fcvt_w_s_word k /\
     0 <= unsigned (fslice fcvt_w_s_word k) <= 31 /\
     Frag.asm f = reg_token fcvt_w_s_word k) /\
  (forall f k, In f (Decoder.binFrags (decoded RV.imports lr_w_word cfg32)) ->
     In k reg_keys -> Frag.field f = FIELDS_name RV.imports k ->
     Frag.bits f = fslice lr_w_word k /\
     Frag.asm f = binary_reg_token RV.imports lr_w_word
                    (Decoder.mne (decoded RV.imports lr_w_word cfg32)) k).
Proof.
  split; [repeat split; vm_compute; reflexivity|].
  split; [repeat split; vm_compute; reflexivity|].
  split.
  - apply (C9_register_tokens RV.imports cfg32 fcvt_w_s_word
             (decoded RV.imports fcvt_w_s_word cfg32)
             (conj eq_refl eq_refl) eq_refl eq_refl).
  - apply (C9_register_tokens RV.imports cfg32 lr_w_word
             (decoded RV.imports lr_w_word cfg32)
             (conj eq_refl eq_refl) eq_refl eq_refl).
Defined.

(** The claim has every register fragment hold a register token; the rs2
    fragment of [lr.w x5, (x0)], in [binFrags], holds [n/a]. *)
Lemma C9_counterexample :
  ~ (forall f,
        In f (Decoder.binFrags (decoded RV.imports lr_w_word cfg32)
              ++ Decoder.asmFrags (decoded RV.imports lr_w_word cfg32))%list ->
        is_reg_frag RV.imports f = true ->
        Frag.asm f = JString ("x" ++ dec_string (unsigned (Frag.bits f))) \/
        Frag.asm f = JString ("f" ++ dec_string (unsigned (Frag.bits f)))).
Proof.
  intros H.
  specialize (H (Frag.new (JString "n/a") "00000" "rs2" false)).
  destruct H as [H|H].
  - vm_compute. tauto.
  - reflexivity.
  - vm_compute in H. discriminate H.
  - vm_compute in H. discriminate H.
Qed.
(** ** The assembly text (C10) *)

(** Every handler puts the opcode fragment first and leaves the
    configuration alone. *)
Lemma dispatch_opcode_first I w cfg d1 :
  String.length w = 32%nat ->
  Decoder.dispatch I (start w cfg) = Ok d1 ->
  Decoder.config d1 = cfg /\
  exists rest,
    Decoder.asmFrags d1
    = Frag.new (Decoder.mne_val (Decoder.mne d1)) (fslice w FIELDS.opcode)
        (FIELDS_name I FIELDS.opcode) false :: rest.
Proof.
  intros Hlen Hd. dispatch_cases Hd.
  all: unfold_handler Hd; run_handler Hd Hlen; step_handler Hd.
  all: injection Hd as <-; split; [reflexivity|]; eexists; reflexivity.
Qed.

(** C10.  For every successful decode, [asmFrags] starts with the opcode
    fragment, whose token is the mnemonic; the assembly text is the mnemonic
    followed by the operands as [operands] writes them, trimmed: a blank
    before the first operand, then [", "] between operands, except that a
    memory base is written in parentheses, and directly after the operand
    before it when that one is an immediate field, one whose name begins
    with the letters imm (after [", "] when it is not).  So the text begins
    with the mnemonic whenever the mnemonic itself has no white space around
    it. *)
Theorem C10_asm_starts_with_mnemonic I cfg w d :
  word32 w ->
  Decoder.constructor I w cfg = Ok d ->
  exists f_op rest,
    Decoder.asmFrags d = f_op :: rest /\
    Frag.field f_op = FIELDS_name I FIELDS.opcode /\
    Frag.bits f_op = fslice w FIELDS.opcode /\
    Frag.asm f_op = Decoder.mne_val (Decoder.mne d) /\
    let mnemonic := toString (Frag.asm f_op) in
    let conv := if ABI cfg then Some (convertRegToAbi I) else None in
    Decoder.asm d = Some (trim (mnemonic ++ operands conv true f_op rest)) /\
    (trim mnemonic = mnemonic ->
     exists text, Decoder.asm d = Some text /\ prefix mnemonic text = true).
Proof.
  intros [Hlen Hbin] H.
  destruct (constructor_inv I w cfg Hlen d H) as (d1 & Hd & Hf).
  apply finish_inv in Hf as (_ & -> & -> & _ & inst & a & _ & _ & _ & Hr & ->).
  destruct (dispatch_opcode_first _ _ _ _ Hlen Hd) as (Hc & rest & Ha).
  rewrite Ha, Hc in *. apply renderAsm_operands in Hr as ->.
  do 2 eexists. split; [reflexivity|]. cbn [Frag.field Frag.bits Frag.asm].
  do 3 (split; [reflexivity|]). split; [reflexivity|].
  intros Ht. eexists. split; [reflexivity|]. apply trim_keeps_prefix, Ht.
Qed.

Lemma C10_asm_starts_with_mnemonic_witness :
  (Decoder.asm (decoded RV.imports lw_word cfg32) = Some "lw x5, -4(x2)" /\
   Decoder.asm (decoded RV.imports sw_word cfg32) = Some "sw x5, -4(x2)" /\
   Decoder.asm (decoded RV.imports amoadd_w_word cfg32)
   = Some "amoadd.w x5, x6, (x7)" /\
   Decoder.asm (decoded RV.imports lr_w_word cfg32) = Some "lr.w x5, (x0)") /\
  (exists f_op rest,
     Decoder.asmFrags (decoded RV.imports lw_word cfg32) = f_op :: rest /\
     map Frag.field rest = ["rd"; "imm[11:0]"; "rs1"] /\
     map Frag.mem rest = [false; false; true] /\
     Decoder.asm (decoded RV.imports lw_word cfg32)
     = Some (trim (toString (Frag.asm f_op) ++ operands None true f_op rest)) /\
     operands None true f_op rest = " x5, -4(x2)") /\
  (exists f_op rest,
     Decoder.asmFrags (decoded RV.imports amoadd_w_word cfg32) = f_op :: rest /\
     map Frag.field rest = ["rd"; "rs2"; "rs1"] /\
     map Frag.mem rest = [false; false; true] /\
     Decoder.asm (decoded RV.imports amoadd_w_word cfg32)
     = Some (trim (toString (Frag.asm f_op) ++ operands None true f_op rest)) /\
     operands None true f_op rest = " x5, x6, (x7)").
Proof.
  split; [repeat split; vm_compute; reflexivity|].
  split.
  - destruct (C10_asm_starts_with_mnemonic RV.imports cfg32 lw_word
                (decoded RV.imports lw_word cfg32)
                (conj eq_refl eq_refl) eq_refl)
      as (f_op & rest & Ha & _ & _ & _ & Ht & _).
    exists f_op, rest. split; [exact Ha|].
    vm_compute in Ha. injection Ha as <- <-.
    split; [reflexivity|]. split; [reflexivity|]. split; [exact Ht|].
    vm_compute. reflexivity.
  - destruct (C10_asm_starts_with_mnemonic RV.imports cfg32 amoadd_w_word
                (decoded RV.imports amoadd_w_word cfg32)
                (conj eq_refl eq_refl) eq_refl)
      as (f_op & rest & Ha & _ & _ & _ & Ht & _).
    exists f_op, rest. split; [exact Ha|].
    vm_compute in Ha. injection Ha as <- <-.
    split; [reflexivity|]. split; [reflexivity|]. split; [exact Ht|].
    vm_compute. reflexivity.
Defined.

(** [follow_both f]: in a goal that compares a handler run on an object with
    the same handler run on the object changed by [f], follow the tests of
    both runs together, innermost test first. *)
Ltac follow_both f :=
  repeat (cbn [bind map_result fst snd f Decoder.opcode Decoder.config
               Decoder.mne Decoder.bin Decoder.isa Decoder.asm Decoder.fmt
               Decoder.binFrags Decoder.asmFrags Decoder.set_mne Decoder.set_isa
               Decoder.push_asmFrags Decoder.push_binFrags];
          match goal with
          | |- context [bind ?x _] =>
              lazymatch x with
              | context [match _ with _ => _ end] => fail
              | context [bind _ _] => fail
              | _ => destruct x eqn:?
              end
          | |- context [match ?x with _ => _ end] =>
              lazymatch x with
              | context [match _ with _ => _ end] => fail
              | context [bind _ _] => fail
              | _ => destruct x eqn:?
              end
          end);
  cbn [bind map_result fst snd f Decoder.opcode Decoder.config
       Decoder.mne Decoder.bin Decoder.isa Decoder.asm Decoder.fmt
       Decoder.binFrags Decoder.asmFrags Decoder.set_mne Decoder.set_isa
       Decoder.push_asmFrags Decoder.push_binFrags];
  try reflexivity.

(** * Further properties of the decoder *)

(** ** The binary fragments *)

(** X1.  For every opcode but BRANCH the binary fragments of a successful
    decode spell the word: concatenated in list order, their bits are the 32
    characters of the input. *)
Theorem binFrags_cover_word I w cfg d :
  String.length w = 32%nat ->
  Decoder.constructor I w cfg = Ok d ->
  fslice w FIELDS.opcode <> OPCODE.BRANCH ->
  joined (Decoder.binFrags d) = w.
Proof.
  intros Hlen H Hop.
  destruct (constructor_inv I w cfg Hlen d H) as (d1 & Hd & Hf).
  apply finish_inv in Hf as (-> & _).
  dispatch_cases Hd.
  10: { exfalso. apply Hop. cbn in *.
        match goal with
        | E : (_ || false) = true |- _ =>
            rewrite orb_false_r in E; apply String.eqb_eq in E; exact E
        end. }
  all: unfold_handler Hd; run_handler Hd Hlen; step_handler Hd.
  all: injection Hd as <-; cbn.
  all: try (destruct_word w Hlen; reflexivity).
  (* shifts: the upper immediate bits are the ones just tested *)
  all: match goal with
       | E : (_ || _) = false |- _ =>
           cbn [negb andb orb] in E; rewrite ?orb_false_r in E;
           apply negb_false_iff, String.eqb_eq in E;
           destruct_word w Hlen; cbn in E; injection E as E; intros; subst;
           reflexivity
       end.
Qed.

Lemma binFrags_cover_word_witness :
  joined (Decoder.binFrags (decoded RV.imports jal_word cfg32)) = jal_word.
Proof.
  apply (binFrags_cover_word RV.imports jal_word cfg32).
  - reflexivity.
  - vm_compute. reflexivity.
  - discriminate.
Defined.



(** ** Unknown opcodes *)

Lemma finish_throws I d e :
  Decoder.finish I d = Throw e -> e = TypeError \/ e = IsaMismatch.
Proof.
  unfold Decoder.finish. intros H.
  destruct (lookup (ISA I) _); [|injection H as <-; now left].
  cbn in H.
  match type of H with
  | (if ?c then _ else _) = _ => destruct c; [injection H as <-; now right|]
  end.
  unfold renderAsm in H.
  repeat match type of H with
         | context [match ?x with _ => _ end] => destruct x; cbn [bind] in H;
                                                 try discriminate H
         end.
  all: injection H as <-; now left.
Qed.

(** X2.  On a 32-character input the decoder fails with the invalid-opcode
    error exactly when the low seven bits are none of the 21 opcodes its
    [switch] lists; no handler and no later step raises that error. *)
Theorem invalid_opcode_iff I w cfg :
  String.length w = 32%nat ->
  Decoder.constructor I w cfg = Throw InvalidOpcode <->
  ~ In (fslice w FIELDS.opcode) known_opcodes.
Proof.
  intros Hlen. split.
  - intros H Hin.
    pose proof (constructor_cases I w cfg Hlen) as HC. rewrite H in HC.
    destruct HC as [Hd | (d1 & _ & Hf)].
    + unfold Decoder.dispatch in Hd.
      repeat match type of Hd with
             | (if ?c then _ else _) = _ => destruct c eqn:?
             end.
      1-13: exfalso; unfold_handler Hd; run_handler Hd Hlen; step_handler Hd;
            discriminate Hd.
      repeat match goal with
             | E : Decoder.is_case _ _ = false |- _ =>
                 apply not_true_iff_false in E; rewrite is_case_In in E
             end.
      cbn [Decoder.opcode start] in *.
      unfold known_opcodes in Hin. cbn [In] in *. tauto.
    + apply finish_throws in Hf as [Hf|Hf]; discriminate Hf.
  - intros Hno. rewrite constructor_unfold by exact Hlen.
    unfold Decoder.dispatch. cbn [Decoder.opcode start].
    repeat match goal with
           | |- context [Decoder.is_case ?o ?l] =>
               let E := fresh "E" in
               destruct (Decoder.is_case o l) eqn:E;
               [ exfalso; apply Hno; apply is_case_In in E;
                 unfold known_opcodes; cbn [In] in *; tauto | ]
           end.
    reflexivity.
Qed.

Lemma invalid_opcode_iff_witness :
  Decoder.constructor RV.imports "00000000000000000000000000000000" cfg32
  = Throw InvalidOpcode.
Proof.
  apply (invalid_opcode_iff RV.imports "00000000000000000000000000000000" cfg32).
  - reflexivity.
  - vm_compute. intuition discriminate.
Defined.

(** ** Input of another length *)

Lemma substring_app_skip (p w : string) (n m : nat) :
  substring (String.length p + n) m (p ++ w) = substring n m w.
Proof. induction p as [|c p IH]; [reflexivity | exact IH]. Qed.

Lemma getBits_low (p w : string) (k : FIELDS.key) :
  String.length w = 32%nat ->
  getBits (p ++ w) (FIELDS.pos k) = Ok (fslice w k).
Proof.
  intros Hlen. unfold getBits, js_substring, clamp, fslice, slice.
  rewrite app_length, Hlen.
  set (h := fst (FIELDS.pos k)). set (wd := snd (FIELDS.pos k)).
  assert (B : 0 <= h < 32 /\ 0 <= wd <= h + 1) by (destruct k; cbn; lia).
  destruct B as [Bh Bw].
  replace (h + 1 - wd >? h + 1) with false
    by (symmetry; rewrite Z.gtb_ltb; apply Z.ltb_ge; lia).
  replace (Z.of_nat (String.length p + 32) <? h + 1) with false
    by (symmetry; apply Z.ltb_ge; lia).
  cbn [orb]. f_equal.
  rewrite <- (substring_app_skip p w).
  f_equal; lia.
Qed.

(** The handlers read their input only through the field descriptors. *)
Section WithBin.
Variable I : Imports.
Variables (b : string) (d : Decoder.t).
Hypothesis Hb :
  forall k, getBits b (FIELDS.pos k) = getBits (Decoder.bin d) (FIELDS.pos k).

Lemma extractRFields_same : extractRFields b = extractRFields (Decoder.bin d).
Proof. unfold extractRFields. rewrite !Hb. reflexivity. Qed.

Lemma extractIFields_same : extractIFields b = extractIFields (Decoder.bin d).
Proof. unfold extractIFields. rewrite !Hb. reflexivity. Qed.

Lemma extractSFields_same : extractSFields b = extractSFields (Decoder.bin d).
Proof. unfold extractSFields. rewrite !Hb. reflexivity. Qed.

Lemma extractBFields_same : extractBFields b = extractBFields (Decoder.bin d).
Proof. unfold extractBFields. rewrite !Hb. reflexivity. Qed.

Lemma dispatch_with_bin :
  Decoder.dispatch I (with_bin b d) = map_result (with_bin b) (Decoder.dispatch I d).
Proof.
  unfold Decoder.dispatch. cbn [Decoder.opcode with_bin].
  repeat match goal with
         | |- context [if Decoder.is_case ?o ?l then _ else _] =>
             destruct (Decoder.is_case o l)
         end.
  all: try reflexivity.
  all: unfold Decoder.decodeOP, Decoder.decodeOP_FP, Decoder.decodeAMO,
    Decoder.decodeJALR, Decoder.decodeLOAD, Decoder.decodeOP_IMM,
    Decoder.decodeMISC_MEM, Decoder.decodeSYSTEM, Decoder.decodeSTORE,
    Decoder.decodeBRANCH, Decoder.decodeUType, Decoder.decodeJAL,
    Decoder.decodeR4, Decoder.shamt_64.
  all: cbn [Decoder.bin with_bin];
    first [ rewrite extractRFields_same | rewrite extractIFields_same
          | rewrite extractSFields_same | rewrite extractBFields_same
          | rewrite !Hb ].
  all: follow_both with_bin.
Qed.

End WithBin.

Lemma finish_with_bin I b d :
  Decoder.finish I (with_bin b d) = map_result (with_bin b) (Decoder.finish I d).
Proof.
  unfold Decoder.finish.
  cbn [with_bin Decoder.mne Decoder.isa Decoder.config Decoder.asmFrags
       Decoder.set_fmt Decoder.set_isa].
  destruct (lookup (ISA I) _); [|reflexivity].
  match goal with |- context [if ?c then _ else _] => destruct c end;
    [reflexivity|].
  destruct (renderAsm _ _ _); reflexivity.
Qed.

Lemma constructor_low_32 I p w cfg :
  String.length w = 32%nat ->
  Decoder.constructor I (p ++ w) cfg
  = map_result (with_bin (p ++ w)) (Decoder.constructor I w cfg).
Proof.
  intros Hlen. rewrite (constructor_unfold I w cfg Hlen).
  unfold Decoder.constructor, Decoder.convertBinToAsm. cbn [Decoder.bin].
  rewrite getBits_low by exact Hlen. cbn [bind].
  change (Decoder.set_opcode _ _) with (with_bin (p ++ w) (start w cfg)).
  rewrite dispatch_with_bin.
  2: { intros k. cbn [start Decoder.bin].
       rewrite getBits_low, getBits_field by exact Hlen. reflexivity. }
  destruct (Decoder.dispatch I (start w cfg)) as [d1|e]; cbn [map_result bind];
    [|reflexivity].
  apply finish_with_bin.
Qed.

(** X3.  The decoder reads the 32 characters at the end of its input: text
    of any length before them changes nothing but the stored input, so a
    longer input is decoded (or rejected) as its last 32 characters are. *)
Theorem constructor_reads_low_32 I p w cfg :
  String.length w = 32%nat ->
  Decoder.constructor I (p ++ w) cfg
  = map_result (with_bin (p ++ w)) (Decoder.constructor I w cfg).
Proof.
  intros Hlen. rewrite (constructor_unfold I w cfg Hlen).
  unfold Decoder.constructor, Decoder.convertBinToAsm. cbn [Decoder.bin].
  rewrite getBits_low by exact Hlen. cbn [bind].
  change (Decoder.set_opcode _ _) with (with_bin (p ++ w) (start w cfg)).
  rewrite dispatch_with_bin.
  2: { intros k. cbn [start Decoder.bin].
       rewrite getBits_low, getBits_field by exact Hlen. reflexivity. }
  destruct (Decoder.dispatch I (start w cfg)) as [d1|e]; cbn [map_result bind];
    [|reflexivity].
  apply finish_with_bin.
Qed.

Lemma constructor_reads_low_32_witness :
  Decoder.constructor RV.imports ("1111" ++ lw_word) cfg32
  = map_result (with_bin ("1111" ++ lw_word))
      (Decoder.constructor RV.imports lw_word cfg32).
Proof.
  apply (constructor_reads_low_32 RV.imports "1111" lw_word cfg32). reflexivity.
Defined.

(** ** Truncated input, and which errors can occur *)

Lemma getBits_cases (b : string) (p : Z * Z) :
  getBits b p = Throw MalformedField \/ exists s, getBits b p = Ok s.
Proof.
  unfold getBits. destruct (_ || _); [left; reflexivity | right; eauto].
Qed.

Lemma getBits_short (b : string) (p : Z * Z) :
  (String.length b < 32)%nat -> fst p = 31 ->
  getBits b p = Throw MalformedField.
Proof.
  intros Hlen E. unfold getBits. rewrite E.
  replace (Z.of_nat (String.length b) <? 31 + 1) with true
    by (symmetry; apply Z.ltb_lt; lia).
  rewrite orb_true_r. reflexivity.
Qed.

Ltac short_fields Hlen :=
  repeat match goal with
         | |- bind (getBits ?b ?p) _ = _ =>
             first [ rewrite (getBits_short b p Hlen eq_refl); reflexivity
                   | let E := fresh "E" in
                     destruct (getBits_cases b p) as [E|[? E]]; rewrite E;
                     cbn [bind]; [reflexivity|] ]
         end.

Lemma extractRFields_short b :
  (String.length b < 32)%nat -> extractRFields b = Throw MalformedField.
Proof. intros Hlen. unfold extractRFields. short_fields Hlen. Qed.

Lemma extractIFields_short b :
  (String.length b < 32)%nat -> extractIFields b = Throw MalformedField.
Proof. intros Hlen. unfold extractIFields. short_fields Hlen. Qed.

Lemma extractSFields_short b :
  (String.length b < 32)%nat -> extractSFields b = Throw MalformedField.
Proof. intros Hlen. unfold extractSFields. short_fields Hlen. Qed.

Lemma extractBFields_short b :
  (String.length b < 32)%nat -> extractBFields b = Throw MalformedField.
Proof. intros Hlen. unfold extractBFields. short_fields Hlen. Qed.

Lemma handlers_short I d :
  (String.length (Decoder.bin d) < 32)%nat ->
  Decoder.decodeOP I d = Throw MalformedField /\
  Decoder.decodeOP_FP I d = Throw MalformedField /\
  Decoder.decodeAMO I d = Throw MalformedField /\
  Decoder.decodeJALR I d = Throw MalformedField /\
  Decoder.decodeLOAD I d = Throw MalformedField /\
  Decoder.decodeOP_IMM I d = Throw MalformedField /\
  Decoder.decodeMISC_MEM I d = Throw MalformedField /\
  Decoder.decodeSYSTEM I d = Throw MalformedField /\
  Decoder.decodeSTORE I d = Throw MalformedField /\
  Decoder.decodeBRANCH I d = Throw MalformedField /\
  Decoder.decodeUType I d = Throw MalformedField /\
  Decoder.decodeJAL I d = Throw MalformedField /\
  Decoder.decodeR4 I d = Throw MalformedField.
Proof.
  intros Hlen.
  unfold Decoder.decodeOP, Decoder.decodeOP_FP, Decoder.decodeAMO,
    Decoder.decodeJALR, Decoder.decodeLOAD, Decoder.decodeOP_IMM,
    Decoder.decodeMISC_MEM, Decoder.decodeSYSTEM, Decoder.decodeSTORE,
    Decoder.decodeBRANCH, Decoder.decodeUType, Decoder.decodeJAL,
    Decoder.decodeR4.
  rewrite extractRFields_short, extractIFields_short, extractSFields_short,
    extractBFields_short by exact Hlen.
  rewrite !(getBits_short (Decoder.bin d) (FIELDS.pos FIELDS.u_imm_31_12) Hlen eq_refl).
  rewrite !(getBits_short (Decoder.bin d) (FIELDS.pos FIELDS.j_imm_20) Hlen eq_refl).
  cbn [bind]. repeat split.
Qed.

Lemma dispatch_short I d :
  (String.length (Decoder.bin d) < 32)%nat ->
  Decoder.dispatch I d =
  Throw (if is_known_opcode (Decoder.opcode d) then MalformedField else InvalidOpcode).
Proof.
  intros Hlen.
  destruct (handlers_short I d Hlen)
    as (H1 & H2 & H3 & H4 & H5 & H6 & H7 & H8 & H9 & H10 & H11 & H12 & H13).
  unfold Decoder.dispatch.
  rewrite H1, H2, H3, H4, H5, H6, H7, H8, H9, H10, H11, H12, H13.
  unfold is_known_opcode, known_opcodes, Decoder.is_case. cbn [existsb].
  rewrite !(String.eqb_sym _ (Decoder.opcode d)).
  repeat match goal with
         | |- context [(Decoder.opcode d =? ?x)%string] =>
             destruct (Decoder.opcode d =? x)%string; cbn [orb]; try reflexivity
         end.
Qed.

Lemma constructor_truncated I w cfg :
  (String.length w < 32)%nat ->
  Decoder.constructor I w cfg =
  Throw (if (String.length w <? 7)%nat || is_known_opcode (last_chars 7 w)
         then MalformedField else InvalidOpcode).
Proof.
  intros Hlen. unfold Decoder.constructor, Decoder.convertBinToAsm.
  cbn [Decoder.bin]. unfold getBits at 1. cbn [FIELDS.pos fst snd].
  destruct (String.length w <? 7)%nat eqn:E7.
  - apply Nat.ltb_lt in E7.
    replace (Z.of_nat (String.length w) <? 6 + 1) with true
      by (symmetry; apply Z.ltb_lt; lia).
    reflexivity.
  - apply Nat.ltb_ge in E7.
    replace (Z.of_nat (String.length w) <? 6 + 1) with false
      by (symmetry; apply Z.ltb_ge; lia).
    change (6 + 1 - 7 >? 6 + 1) with false. cbn [orb bind].
    rewrite dispatch_short by exact Hlen.
    cbn [Decoder.opcode Decoder.set_opcode bind].
    replace (js_substring w _ _) with (last_chars 7 w); [reflexivity|].
    unfold js_substring, last_chars, clamp. f_equal; lia.
Qed.

(** X4.  An input of fewer than 32 characters is never decoded.  It fails
    with the position error of [getBits] when it has fewer than seven
    characters or its last seven are a known opcode (the handler then reads a
    field that reaches bit 31), and with the invalid-opcode error otherwise. *)
Theorem truncated_input_rejected I w cfg :
  (String.length w < 32)%nat ->
  Decoder.constructor I w cfg =
  Throw (if (String.length w <? 7)%nat || is_known_opcode (last_chars 7 w)
         then MalformedField else InvalidOpcode).
Proof.
  intros Hlen. unfold Decoder.constructor, Decoder.convertBinToAsm.
  cbn [Decoder.bin]. unfold getBits at 1. cbn [FIELDS.pos fst snd].
  destruct (String.length w <? 7)%nat eqn:E7.
  - apply Nat.ltb_lt in E7.
    replace (Z.of_nat (String.length w) <? 6 + 1) with true
      by (symmetry; apply Z.ltb_lt; lia).
    reflexivity.
  - apply Nat.ltb_ge in E7.
    replace (Z.of_nat (String.length w) <? 6 + 1) with false
      by (symmetry; apply Z.ltb_ge; lia).
    change (6 + 1 - 7 >? 6 + 1) with false. cbn [orb bind].
    rewrite dispatch_short by exact Hlen.
    cbn [Decoder.opcode Decoder.set_opcode bind].
    replace (js_substring w _ _) with (last_chars 7 w); [reflexivity|].
    unfold js_substring, last_chars, clamp. f_equal; lia.
Qed.

Lemma truncated_input_rejected_witness :
  Decoder.constructor RV.imports "0010011" cfg32 = Throw MalformedField.
Proof.
  apply (truncated_input_rejected RV.imports "0010011" cfg32). cbn. lia.
Defined.

Lemma dispatch_keeps I w cfg d1 :
  String.length w = 32%nat ->
  Decoder.dispatch I (start w cfg) = Ok d1 ->
  Decoder.config d1 = cfg /\ Decoder.bin d1 = w /\
  Decoder.opcode d1 = fslice w FIELDS.opcode.
Proof.
  intros Hlen Hd. dispatch_cases Hd.
  all: unfold_handler Hd; run_handler Hd Hlen; step_handler Hd.
  all: injection Hd as <-; spell_out.
  all: try match goal with
           | E : Ok _ = Ok _ |- _ => injection E as <- <- <-
           end.
  all: repeat match goal with
              | |- context [if ?c then _ else _] => destruct c
              end.
  all: repeat split.
Qed.

Lemma finish_IsaMismatch I d :
  Decoder.finish I d = Throw IsaMismatch -> ISA_opt (Decoder.config d) = RV32I.
Proof.
  unfold Decoder.finish. intros H.
  destruct (lookup (ISA I) _); [|discriminate].
  cbn in H. destruct (ISA_opt (Decoder.config d)); [reflexivity|].
  cbn in H. unfold renderAsm in H.
  repeat match type of H with
         | context [match ?x with _ => _ end] => destruct x; cbn [bind] in H;
                                                 try discriminate H
         end.
Qed.

Lemma errors_of_word I w cfg e :
  String.length w = 32%nat ->
  Decoder.constructor I w cfg = Throw e ->
  e <> MalformedField /\
  (e = InvalidFence -> fslice w FIELDS.opcode = OPCODE.MISC_MEM) /\
  (e = NonZeroReserved ->
   fslice w FIELDS.opcode = OPCODE.MISC_MEM \/
   fslice w FIELDS.opcode = OPCODE.SYSTEM) /\
  (e = ShiftOutOfRange \/ e = BadShtyp ->
   fslice w FIELDS.opcode = OPCODE.OP_IMM \/
   fslice w FIELDS.opcode = OPCODE.OP_IMM_32) /\
  (e = ShiftOutOfRange \/ e = IsaMismatch -> ISA_opt cfg = RV32I).
Proof.
  intros Hlen H.
  pose proof (constructor_cases I w cfg Hlen) as HC. rewrite H in HC.
  destruct HC as [Hd | (d1 & Hd & Hf)].
  - unfold Decoder.dispatch in Hd.
    repeat match type of Hd with
           | (if ?c then _ else _) = _ => destruct c eqn:?
           end.
    all: repeat match goal with
                | E : Decoder.is_case _ _ = false |- _ => clear E
                | E : Decoder.is_case _ _ = true |- _ =>
                    apply is_case_In in E; cbn [In Decoder.opcode start] in E
                end.
    all: unfold_handler Hd; try run_handler Hd Hlen; step_handler Hd.
    all: try discriminate Hd.
    all: injection Hd as <-.
    all: spell_out.
    all: repeat split; try discriminate; try (intros [?|?]; discriminate).
    all: try (intros _; intuition congruence).
    all: intros [_|?]; try discriminate.
    all: match goal with
         | E : ISA_opt _ = RV32I |- _ => exact E
         end.
  - destruct (dispatch_keeps I w cfg d1 Hlen Hd) as (Hc & _ & _).
    pose proof (finish_IsaMismatch I d1) as HI. rewrite Hc in HI.
    destruct (finish_throws I d1 e Hf) as [E|E]; subst e.
    + repeat split; try discriminate; intros [?|?]; discriminate.
    + repeat split; try discriminate; try (intros [?|?]; discriminate).
      intros _. apply HI, Hf.
Qed.

Lemma substring_all (w : string) : substring 0 (String.length w) w = w.
Proof. induction w as [|c w IH]; cbn; [reflexivity | now rewrite IH]. Qed.

Lemma substring_split (w : string) : forall n m,
  (n + m = String.length w)%nat -> w = substring 0 n w ++ substring n m w.
Proof.
  induction w as [|c w IH]; intros n m H.
  - destruct n, m; try discriminate; reflexivity.
  - destruct n as [|n].
    + cbn [Nat.add] in H. subst m. rewrite substring_all. reflexivity.
    + cbn. f_equal. apply IH. cbn in H. lia.
Qed.

Lemma split_low_32 (w : string) :
  (32 <= String.length w)%nat ->
  exists p w', w = p ++ w' /\ String.length w' = 32%nat.
Proof.
  intros H.
  exists (substring 0 (String.length w - 32) w),
         (substring (String.length w - 32) 32 w).
  split.
  - apply substring_split. lia.
  - rewrite substring_length. lia.
Qed.

(** X5.  The position error of [getBits] is raised on truncated input only:
    an input of 32 characters or more never fails with it. *)
Theorem position_error_only_if_truncated I w cfg :
  (32 <= String.length w)%nat ->
  Decoder.constructor I w cfg <> Throw MalformedField.
Proof.
  intros H E. destruct (split_low_32 w H) as (p & w' & -> & Hlen).
  rewrite constructor_low_32 in E by exact Hlen.
  destruct (Decoder.constructor I w' cfg) as [d|e] eqn:EC; [discriminate|].
  cbn in E. injection E as ->.
  apply (errors_of_word I w' cfg _ Hlen) in EC as (Hne & _). now apply Hne.
Qed.

Lemma position_error_only_if_truncated_witness :
  Decoder.constructor RV.imports lw_word cfg32 <> Throw MalformedField.
Proof.
  apply (position_error_only_if_truncated RV.imports lw_word cfg32).
  cbn. lia.
Defined.

(** X6.  With the configuration set to RV64I the decoder rejects nothing on
    account of the ISA: whatever the input, it fails neither with the
    RV64-instruction-under-RV32I error nor with the RV32I shift-amount
    error. *)
Theorem RV64I_never_rejects_for_isa I w cfg :
  ISA_opt cfg = RV64I ->
  Decoder.constructor I w cfg <> Throw IsaMismatch /\
  Decoder.constructor I w cfg <> Throw ShiftOutOfRange.
Proof.
  intros Hc.
  destruct (Nat.ltb_spec (String.length w) 32) as [Hs|Hl].
  - rewrite constructor_truncated by exact Hs.
    destruct (_ || _); split; discriminate.
  - destruct (split_low_32 w Hl) as (p & w' & -> & Hlen).
    rewrite constructor_low_32 by exact Hlen.
    destruct (Decoder.constructor I w' cfg) as [d|e] eqn:EC;
      [split; discriminate|].
    cbn [map_result].
    apply (errors_of_word I w' cfg _ Hlen) in EC as (_ & _ & _ & _ & HI).
    split; intros E; injection E as ->;
      (rewrite HI in Hc; [discriminate | auto]).
Qed.

Lemma RV64I_never_rejects_for_isa_witness :
  Decoder.constructor RV.imports slli40_word cfg64 <> Throw IsaMismatch /\
  Decoder.constructor RV.imports slli40_word cfg64 <> Throw ShiftOutOfRange.
Proof.
  apply (RV64I_never_rejects_for_isa RV.imports slli40_word cfg64). reflexivity.
Defined.

(** X7.  Where the other errors come from, on a 32-character input: the
    fence-mask error is raised for opcode MISC_MEM only, the non-zero
    rd/rs1 error for MISC_MEM and SYSTEM only, and the two shift errors
    (amount out of range, bad shift type) for OP_IMM and OP_IMM_32 only. *)
Theorem error_origin I w cfg e :
  String.length w = 32%nat ->
  Decoder.constructor I w cfg = Throw e ->
  (e = InvalidFence -> fslice w FIELDS.opcode = OPCODE.MISC_MEM) /\
  (e = NonZeroReserved ->
   fslice w FIELDS.opcode = OPCODE.MISC_MEM \/
   fslice w FIELDS.opcode = OPCODE.SYSTEM) /\
  (e = ShiftOutOfRange \/ e = BadShtyp ->
   fslice w FIELDS.opcode = OPCODE.OP_IMM \/
   fslice w FIELDS.opcode = OPCODE.OP_IMM_32).
Proof.
  intros Hlen H.
  destruct (errors_of_word I w cfg e Hlen H) as (_ & H1 & H2 & H3 & _).
  auto.
Qed.

Lemma error_origin_witness :
  (InvalidFence = InvalidFence -> fslice fence_nopred_word FIELDS.opcode = OPCODE.MISC_MEM) /\
  (InvalidFence = NonZeroReserved ->
   fslice fence_nopred_word FIELDS.opcode = OPCODE.MISC_MEM \/
   fslice fence_nopred_word FIELDS.opcode = OPCODE.SYSTEM) /\
  (InvalidFence = ShiftOutOfRange \/ InvalidFence = BadShtyp ->
   fslice fence_nopred_word FIELDS.opcode = OPCODE.OP_IMM \/
   fslice fence_nopred_word FIELDS.opcode = OPCODE.OP_IMM_32).
Proof.
  apply (error_origin RV.imports fence_nopred_word cfg32 InvalidFence).
  - reflexivity.
  - vm_compute. reflexivity.
Defined.

(** ** The two fragment lists *)

Ltac split_pair_if :=
  try match goal with
      | E : negb true = true |- _ => discriminate E
      end;
  try match goal with
      | E : (if ?c then _ else _) = (_, _) |- _ =>
          destruct c; injection E as <- <-
      end.

Lemma dispatch_frags_backed I w cfg d1 :
  String.length w = 32%nat ->
  Decoder.dispatch I (start w cfg) = Ok d1 ->
  exists f_op fields ops,
    Decoder.binFrags d1 = (fields ++ [f_op])%list /\
    Decoder.asmFrags d1 = f_op :: ops /\
    Frag.bits f_op = fslice w FIELDS.opcode /\
    Frag.asm f_op = Decoder.mne_val (Decoder.mne d1) /\
    Forall (fun f => In f fields \/ Frag.field f = "imm") ops.
Proof.
  intros Hlen Hd. dispatch_cases Hd.
  all: unfold_handler Hd; run_handler Hd Hlen; step_handler Hd.
  all: injection Hd as <-; spell_out; split_pair_if.
  all: match goal with
       | |- exists f_op fields ops, ?l = _ /\ (?a :: ?o) = _ /\ _ =>
           exists a, (removelast l), o
       end.
  all: cbn [removelast app].
  all: (split; [reflexivity|]).
  all: (split; [reflexivity|]); cbn [Frag.bits Frag.asm Decoder.mne_val].
  all: (split; [reflexivity|]); (split; [reflexivity|]).
  all: repeat (apply Forall_cons; [cbn; tauto|]); apply Forall_nil.
Qed.

(** X8.  In every successful decode the last binary fragment is the opcode
    fragment (the low seven bits, with the mnemonic as its token) and the
    same fragment heads the assembly fragments; every operand after it is
    one of the other binary fragments, or else the reconstituted immediate
    of an S, B or J instruction, filed under the name imm. *)
Theorem asmFrags_backed_by_binFrags I w cfg d :
  String.length w = 32%nat ->
  Decoder.constructor I w cfg = Ok d ->
  exists f_op fields ops,
    Decoder.binFrags d = (fields ++ [f_op])%list /\
    Decoder.asmFrags d = f_op :: ops /\
    Frag.bits f_op = fslice w FIELDS.opcode /\
    Frag.asm f_op = Decoder.mne_val (Decoder.mne d) /\
    Forall (fun f => In f fields \/ Frag.field f = "imm") ops.
Proof.
  intros Hlen H.
  destruct (constructor_inv I w cfg Hlen d H) as (d1 & Hd & Hf).
  apply finish_inv in Hf as (-> & -> & -> & _).
  exact (dispatch_frags_backed I w cfg d1 Hlen Hd).
Qed.

Lemma asmFrags_backed_by_binFrags_witness :
  exists f_op fields ops,
    Decoder.binFrags (decoded RV.imports beq_word cfg32) = (fields ++ [f_op])%list /\
    Decoder.asmFrags (decoded RV.imports beq_word cfg32) = f_op :: ops /\
    Frag.bits f_op = fslice beq_word FIELDS.opcode /\
    Frag.asm f_op = Decoder.mne_val (Decoder.mne (decoded RV.imports beq_word cfg32)) /\
    Forall (fun f => In f fields \/ Frag.field f = "imm") ops.
Proof.
  apply (asmFrags_backed_by_binFrags RV.imports beq_word cfg32).
  - reflexivity.
  - vm_compute. reflexivity.
Defined.

Lemma dispatch_mem_flag I w cfg d1 :
  String.length w = 32%nat ->
  Decoder.dispatch I (start w cfg) = Ok d1 ->
  (In (fslice w FIELDS.opcode) mem_opcodes ->
   exists init f,
     Decoder.asmFrags d1 = (init ++ [f])%list /\
     Frag.mem f = true /\
     Frag.bits f = fslice w FIELDS.rs1 /\
     Frag.field f = FIELDS_name I FIELDS.rs1 /\
     Forall (fun g => Frag.mem g = false) init) /\
  (~ In (fslice w FIELDS.opcode) mem_opcodes ->
   Forall (fun g => Frag.mem g = false) (Decoder.asmFrags d1)) /\
  Forall (fun g => Frag.mem g = true -> In g (Decoder.asmFrags d1))
         (Decoder.binFrags d1).
Proof.
  intros Hlen Hd. dispatch_cases Hd.
  all: repeat match goal with
              | E : Decoder.is_case _ _ = false |- _ => clear E
              | E : Decoder.is_case _ _ = true |- _ =>
                  apply is_case_In in E; cbn [In Decoder.opcode start] in E
              end.
  all: unfold_handler Hd; run_handler Hd Hlen; step_handler Hd.
  all: injection Hd as <-; spell_out; split_pair_if.
  all: repeat match goal with
              | E : _ \/ _ |- _ => destruct E as [E|E]
              | E : False |- _ => destruct E
              end.
  all: match goal with
       | E : _ = fslice _ FIELDS.opcode |- _ => rewrite <- E in *; clear E
       end.
  all: split; [|split].
  all: lazymatch goal with
       | |- In ?o mem_opcodes -> exists init f, ?l = _ /\ _ =>
           first
             [ intros Hin; exfalso; revert Hin; unfold mem_opcodes; cbn [In];
               clear; intuition discriminate
             | intros _;
               exists (removelast l), (last l (Frag.new JUndefined "" "" false));
               cbn [removelast last app Frag.mem Frag.bits Frag.field];
               repeat (split; [reflexivity|]);
               repeat (apply Forall_cons; [reflexivity|]); apply Forall_nil ]
       | |- ~ In ?o mem_opcodes -> _ =>
           first
             [ intros _;
               repeat (apply Forall_cons; [reflexivity|]); apply Forall_nil
             | intros Hno; exfalso; apply Hno; unfold mem_opcodes; cbn [In];
               clear; tauto ]
       | |- Forall _ _ =>
           repeat (apply Forall_cons;
                   [cbn [Frag.mem]; intros Hm;
                    first [discriminate Hm | cbn [In]; tauto]|]);
           apply Forall_nil
       end.
Qed.

(** X9.  Which operand is written as a memory base.  When the opcode is
    LOAD, LOAD_FP, STORE, STORE_FP or AMO, the last assembly fragment of a
    successful decode is the rs1 fragment with the memory flag set, and no
    other assembly fragment has the flag; for every other opcode no assembly
    fragment has it.  A binary fragment with the flag is that same operand. *)
Theorem memory_base_operand I w cfg d :
  String.length w = 32%nat ->
  Decoder.constructor I w cfg = Ok d ->
  (In (fslice w FIELDS.opcode) mem_opcodes ->
   exists init f,
     Decoder.asmFrags d = (init ++ [f])%list /\
     Frag.mem f = true /\
     Frag.bits f = fslice w FIELDS.rs1 /\
     Frag.field f = FIELDS_name I FIELDS.rs1 /\
     Forall (fun g => Frag.mem g = false) init) /\
  (~ In (fslice w FIELDS.opcode) mem_opcodes ->
   Forall (fun g => Frag.mem g = false) (Decoder.asmFrags d)) /\
  Forall (fun g => Frag.mem g = true -> In g (Decoder.asmFrags d))
         (Decoder.binFrags d).
Proof.
  intros Hlen H.
  destruct (constructor_inv I w cfg Hlen d H) as (d1 & Hd & Hf).
  apply finish_inv in Hf as (-> & -> & _).
  exact (dispatch_mem_flag I w cfg d1 Hlen Hd).
Qed.

Lemma memory_base_operand_witness :
  (In (fslice lw_word FIELDS.opcode) mem_opcodes ->
   exists init f,
     Decoder.asmFrags (decoded RV.imports lw_word cfg32) = (init ++ [f])%list /\
     Frag.mem f = true /\
     Frag.bits f = fslice lw_word FIELDS.rs1 /\
     Frag.field f = FIELDS_name RV.imports FIELDS.rs1 /\
     Forall (fun g => Frag.mem g = false) init) /\
  (~ In (fslice lw_word FIELDS.opcode) mem_opcodes ->
   Forall (fun g => Frag.mem g = false)
          (Decoder.asmFrags (decoded RV.imports lw_word cfg32))) /\
  Forall (fun g => Frag.mem g = true ->
                   In g (Decoder.asmFrags (decoded RV.imports lw_word cfg32)))
         (Decoder.binFrags (decoded RV.imports lw_word cfg32)).
Proof.
  apply (memory_base_operand RV.imports lw_word cfg32).
  - reflexivity.
  - vm_compute. reflexivity.
Defined.

(** ** Format and ISA of the result *)




(** ** Offsets, and how the operands are written *)

Lemma twos_complement_shifted (a : string) :
  a <> "" -> twos_complement (a ++ "0") = 2 * twos_complement a.
Proof.
  intros Hne. unfold twos_complement.
  assert (Hn : 1 <= Z.of_nat (String.length a))
    by (destruct a; [congruence | cbn [String.length]; lia]).
  rewrite unsigned_app, app_length, Nat2Z.inj_add.
  change (unsigned "0") with 0. change (Z.of_nat (String.length "0")) with 1.
  change (2 ^ 1) with 2.
  replace (Z.of_nat (String.length a) + 1 - 1)
    with (Z.succ (Z.of_nat (String.length a) - 1)) by lia.
  rewrite Z.pow_succ_r by lia.
  replace (2 ^ (Z.of_nat (String.length a) + 1))
    with (2 * 2 ^ Z.of_nat (String.length a))
    by (rewrite Z.pow_add_r by lia; change (2 ^ 1) with 2; lia).
  destruct (2 ^ (Z.of_nat (String.length a) - 1) <=? unsigned a) eqn:E;
    [apply Z.leb_le in E | apply Z.leb_gt in E].
  - replace (2 * 2 ^ (Z.of_nat (String.length a) - 1)
             <=? unsigned a * 2 + 0) with true
      by (symmetry; apply Z.leb_le; lia).
    lia.
  - replace (2 * 2 ^ (Z.of_nat (String.length a) - 1)
             <=? unsigned a * 2 + 0) with false
      by (symmetry; apply Z.leb_gt; lia).
    lia.
Qed.

Section DispatchOn.
Variable I : Imports.
Variable d : Decoder.t.

Lemma dispatch_JALR :
  Decoder.opcode d = OPCODE.JALR -> Decoder.dispatch I d = Decoder.decodeJALR I d.
Proof. intros E. unfold Decoder.dispatch. rewrite E. reflexivity. Qed.

Lemma dispatch_LOAD :
  Decoder.opcode d = OPCODE.LOAD \/ Decoder.opcode d = OPCODE.LOAD_FP ->
  Decoder.dispatch I d = Decoder.decodeLOAD I d.
Proof. intros [E|E]; unfold Decoder.dispatch; rewrite E; reflexivity. Qed.

Lemma dispatch_STORE :
  Decoder.opcode d = OPCODE.STORE \/ Decoder.opcode d = OPCODE.STORE_FP ->
  Decoder.dispatch I d = Decoder.decodeSTORE I d.
Proof. intros [E|E]; unfold Decoder.dispatch; rewrite E; reflexivity. Qed.

Lemma dispatch_JAL :
  Decoder.opcode d = OPCODE.JAL -> Decoder.dispatch I d = Decoder.decodeJAL I d.
Proof. intros E. unfold Decoder.dispatch. rewrite E. reflexivity. Qed.

Lemma dispatch_AMO :
  Decoder.opcode d = OPCODE.AMO -> Decoder.dispatch I d = Decoder.decodeAMO I d.
Proof. intros E. unfold Decoder.dispatch. rewrite E. reflexivity. Qed.

Lemma dispatch_OP :
  Decoder.opcode d = OPCODE.OP \/ Decoder.opcode d = OPCODE.OP_32 ->
  Decoder.dispatch I d = Decoder.decodeOP I d.
Proof. intros [E|E]; unfold Decoder.dispatch; rewrite E; reflexivity. Qed.

Lemma dispatch_OP_FP :
  Decoder.opcode d = OPCODE.OP_FP -> Decoder.dispatch I d = Decoder.decodeOP_FP I d.
Proof. intros E. unfold Decoder.dispatch. rewrite E. reflexivity. Qed.

Lemma dispatch_R4 :
  In (Decoder.opcode d) [OPCODE.MADD; OPCODE.MSUB; OPCODE.NMADD; OPCODE.NMSUB] ->
  Decoder.dispatch I d = Decoder.decodeR4 I d.
Proof.
  intros [E|[E|[E|[E|[]]]]]; unfold Decoder.dispatch; rewrite <- E; reflexivity.
Qed.

End DispatchOn.

(** The text of a result, from what [renderAsm] was given. *)
Ltac read_text Hr Habi :=
  rewrite Habi in Hr; apply renderAsm_operands in Hr as ->;
  cbn [operands separator operand Frag.asm Frag.mem Frag.field andb
       toString num_toString];
  rewrite ?append_nil_r.

(** X11.  Loads.  For every LOAD or LOAD_FP word that decodes, the offset
    token is the 12-bit field imm[11:0] read as a two's-complement number,
    between -2048 and 2047; the operands are rd (an f register for LOAD_FP,
    an x register otherwise), the offset and the base x register, and with
    ABI naming off the text is [mne rd, offset(base)], the base following
    the offset directly because the offset's field name begins with imm
    (after a comma otherwise). *)
Theorem LOAD_offset_and_text I cfg w d :
  word32 w ->
  fslice w FIELDS.opcode = OPCODE.LOAD \/ fslice w FIELDS.opcode = OPCODE.LOAD_FP ->
  Decoder.constructor I w cfg = Ok d ->
  let off := twos_complement (fslice w FIELDS.i_imm_11_0) in
  let rd := (if (fslice w FIELDS.opcode =? OPCODE.LOAD_FP)%string then "f" else "x")
            ++ dec_string (unsigned (fslice w FIELDS.rd)) in
  let base := "x" ++ dec_string (unsigned (fslice w FIELDS.rs1)) in
  - 2048 <= off <= 2047 /\
  exists m,
    Decoder.mne d = Some m /\
    map Frag.asm (Decoder.asmFrags d)
    = [JString m; JString rd; JNumber (Num off); JString base] /\
    (ABI cfg = false ->
     Decoder.asm d =
       Some (trim (m ++ " " ++ rd ++ ", " ++ dec_string off ++
                   (if names_immediate (FIELDS_name I FIELDS.i_imm_11_0) then "" else ", ")
                   ++ "(" ++ base ++ ")"))).
Proof.
  intros Hw Hop H off rd base. pose proof Hw as [Hlen Hbin].
  assert (Hoff : decImm (fslice w FIELDS.i_imm_11_0) true = Num off).
  { apply decImm_signed.
    - apply fslice_is_bin, Hbin.
    - apply fslice_nonempty, Hlen.
    - rewrite fslice_length by exact Hlen. cbn. lia. }
  split.
  { pose proof (twos_complement_range (fslice w FIELDS.i_imm_11_0)
                  (fslice_is_bin w _ Hbin) (fslice_nonempty w Hlen _)) as R.
    rewrite fslice_length in R by exact Hlen. cbn in R. unfold off. lia. }
  destruct (constructor_inv I w cfg Hlen d H) as (d1 & Hd & Hf).
  destruct (dispatch_keeps I w cfg d1 Hlen Hd) as (Hc & _ & _).
  apply finish_inv in Hf as (_ & -> & -> & _ & inst & a & _ & _ & _ & Hr & ->).
  rewrite Hc in Hr.
  rewrite dispatch_LOAD in Hd by exact Hop.
  unfold Decoder.decodeLOAD in Hd. run_handler Hd Hlen. step_handler Hd.
  injection Hd as <-. spell_out. cbn [Decoder.mne Decoder.set_mne] in *.
  rewrite Hoff, !(decReg_field w _ _ Hw) in *.
  eexists. split; [reflexivity|]. split; [reflexivity|].
  intros Habi. read_text Hr Habi.
  destruct (names_immediate _); reflexivity.
Qed.

Lemma LOAD_offset_and_text_witness :
  Decoder.asm (decoded RV.imports lw_word cfg32) = Some "lw x5, -4(x2)" /\
  (- 2048 <= twos_complement (fslice lw_word FIELDS.i_imm_11_0) <= 2047 /\
   exists m,
     Decoder.mne (decoded RV.imports lw_word cfg32) = Some m /\
     map Frag.asm (Decoder.asmFrags (decoded RV.imports lw_word cfg32))
     = [JString m; JString "x5"; JNumber (Num (-4)); JString "x2"] /\
     (ABI cfg32 = false ->
      Decoder.asm (decoded RV.imports lw_word cfg32) =
        Some (trim (m ++ " " ++ "x5" ++ ", " ++ dec_string (-4) ++ "" ++
                    "(" ++ "x2" ++ ")")))).
Proof.
  split; [vm_compute; reflexivity|].
  apply (LOAD_offset_and_text RV.imports cfg32 lw_word).
  - split; reflexivity.
  - left; reflexivity.
  - vm_compute; reflexivity.
Defined.

(** X12.  Stores.  For every STORE or STORE_FP word that decodes, the offset
    token is the 12-bit text imm[11:5], imm[4:0] read as a two's-complement
    number, between -2048 and 2047; it is filed as one fragment named imm
    holding the twelve bits; and with ABI naming off the text is
    [mne rs2, offset(base)], rs2 being an f register for STORE_FP. *)
Theorem STORE_offset_and_text I cfg w d :
  word32 w ->
  fslice w FIELDS.opcode = OPCODE.STORE \/ fslice w FIELDS.opcode = OPCODE.STORE_FP ->
  Decoder.constructor I w cfg = Ok d ->
  let imm := fslice w FIELDS.s_imm_11_5 ++ fslice w FIELDS.s_imm_4_0 in
  let off := twos_complement imm in
  let src := (if (fslice w FIELDS.opcode =? OPCODE.STORE_FP)%string then "f" else "x")
             ++ dec_string (unsigned (fslice w FIELDS.rs2)) in
  let base := "x" ++ dec_string (unsigned (fslice w FIELDS.rs1)) in
  - 2048 <= off <= 2047 /\
  exists m f_op f_rs2 f_imm f_rs1,
    Decoder.mne d = Some m /\
    Decoder.asmFrags d = [f_op; f_rs2; f_imm; f_rs1] /\
    Frag.bits f_imm = imm /\ Frag.field f_imm = "imm" /\
    map Frag.asm (Decoder.asmFrags d)
    = [JString m; JString src; JNumber (Num off); JString base] /\
    (ABI cfg = false ->
     Decoder.asm d =
       Some (trim (m ++ " " ++ src ++ ", " ++ dec_string off ++
                   "(" ++ base ++ ")"))).
Proof.
  intros Hw Hop H imm off src base. pose proof Hw as [Hlen Hbin].
  assert (Hi : is_bin imm = true).
  { unfold imm. rewrite is_bin_app, !fslice_is_bin by exact Hbin. reflexivity. }
  assert (Hl : String.length imm = 12%nat).
  { unfold imm. rewrite app_length, !fslice_length by exact Hlen. reflexivity. }
  assert (Hoff : decImm imm true = Num off).
  { apply decImm_signed; [exact Hi | apply (length_nonempty _ 11), Hl |].
    rewrite Hl. lia. }
  split.
  { pose proof (twos_complement_range imm Hi (length_nonempty _ 11 Hl)) as R.
    rewrite Hl in R. cbn in R. unfold off. lia. }
  destruct (constructor_inv I w cfg Hlen d H) as (d1 & Hd & Hf).
  destruct (dispatch_keeps I w cfg d1 Hlen Hd) as (Hc & _ & _).
  apply finish_inv in Hf as (_ & -> & -> & _ & inst & a & _ & _ & _ & Hr & ->).
  rewrite Hc in Hr.
  rewrite dispatch_STORE in Hd by exact Hop.
  unfold Decoder.decodeSTORE in Hd. run_handler Hd Hlen. step_handler Hd.
  injection Hd as <-. spell_out. cbn [Decoder.mne Decoder.set_mne] in *.
  fold imm in Hr |- *.
  rewrite Hoff, !(decReg_field w _ _ Hw) in *.
  do 5 eexists. split; [reflexivity|]. split; [reflexivity|].
  cbn [Frag.bits Frag.field map Frag.asm].
  split; [reflexivity|]. split; [reflexivity|]. split; [reflexivity|].
  intros Habi. read_text Hr Habi. reflexivity.
Qed.

Lemma STORE_offset_and_text_witness :
  Decoder.asm (decoded RV.imports sw_word cfg32) = Some "sw x5, -4(x2)" /\
  (- 2048 <= twos_complement "111111111100" <= 2047 /\
   exists m f_op f_rs2 f_imm f_rs1,
     Decoder.mne (decoded RV.imports sw_word cfg32) = Some m /\
     Decoder.asmFrags (decoded RV.imports sw_word cfg32)
     = [f_op; f_rs2; f_imm; f_rs1] /\
     Frag.bits f_imm = "111111111100" /\ Frag.field f_imm = "imm" /\
     map Frag.asm (Decoder.asmFrags (decoded RV.imports sw_word cfg32))
     = [JString m; JString "x5"; JNumber (Num (-4)); JString "x2"] /\
     (ABI cfg32 = false ->
      Decoder.asm (decoded RV.imports sw_word cfg32) =
        Some (trim (m ++ " " ++ "x5" ++ ", " ++ dec_string (-4) ++
                    "(" ++ "x2" ++ ")")))).
Proof.
  split; [vm_compute; reflexivity|].
  apply (STORE_offset_and_text RV.imports cfg32 sw_word).
  - split; reflexivity.
  - left; reflexivity.
  - vm_compute; reflexivity.
Defined.

(** X13.  Jumps.  For every JAL word that decodes, the offset token is the
    21-bit text imm[20], imm[19:12], imm[11], imm[10:1] followed by a 0,
    read as a two's-complement number: an even number from -1048576 up to
    1048574; the four slices are kept as binary fragments, in the order of
    the word, and with ABI naming off the text is [jal rd, offset]. *)
Theorem JAL_offset_and_text I cfg w d :
  word32 w ->
  fslice w FIELDS.opcode = OPCODE.JAL ->
  Decoder.constructor I w cfg = Ok d ->
  let imm := fslice w FIELDS.j_imm_20 ++ fslice w FIELDS.j_imm_19_12 ++
             fslice w FIELDS.j_imm_11 ++ fslice w FIELDS.j_imm_10_1 ++ "0" in
  let off := twos_complement imm in
  let rd := "x" ++ dec_string (unsigned (fslice w FIELDS.rd)) in
  (- 1048576 <= off <= 1048574 /\ off mod 2 = 0) /\
  Decoder.mne d = Some "jal" /\
  map Frag.asm (Decoder.asmFrags d)
  = [JString "jal"; JString rd; JNumber (Num off)] /\
  map Frag.bits (Decoder.binFrags d)
  = [fslice w FIELDS.j_imm_20; fslice w FIELDS.j_imm_10_1;
     fslice w FIELDS.j_imm_11; fslice w FIELDS.j_imm_19_12;
     fslice w FIELDS.rd; OPCODE.JAL] /\
  (ABI cfg = false ->
   Decoder.asm d = Some (trim ("jal " ++ rd ++ ", " ++ dec_string off))).
Proof.
  intros Hw Hop H imm off rd. pose proof Hw as [Hlen Hbin].
  set (hi := fslice w FIELDS.j_imm_20 ++ fslice w FIELDS.j_imm_19_12 ++
             fslice w FIELDS.j_imm_11 ++ fslice w FIELDS.j_imm_10_1).
  assert (Eimm : imm = hi ++ "0").
  { unfold imm, hi. rewrite !append_assoc. reflexivity. }
  assert (Hh : is_bin hi = true).
  { unfold hi. rewrite !is_bin_app, !fslice_is_bin by exact Hbin. reflexivity. }
  assert (Hhl : String.length hi = 20%nat).
  { unfold hi. rewrite !app_length, !fslice_length by exact Hlen. reflexivity. }
  assert (Hi : is_bin imm = true).
  { rewrite Eimm, is_bin_app, Hh. reflexivity. }
  assert (Hl : String.length imm = 21%nat).
  { rewrite Eimm, app_length, Hhl. reflexivity. }
  assert (Hoff : decImm imm true = Num off).
  { apply decImm_signed; [exact Hi | apply (length_nonempty _ 20), Hl |].
    rewrite Hl. lia. }
  split.
  { pose proof (twos_complement_range hi Hh (length_nonempty _ 19 Hhl)) as R.
    rewrite Hhl in R. cbn in R. unfold off.
    rewrite Eimm, twos_complement_shifted by (apply (length_nonempty _ 19), Hhl).
    split; [lia|]. rewrite Z.mul_comm. apply Z.mod_mul. lia. }
  destruct (constructor_inv I w cfg Hlen d H) as (d1 & Hd & Hf).
  destruct (dispatch_keeps I w cfg d1 Hlen Hd) as (Hc & _ & _).
  apply finish_inv in Hf as (-> & -> & -> & _ & inst & a & _ & _ & _ & Hr & ->).
  rewrite Hc in Hr.
  rewrite dispatch_JAL in Hd by exact Hop.
  unfold Decoder.decodeJAL in Hd. run_handler Hd Hlen. step_handler Hd.
  injection Hd as <-. spell_out. cbn [Decoder.mne Decoder.set_mne] in *.
  fold imm in Hr |- *.
  rewrite Hoff, !(decReg_field w _ _ Hw) in *.
  split; [reflexivity|]. split; [reflexivity|].
  split; [cbn [map Frag.bits]; rewrite Hop; reflexivity|].
  intros Habi. read_text Hr Habi. reflexivity.
Qed.

Lemma JAL_offset_and_text_witness :
  Decoder.asm (decoded RV.imports jal_word cfg32) = Some "jal x1, -8" /\
  ((- 1048576 <= twos_complement "111111111111111111000" <= 1048574 /\
    twos_complement "111111111111111111000" mod 2 = 0) /\
   Decoder.mne (decoded RV.imports jal_word cfg32) = Some "jal" /\
   map Frag.asm (Decoder.asmFrags (decoded RV.imports jal_word cfg32))
   = [JString "jal"; JString "x1"; JNumber (Num (-8))] /\
   map Frag.bits (Decoder.binFrags (decoded RV.imports jal_word cfg32))
   = ["1"; "1111111100"; "1"; "11111111"; "00001"; OPCODE.JAL] /\
   (ABI cfg32 = false ->
    Decoder.asm (decoded RV.imports jal_word cfg32)
    = Some (trim ("jal " ++ "x1" ++ ", " ++ dec_string (-8))))).
Proof.
  split; [vm_compute; reflexivity|].
  apply (JAL_offset_and_text RV.imports cfg32 jal_word).
  - split; reflexivity.
  - reflexivity.
  - vm_compute; reflexivity.
Defined.


(** X14.  Register-immediate instructions.  For every JALR word, and every
    OP_IMM or OP_IMM_32 word that is not a shift, that decodes, the
    immediate token is the 12-bit field imm[11:0] read as a two's-complement
    number, between -2048 and 2047; the operands are the x registers rd and
    rs1 and the immediate, and with ABI naming off the text is
    [mne rd, rs1, immediate] (so JALR is not written with a memory base). *)
Theorem register_immediate_text I cfg w d :
  word32 w ->
  fslice w FIELDS.opcode = OPCODE.JALR \/
  (fslice w FIELDS.opcode = OPCODE.OP_IMM /\
   is_shift I (ISA_OP_IMM I) (fslice w FIELDS.funct3) = false) \/
  (fslice w FIELDS.opcode = OPCODE.OP_IMM_32 /\
   is_shift I (ISA_OP_IMM_32 I) (fslice w FIELDS.funct3) = false) ->
  Decoder.constructor I w cfg = Ok d ->
  let v := twos_complement (fslice w FIELDS.i_imm_11_0) in
  let rd := "x" ++ dec_string (unsigned (fslice w FIELDS.rd)) in
  let rs1 := "x" ++ dec_string (unsigned (fslice w FIELDS.rs1)) in
  - 2048 <= v <= 2047 /\
  exists m,
    Decoder.mne d = Some m /\
    (fslice w FIELDS.opcode = OPCODE.JALR -> m = "jalr") /\
    map Frag.asm (Decoder.asmFrags d)
    = [JString m; JString rd; JString rs1; JNumber (Num v)] /\
    (ABI cfg = false ->
     Decoder.asm d =
       Some (trim (m ++ " " ++ rd ++ ", " ++ rs1 ++ ", " ++ dec_string v))).
Proof.
  intros Hw Hop H v rd rs1. pose proof Hw as [Hlen Hbin].
  assert (Hv : decImm (fslice w FIELDS.i_imm_11_0) true = Num v).
  { apply decImm_signed.
    - apply fslice_is_bin, Hbin.
    - apply fslice_nonempty, Hlen.
    - rewrite fslice_length by exact Hlen. cbn. lia. }
  split.
  { pose proof (twos_complement_range (fslice w FIELDS.i_imm_11_0)
                  (fslice_is_bin w _ Hbin) (fslice_nonempty w Hlen _)) as R.
    rewrite fslice_length in R by exact Hlen. cbn in R. unfold v. lia. }
  destruct (constructor_inv I w cfg Hlen d H) as (d1 & Hd & Hf).
  destruct (dispatch_keeps I w cfg d1 Hlen Hd) as (Hc & _ & _).
  apply finish_inv in Hf as (_ & -> & -> & _ & inst & a & _ & _ & _ & Hr & ->).
  rewrite Hc in Hr.
  destruct Hop as [Hop|[[Hop Hs]|[Hop Hs]]].
  - rewrite dispatch_JALR in Hd by exact Hop.
    unfold Decoder.decodeJALR in Hd. run_handler Hd Hlen. step_handler Hd.
    injection Hd as <-. spell_out. cbn [Decoder.mne Decoder.set_mne] in *.
    rewrite Hv, !(decReg_field w _ _ Hw) in *.
    eexists. split; [reflexivity|]. split; [reflexivity|].
    split; [reflexivity|].
    intros Habi. read_text Hr Habi. reflexivity.
  - rewrite dispatch_OP_IMM in Hd by (left; exact Hop).
    open_OP_IMM Hd Hlen Hop Hs.
    step_handler Hd; try congruence.
    all: injection Hd as <-; spell_out; cbn [Decoder.mne Decoder.set_mne] in *.
    all: rewrite Hv, !(decReg_field w _ _ Hw) in *.
    all: eexists; (split; [reflexivity|]); (split; [rewrite Hop; discriminate|]).
    all: (split; [reflexivity|]).
    all: intros Habi; read_text Hr Habi; reflexivity.
  - rewrite dispatch_OP_IMM in Hd by (right; exact Hop).
    open_OP_IMM Hd Hlen Hop Hs.
    step_handler Hd; try congruence.
    all: injection Hd as <-; spell_out; cbn [Decoder.mne Decoder.set_mne] in *.
    all: rewrite Hv, !(decReg_field w _ _ Hw) in *.
    all: eexists; (split; [reflexivity|]); (split; [rewrite Hop; discriminate|]).
    all: (split; [reflexivity|]).
    all: intros Habi; read_text Hr Habi; reflexivity.
Qed.

Lemma register_immediate_text_witness :
  Decoder.asm (decoded RV.imports addi_word cfg32) = Some "addi x1, x2, -1" /\
  (- 2048 <= twos_complement (fslice addi_word FIELDS.i_imm_11_0) <= 2047 /\
   exists m,
     Decoder.mne (decoded RV.imports addi_word cfg32) = Some m /\
     (fslice addi_word FIELDS.opcode = OPCODE.JALR -> m = "jalr") /\
     map Frag.asm (Decoder.asmFrags (decoded RV.imports addi_word cfg32))
     = [JString m; JString "x1"; JString "x2"; JNumber (Num (-1))] /\
     (ABI cfg32 = false ->
      Decoder.asm (decoded RV.imports addi_word cfg32) =
        Some (trim (m ++ " " ++ "x1" ++ ", " ++ "x2" ++ ", " ++ dec_string (-1))))).
Proof.
  split; [vm_compute; reflexivity|].
  apply (register_immediate_text RV.imports cfg32 addi_word).
  - split; reflexivity.
  - right; left; split; reflexivity.
  - vm_compute; reflexivity.
Defined.

(** X15.  Atomics.  For every AMO word that decodes, the operands are the x
    registers rd, rs2 and the base rs1, except that [lr.w] and [lr.d] have no
    rs2 operand; the base is written in parentheses, after a comma unless the
    field name of the operand before it begins with imm.  With ABI naming off
    the text is [mne rd, rs2, (rs1)], and [mne rd, (rs1)] for lr. *)
Theorem AMO_operands_and_text I cfg w d :
  word32 w ->
  fslice w FIELDS.opcode = OPCODE.AMO ->
  Decoder.constructor I w cfg = Ok d ->
  let rd := "x" ++ dec_string (unsigned (fslice w FIELDS.rd)) in
  let rs1 := "x" ++ dec_string (unsigned (fslice w FIELDS.rs1)) in
  let rs2 := "x" ++ dec_string (unsigned (fslice w FIELDS.rs2)) in
  exists m,
    Decoder.mne d = Some m /\
    lookup (ISA_AMO I) (fslice w FIELDS.r_funct5 ++ fslice w FIELDS.funct3) = Some m /\
    if is_load_reserved (Some m)
    then map Frag.asm (Decoder.asmFrags d) = [JString m; JString rd; JString rs1] /\
         (ABI cfg = false ->
          Decoder.asm d =
            Some (trim (m ++ " " ++ rd ++
                        (if names_immediate (FIELDS_name I FIELDS.rd) then "" else ", ")
                        ++ "(" ++ rs1 ++ ")")))
    else map Frag.asm (Decoder.asmFrags d)
         = [JString m; JString rd; JString rs2; JString rs1] /\
         (ABI cfg = false ->
          Decoder.asm d =
            Some (trim (m ++ " " ++ rd ++ ", " ++ rs2 ++
                        (if names_immediate (FIELDS_name I FIELDS.rs2) then "" else ", ")
                        ++ "(" ++ rs1 ++ ")"))).
Proof.
  intros Hw Hop H rd rs1 rs2. pose proof Hw as [Hlen Hbin].
  destruct (constructor_inv I w cfg Hlen d H) as (d1 & Hd & Hf).
  destruct (dispatch_keeps I w cfg d1 Hlen Hd) as (Hc & _ & _).
  apply finish_inv in Hf as (_ & -> & -> & _ & inst & a & _ & _ & _ & Hr & ->).
  rewrite Hc in Hr.
  rewrite dispatch_AMO in Hd by exact Hop.
  unfold Decoder.decodeAMO in Hd. run_handler Hd Hlen.
  destruct (lookup (ISA_AMO I) _) as [m|] eqn:EL; [|discriminate Hd].
  exists m. change (is_load_reserved (Some m)) with (test_lr m).
  destruct (test_lr m) eqn:Elr.
  all: cbn [negb] in Hd; injection Hd as <-; spell_out.
  all: cbn [Decoder.mne Decoder.set_mne] in *.
  all: rewrite !(decReg_field w _ _ Hw) in *.
  all: split; [reflexivity|]; split; [reflexivity|]; split; [reflexivity|].
  all: intros Habi; read_text Hr Habi.
  all: destruct (names_immediate _); reflexivity.
Qed.

Lemma AMO_operands_and_text_witness :
  Decoder.asm (decoded RV.imports amoadd_w_word cfg32) = Some "amoadd.w x5, x6, (x7)" /\
  exists m,
    Decoder.mne (decoded RV.imports amoadd_w_word cfg32) = Some m /\
    lookup (ISA_AMO RV.imports)
      (fslice amoadd_w_word FIELDS.r_funct5 ++ fslice amoadd_w_word FIELDS.funct3)
    = Some m /\
    if is_load_reserved (Some m)
    then map Frag.asm (Decoder.asmFrags (decoded RV.imports amoadd_w_word cfg32))
         = [JString m; JString "x5"; JString "x7"] /\
         (ABI cfg32 = false ->
          Decoder.asm (decoded RV.imports amoadd_w_word cfg32) =
            Some (trim (m ++ " " ++ "x5" ++
                        (if names_immediate (FIELDS_name RV.imports FIELDS.rd) then "" else ", ")
                        ++ "(" ++ "x7" ++ ")")))
    else map Frag.asm (Decoder.asmFrags (decoded RV.imports amoadd_w_word cfg32))
         = [JString m; JString "x5"; JString "x6"; JString "x7"] /\
         (ABI cfg32 = false ->
          Decoder.asm (decoded RV.imports amoadd_w_word cfg32) =
            Some (trim (m ++ " " ++ "x5" ++ ", " ++ "x6" ++
                        (if names_immediate (FIELDS_name RV.imports FIELDS.rs2) then "" else ", ")
                        ++ "(" ++ "x7" ++ ")"))).
Proof.
  split; [vm_compute; reflexivity|].
  apply (AMO_operands_and_text RV.imports cfg32 amoadd_w_word).
  - split; reflexivity.
  - reflexivity.
  - vm_compute; reflexivity.
Defined.

(** ** Register operands *)

(** X16.  Register-register instructions.  For every OP or OP_32 word that
    decodes, the mnemonic is the entry of the opcode's table at funct7
    followed by funct3, the operands are the x registers rd, rs1 and rs2, and
    with ABI naming off the text is [mne rd, rs1, rs2]. *)
Theorem OP_operands_and_text I cfg w d :
  word32 w ->
  fslice w FIELDS.opcode = OPCODE.OP \/ fslice w FIELDS.opcode = OPCODE.OP_32 ->
  Decoder.constructor I w cfg = Ok d ->
  let rd := "x" ++ dec_string (unsigned (fslice w FIELDS.rd)) in
  let rs1 := "x" ++ dec_string (unsigned (fslice w FIELDS.rs1)) in
  let rs2 := "x" ++ dec_string (unsigned (fslice w FIELDS.rs2)) in
  exists m,
    Decoder.mne d = Some m /\
    lookup (if (fslice w FIELDS.opcode =? OPCODE.OP_32)%string
            then ISA_OP_32 I else ISA_OP I)
           (fslice w FIELDS.r_funct7 ++ fslice w FIELDS.funct3) = Some m /\
    map Frag.asm (Decoder.asmFrags d)
    = [JString m; JString rd; JString rs1; JString rs2] /\
    (ABI cfg = false ->
     Decoder.asm d = Some (trim (m ++ " " ++ rd ++ ", " ++ rs1 ++ ", " ++ rs2))).
Proof.
  intros Hw Hop H rd rs1 rs2. pose proof Hw as [Hlen Hbin].
  destruct (constructor_inv I w cfg Hlen d H) as (d1 & Hd & Hf).
  destruct (dispatch_keeps I w cfg d1 Hlen Hd) as (Hc & _ & _).
  apply finish_inv in Hf as (_ & -> & -> & _ & inst & a & _ & _ & _ & Hr & ->).
  rewrite Hc in Hr.
  rewrite dispatch_OP in Hd by exact Hop.
  unfold Decoder.decodeOP in Hd. run_handler Hd Hlen.
  cbn [Decoder.opcode start] in Hd.
  assert (EL : (if (fslice w FIELDS.opcode =? OPCODE.OP_32)%string
                then lookup (ISA_OP_32 I)
                       (fslice w FIELDS.r_funct7 ++ fslice w FIELDS.funct3)
                else lookup (ISA_OP I)
                       (fslice w FIELDS.r_funct7 ++ fslice w FIELDS.funct3))
               = lookup (if (fslice w FIELDS.opcode =? OPCODE.OP_32)%string
                         then ISA_OP_32 I else ISA_OP I)
                        (fslice w FIELDS.r_funct7 ++ fslice w FIELDS.funct3))
    by (destruct (_ =? _)%string; reflexivity).
  rewrite EL in Hd. clear EL.
  destruct (lookup _ _) as [m|] eqn:EL; [|discriminate Hd].
  injection Hd as <-. spell_out. cbn [Decoder.mne Decoder.set_mne] in *.
  rewrite !(decReg_field w _ _ Hw) in *.
  exists m. split; [reflexivity|]. split; [reflexivity|]. split; [reflexivity|].
  intros Habi. read_text Hr Habi. reflexivity.
Qed.

Lemma OP_operands_and_text_witness :
  Decoder.asm (decoded RV.imports add_word cfg32) = Some "add x1, x2, x3" /\
  exists m,
    Decoder.mne (decoded RV.imports add_word cfg32) = Some m /\
    lookup (if (fslice add_word FIELDS.opcode =? OPCODE.OP_32)%string
            then ISA_OP_32 RV.imports else ISA_OP RV.imports)
           (fslice add_word FIELDS.r_funct7 ++ fslice add_word FIELDS.funct3) = Some m /\
    map Frag.asm (Decoder.asmFrags (decoded RV.imports add_word cfg32))
    = [JString m; JString "x1"; JString "x2"; JString "x3"] /\
    (ABI cfg32 = false ->
     Decoder.asm (decoded RV.imports add_word cfg32)
     = Some (trim (m ++ " " ++ "x1" ++ ", " ++ "x2" ++ ", " ++ "x3"))).
Proof.
  split; [vm_compute; reflexivity|].
  apply (OP_operands_and_text RV.imports cfg32 add_word).
  - split; reflexivity.
  - left; reflexivity.
  - vm_compute; reflexivity.
Defined.

(** X17.  Fused multiply-add.  For every MADD, MSUB, NMADD or NMSUB word that
    decodes, the mnemonic is the entry of the opcode's table at the fmt
    field, the operands are four f registers, rd, rs1, rs2 and rs3 (bits
    31 to 27), and with ABI naming off the text is [mne rd, rs1, rs2, rs3]. *)
Theorem R4_operands_and_text I cfg w d :
  word32 w ->
  In (fslice w FIELDS.opcode) [OPCODE.MADD; OPCODE.MSUB; OPCODE.NMADD; OPCODE.NMSUB] ->
  Decoder.constructor I w cfg = Ok d ->
  let op := fslice w FIELDS.opcode in
  let rd := "f" ++ dec_string (unsigned (fslice w FIELDS.rd)) in
  let rs1 := "f" ++ dec_string (unsigned (fslice w FIELDS.rs1)) in
  let rs2 := "f" ++ dec_string (unsigned (fslice w FIELDS.rs2)) in
  let rs3 := "f" ++ dec_string (unsigned (slice w 31 5)) in
  exists m,
    Decoder.mne d = Some m /\
    lookup (if (op =? OPCODE.MADD)%string then ISA_MADD I
            else if (op =? OPCODE.MSUB)%string then ISA_MSUB I
            else if (op =? OPCODE.NMADD)%string then ISA_NMADD I
            else ISA_NMSUB I)
           (fslice w FIELDS.r_fp_fmt) = Some m /\
    map Frag.asm (Decoder.asmFrags d)
    = [JString m; JString rd; JString rs1; JString rs2; JString rs3] /\
    (ABI cfg = false ->
     Decoder.asm d =
       Some (trim (m ++ " " ++ rd ++ ", " ++ rs1 ++ ", " ++ rs2 ++ ", " ++ rs3))).
Proof.
  intros Hw Hop H op rd rs1 rs2 rs3. pose proof Hw as [Hlen Hbin].
  destruct (constructor_inv I w cfg Hlen d H) as (d1 & Hd & Hf).
  destruct (dispatch_keeps I w cfg d1 Hlen Hd) as (Hc & _ & _).
  apply finish_inv in Hf as (_ & -> & -> & _ & inst & a & _ & _ & _ & Hr & ->).
  rewrite Hc in Hr.
  rewrite dispatch_R4 in Hd by exact Hop.
  unfold Decoder.decodeR4 in Hd. run_handler Hd Hlen.
  cbn [Decoder.opcode start] in Hd. fold op in Hd.
  assert (E4 : (op =? OPCODE.NMSUB)%string = true
               \/ (op =? OPCODE.MADD)%string = true
               \/ (op =? OPCODE.MSUB)%string = true
               \/ (op =? OPCODE.NMADD)%string = true).
  { destruct Hop as [E|[E|[E|[E|[]]]]]; fold op in E; rewrite <- E; cbn; auto. }
  assert (EL : forall (o : option string),
             (if (op =? OPCODE.MADD)%string
              then lookup (ISA_MADD I) (fslice w FIELDS.r_fp_fmt)
              else if (op =? OPCODE.MSUB)%string
                   then lookup (ISA_MSUB I) (fslice w FIELDS.r_fp_fmt)
                   else if (op =? OPCODE.NMADD)%string
                        then lookup (ISA_NMADD I) (fslice w FIELDS.r_fp_fmt)
                        else if (op =? OPCODE.NMSUB)%string
                             then lookup (ISA_NMSUB I) (fslice w FIELDS.r_fp_fmt)
                             else o)
             = lookup (if (op =? OPCODE.MADD)%string then ISA_MADD I
                       else if (op =? OPCODE.MSUB)%string then ISA_MSUB I
                       else if (op =? OPCODE.NMADD)%string then ISA_NMADD I
                       else ISA_NMSUB I)
                      (fslice w FIELDS.r_fp_fmt)).
  { intros o. destruct (op =? OPCODE.MADD)%string; [reflexivity|].
    destruct (op =? OPCODE.MSUB)%string; [reflexivity|].
    destruct (op =? OPCODE.NMADD)%string; [reflexivity|].
    destruct (op =? OPCODE.NMSUB)%string; [reflexivity|].
    destruct E4 as [E|[E|[E|E]]]; discriminate E. }
  rewrite EL in Hd. clear EL.
  destruct (lookup _ _) as [m|] eqn:EL; [|discriminate Hd].
  injection Hd as <-. spell_out. cbn [Decoder.mne Decoder.set_mne] in *.
  rewrite !(decReg_field w _ _ Hw) in *.
  exists m. split; [reflexivity|]. split; [reflexivity|]. split; [reflexivity|].
  intros Habi. read_text Hr Habi. reflexivity.
Qed.

Lemma R4_operands_and_text_witness :
  Decoder.asm (decoded RV.imports fmadd_word cfg32) = Some "fmadd.s f0, f1, f1, f3" /\
  exists m,
    Decoder.mne (decoded RV.imports fmadd_word cfg32) = Some m /\
    lookup (if (fslice fmadd_word FIELDS.opcode =? OPCODE.MADD)%string
            then ISA_MADD RV.imports
            else if (fslice fmadd_word FIELDS.opcode =? OPCODE.MSUB)%string
                 then ISA_MSUB RV.imports
                 else if (fslice fmadd_word FIELDS.opcode =? OPCODE.NMADD)%string
                      then ISA_NMADD RV.imports
                      else ISA_NMSUB RV.imports)
           (fslice fmadd_word FIELDS.r_fp_fmt) = Some m /\
    map Frag.asm (Decoder.asmFrags (decoded RV.imports fmadd_word cfg32))
    = [JString m; JString "f0"; JString "f1"; JString "f1"; JString "f3"] /\
    (ABI cfg32 = false ->
     Decoder.asm (decoded RV.imports fmadd_word cfg32) =
       Some (trim (m ++ " " ++ "f0" ++ ", " ++ "f1" ++ ", " ++ "f1" ++ ", " ++ "f3"))).
Proof.
  split; [vm_compute; reflexivity|].
  apply (R4_operands_and_text RV.imports cfg32 fmadd_word).
  - split; reflexivity.
  - left; reflexivity.
  - vm_compute; reflexivity.
Defined.

(** X18.  Floating-point operations.  For every OP_FP word that decodes, rs2
    is an operand exactly when the ISA record of the mnemonic fixes no rs2
    value, and it is an f register; rd and rs1 are f registers unless bit 31
    of the word is 1: then rd is an x register when bit 28 is 0 (conversions
    to integer, moves and classifications, comparisons) and rs1 is an x
    register when bit 28 is 1 (conversions from integer).  The binary
    fragment of funct3 is filed as the rounding mode rm when the record
    fixes no funct3 value. *)
Theorem OP_FP_register_files I cfg w d :
  word32 w ->
  fslice w FIELDS.opcode = OPCODE.OP_FP ->
  Decoder.constructor I w cfg = Ok d ->
  let int_rd := bit_set w 31 && negb (bit_set w 28) in
  let int_rs1 := bit_set w 31 && bit_set w 28 in
  let rd := (if int_rd then "x" else "f")
            ++ dec_string (unsigned (fslice w FIELDS.rd)) in
  let rs1 := (if int_rs1 then "x" else "f")
             ++ dec_string (unsigned (fslice w FIELDS.rs1)) in
  let rs2 := "f" ++ dec_string (unsigned (fslice w FIELDS.rs2)) in
  exists m inst,
    Decoder.mne d = Some m /\
    lookup (ISA I) m = Some inst /\
    map Frag.asm (Decoder.asmFrags d)
    = ([JString m; JString rd; JString rs1]
       ++ match i_rs2 inst with None => [JString rs2] | Some _ => [] end)%list /\
    map Frag.field (Decoder.binFrags d)
    = [FIELDS_name I FIELDS.r_funct5; FIELDS_name I FIELDS.r_fp_fmt;
       FIELDS_name I FIELDS.rs2; FIELDS_name I FIELDS.rs1;
       match i_funct3 inst with None => "rm" | Some _ => FIELDS_name I FIELDS.funct3 end;
       FIELDS_name I FIELDS.rd; FIELDS_name I FIELDS.opcode].
Proof.
  intros Hw Hop H int_rd int_rs1 rd rs1 rs2. pose proof Hw as [Hlen Hbin].
  destruct (constructor_inv I w cfg Hlen d H) as (d1 & Hd & Hf).
  apply finish_inv in Hf as (-> & -> & -> & _).
  rewrite dispatch_OP_FP in Hd by exact Hop.
  unfold Decoder.decodeOP_FP in Hd. run_handler Hd Hlen.
  destruct (funct5_bits w Hlen) as [E0 E3].
  rewrite E0, E3 in Hd. clear E0 E3.
  unfold rd, rs1, rs2, int_rd, int_rs1.
  destruct (bit_set w 31), (bit_set w 28).
  all: cbn [andb negb] in *.
  all: destruct (lookup (ISA_OP_FP I) _) as [byFmt|]; try discriminate Hd.
  all: step_handler Hd.
  all: injection Hd as <-; spell_out; cbn [Decoder.mne Decoder.set_mne] in *.
  all: rewrite ?(decReg_field w _ _ Hw) in *.
  all: do 2 eexists; (split; [reflexivity|]); (split; [eassumption|]).
  all: repeat match goal with
              | E : match ?x with _ => _ end = _ |- _ =>
                  destruct x; try discriminate E; clear E
              end.
  all: split; reflexivity.
Qed.

Lemma OP_FP_register_files_witness :
  Decoder.asm (decoded RV.imports fcvt_w_s_word cfg32) = Some "fcvt.w.s x1, f2" /\
  exists m inst,
    Decoder.mne (decoded RV.imports fcvt_w_s_word cfg32) = Some m /\
    lookup (ISA RV.imports) m = Some inst /\
    map Frag.asm (Decoder.asmFrags (decoded RV.imports fcvt_w_s_word cfg32))
    = ([JString m; JString "x1"; JString "f2"]
       ++ match i_rs2 inst with None => [JString "f0"] | Some _ => [] end)%list /\
    map Frag.field (Decoder.binFrags (decoded RV.imports fcvt_w_s_word cfg32))
    = [FIELDS_name RV.imports FIELDS.r_funct5; FIELDS_name RV.imports FIELDS.r_fp_fmt;
       FIELDS_name RV.imports FIELDS.rs2; FIELDS_name RV.imports FIELDS.rs1;
       match i_funct3 inst with
       | None => "rm"
       | Some _ => FIELDS_name RV.imports FIELDS.funct3
       end;
       FIELDS_name RV.imports FIELDS.rd; FIELDS_name RV.imports FIELDS.opcode].
Proof.
  split; [vm_compute; reflexivity|].
  apply (OP_FP_register_files RV.imports cfg32 fcvt_w_s_word).
  - split; reflexivity.
  - reflexivity.
  - vm_compute; reflexivity.
Defined.

(** ** The immediate and fence-mask primitives on any text *)




Lemma access_letter_nonempty (i : nat) :
  (1 <= String.length (nth i access "undefined"))%nat.
Proof. do 4 (destruct i as [|i]; [cbn; lia|]). destruct i; cbn; lia. Qed.

Lemma decMem_loop_grows (bits : string) : forall i out,
  (String.length out <= String.length (decMem_loop bits i out))%nat /\
  (has_set_bit bits = true ->
   (String.length out < String.length (decMem_loop bits i out))%nat) /\
  (has_set_bit bits = false -> decMem_loop bits i out = out).
Proof.
  induction bits as [|c bits IH]; intros i out; cbn [decMem_loop has_set_bit].
  - split; [lia|]. split; [discriminate|reflexivity].
  - destruct (c =? "1")%char; cbn [orb].
    + destruct (IH (S i) (out ++ nth i access "undefined")) as (L & _ & _).
      rewrite app_length in L. pose proof (access_letter_nonempty i).
      split; [lia|]. split; [intros _; lia|discriminate].
    + apply IH.
Qed.

(** X20.  [decMem] on any text: it fails, with the fence-mask error, exactly
    when no character of the text is a 1, however long the text is; when
    some character is a 1 the letters returned are not empty. *)
Theorem decMem_fails_iff_no_bit_set (bits : string) :
  (decMem bits = Throw InvalidFence <-> has_set_bit bits = false) /\
  (has_set_bit bits = true -> exists out, decMem bits = Ok out /\ out <> "").
Proof.
  destruct (decMem_loop_grows bits 0 "") as (_ & Hset & Hnone).
  assert (Hok : has_set_bit bits = true ->
                exists out, decMem bits = Ok out /\ out <> "").
  { intros T. specialize (Hset T). unfold decMem.
    destruct (decMem_loop bits 0 "") as [|c out] eqn:E; [cbn in Hset; lia|].
    cbn [String.eqb]. eexists. split; [reflexivity|discriminate]. }
  split; [split|exact Hok].
  - intros H. destruct (has_set_bit bits); [|reflexivity].
    destruct (Hok eq_refl) as (out & E & _). rewrite E in H. discriminate H.
  - intros F. unfold decMem. rewrite (Hnone F). reflexivity.
Qed.

(** ** What the configuration changes *)

(** The handlers read the configuration in one place only, the shift branch
    of [#decodeOP_IMM], and there only its ISA. *)
Lemma dispatch_with_config I c d :
  ISA_opt c = ISA_opt (Decoder.config d) \/
  Decoder.opcode d <> OPCODE.OP_IMM ->
  Decoder.dispatch I (with_config c d)
  = map_result (with_config c) (Decoder.dispatch I d).
Proof.
  intros Hc.
  unfold Decoder.dispatch. cbn [Decoder.opcode with_config].
  repeat match goal with
         | |- context [if Decoder.is_case ?o ?l then _ else _] =>
             destruct (Decoder.is_case o l) eqn:?
         end.
  all: try reflexivity.
  all: unfold Decoder.decodeOP, Decoder.decodeOP_FP, Decoder.decodeAMO,
    Decoder.decodeJALR, Decoder.decodeLOAD, Decoder.decodeOP_IMM,
    Decoder.decodeMISC_MEM, Decoder.decodeSYSTEM, Decoder.decodeSTORE,
    Decoder.decodeBRANCH, Decoder.decodeUType, Decoder.decodeJAL,
    Decoder.decodeR4, Decoder.shamt_64.
  all: cbn [Decoder.bin Decoder.config Decoder.opcode Decoder.set_mne with_config].
  6: { destruct (Decoder.opcode d =? OPCODE.OP_IMM_32)%string eqn:E32.
       - cbn [negb andb]. follow_both with_config.
       - assert (Ec : ISA_opt c = ISA_opt (Decoder.config d)).
         { destruct Hc as [Hc|Hc]; [exact Hc|]. exfalso. apply Hc.
           match goal with
           | E : Decoder.is_case _ [OPCODE.OP_IMM; OPCODE.OP_IMM_32] = true |- _ =>
               apply is_case_In in E as [E|[E|[]]]; [symmetry; exact E|];
               rewrite <- E in E32; discriminate E32
           end. }
         rewrite Ec. follow_both with_config. }
  all: follow_both with_config.
Qed.

Lemma dispatch_config I d d1 :
  Decoder.dispatch I d = Ok d1 -> Decoder.config d1 = Decoder.config d.
Proof.
  intros H.
  pose proof (dispatch_with_config I (Decoder.config d) d (or_introl eq_refl)) as F.
  replace (with_config (Decoder.config d) d) with d in F by (destruct d; reflexivity).
  rewrite H in F. cbn in F. injection F as F. rewrite F. reflexivity.
Qed.

Lemma renderAsm_abi conv fs a b :
  match renderAsm conv fs a, renderAsm conv fs b with
  | Ok _, Ok _ => True
  | Throw e, Throw e' => e = e'
  | _, _ => False
  end.
Proof.
  unfold renderAsm. destruct fs as [|f0 rest]; [reflexivity|].
  destruct rest; destruct (Frag.asm f0); exact eq_refl || exact Logic.I.
Qed.

Lemma finish_with_config I c d :
  ISA_opt c = ISA_opt (Decoder.config d) ->
  match Decoder.finish I (with_config c d), Decoder.finish I d with
  | Ok r, Ok r' => same_but_text r r'
  | Throw e, Throw e' => e = e'
  | _, _ => False
  end.
Proof.
  intros Hc. unfold Decoder.finish.
  cbn [with_config Decoder.mne Decoder.isa Decoder.config Decoder.asmFrags
       Decoder.set_fmt Decoder.set_isa].
  destruct (lookup (ISA I) _); [|reflexivity].
  rewrite Hc.
  match goal with |- context [if ?t then _ else _] => destruct t end;
    [reflexivity|].
  pose proof (renderAsm_abi (convertRegToAbi I) (Decoder.asmFrags d) (ABI c)
                (ABI (Decoder.config d))) as R.
  destruct (renderAsm _ _ (ABI c)), (renderAsm _ _ (ABI (Decoder.config d)));
    cbn [bind]; try exact R.
  repeat split.
Qed.

(** X21.  The ABI option changes the text only.  Two configurations with the
    same ISA decode any input alike: both fail, with the same error, or both
    succeed, with the same binary and assembly fragments (the operand tokens
    keep their x and f register names), the same mnemonic, format and ISA. *)
Theorem ABI_changes_text_only I w c c' :
  ISA_opt c = ISA_opt c' ->
  match Decoder.constructor I w c, Decoder.constructor I w c' with
  | Ok d, Ok d' => same_but_text d d'
  | Throw e, Throw e' => e = e'
  | _, _ => False
  end.
Proof.
  intros Hc. unfold Decoder.constructor, Decoder.convertBinToAsm.
  cbn [Decoder.bin].
  destruct (getBits w (FIELDS.pos FIELDS.opcode)) as [op|e]; [|reflexivity].
  cbn [bind].
  set (d0 := Decoder.set_opcode (Decoder.mk None None None [] [] w c' None "") op).
  change (Decoder.set_opcode (Decoder.mk None None None [] [] w c None "") op)
    with (with_config c d0).
  rewrite dispatch_with_config by (left; exact Hc).
  destruct (Decoder.dispatch I d0) as [d1|e] eqn:Ed; [|reflexivity].
  cbn [map_result bind].
  apply finish_with_config.
  rewrite (dispatch_config I d0 d1 Ed). exact Hc.
Qed.

Lemma ABI_changes_text_only_witness :
  match Decoder.constructor RV.imports lw_word cfg32_abi,
        Decoder.constructor RV.imports lw_word cfg32 with
  | Ok d, Ok d' => same_but_text d d'
  | Throw e, Throw e' => e = e'
  | _, _ => False
  end.
Proof.
  apply (ABI_changes_text_only RV.imports lw_word cfg32_abi cfg32). reflexivity.
Defined.







(** ** No TypeError on closed tables *)

Lemma lookup_forallb {V} (P : V -> bool) (t : table V) (k : string) (v : V) :
  forallb (fun kv => P (snd kv)) t = true -> lookup t k = Some v -> P v = true.
Proof.
  induction t as [|[k' v'] t IH]; cbn [lookup forallb snd]; [discriminate|].
  intros H L. apply andb_prop in H as [Hv Ht].
  destruct (k' =? k)%string; [injection L as <-; exact Hv|].
  exact (IH Ht L).
Qed.

Lemma has_record_Some I m :
  has_record I m = true -> exists inst, lookup (ISA I) m = Some inst.
Proof. unfold has_record. destruct (lookup _ _); [eauto|discriminate]. Qed.

Lemma shtyp_is_bit (w : string) :
  word32 w -> fslice w FIELDS.i_shtyp = "0" \/ fslice w FIELDS.i_shtyp = "1".
Proof.
  intros [Hlen Hbin]. pose proof (fslice_is_bin w FIELDS.i_shtyp Hbin) as B.
  revert B. destruct_word w Hlen. cbn [fslice slice FIELDS.pos fst snd Z.to_nat].
  cbn. intros B. apply andb_prop in B as [B _].
  apply is_bit_cases in B as [->| ->]; auto.
Qed.

(** From the lookups made so far and the closure of the tables, the
    records that exist. *)
Ltac close_tables :=
  unfold all_recorded, entries_closed in *;
  repeat match goal with
         | H : _ && _ = true |- _ => apply andb_prop in H; destruct H
         | E : lookup ?t ?k = Some ?v,
           C : forallb (fun kv => ?P (snd kv)) ?t = true |- _ =>
             let N := fresh "N" in
             pose proof (lookup_forallb P t k v C E) as N; clear E;
             cbn [entry_closed] in N; unfold all_recorded in N
         end.

Ltac open_lookups H :=
  repeat match type of H with
         | context [if ?c then _ else _] => destruct c eqn:?
         | context [match ?x with _ => _ end] =>
             lazymatch x with
             | context [match _ with _ => _ end] => fail
             | _ => destruct x eqn:?
             end
         end.

Lemma dispatch_mne_recorded I w cfg :
  tables_closed I = true -> word32 w ->
  match Decoder.dispatch I (start w cfg) with
  | Ok d1 => exists m, Decoder.mne d1 = Some m /\ has_record I m = true
  | Throw e => e <> TypeError
  end.
Proof.
  intros HT Hw. pose proof Hw as [Hlen Hbin].
  unfold tables_closed in HT. cbn [forallb] in HT.
  repeat match goal with
         | H : _ && _ = true |- _ => apply andb_prop in H; destruct H
         end.
  destruct (Decoder.dispatch I (start w cfg)) as [d1|e] eqn:Hd.
  - dispatch_cases Hd.
    all: unfold_handler Hd; run_handler Hd Hlen; step_handler Hd.
    all: injection Hd as <-; spell_out; cbn [Decoder.mne Decoder.set_mne].
    all: repeat match goal with
                | E : _ = Some _ |- _ => progress open_lookups E
                | E : _ = Ok _ |- _ => progress open_lookups E
                end.
    all: try discriminate.
    all: repeat match goal with
                | E : Some _ = Some _ |- _ => injection E as E; subst
                | E : Ok _ = Ok _ |- _ => injection E as ? ?; subst
                end.
    all: close_tables.
    all: try (eexists; split; [reflexivity|]; assumption).
    all: destruct (shtyp_is_bit w Hw) as [E|E]; rewrite E.
    all: match goal with
         | K : has_key ?t ?k = true |- exists m, lookup ?t ?k = Some m /\ _ =>
             unfold has_key in K;
             destruct (lookup t k) as [m|] eqn:L; [|discriminate K];
             exists m; split; [reflexivity|]
         end.
    all: match goal with
         | L : lookup ?t ?k = Some ?m,
           C : forallb (fun kv => has_record ?I (snd kv)) ?t = true |- _ =>
             exact (lookup_forallb (has_record I) t k m C L)
         end.
  - unfold Decoder.dispatch in Hd.
    repeat match type of Hd with
           | (if ?c then _ else _) = _ => destruct c eqn:?
           end.
    all: unfold_handler Hd; try run_handler Hd Hlen; step_handler Hd.
    all: try discriminate Hd.
    all: injection Hd as <-; try discriminate.
    all: repeat match goal with
                | E : _ = Some _ |- _ => progress open_lookups E
                end.
    all: try discriminate.
    all: repeat match goal with
                | E : Some _ = Some _ |- _ => injection E as E; subst
                end.
    all: close_tables.
    all: exfalso.
    all: match goal with
         | N : has_record ?I ?m = true, L : lookup (ISA ?I) ?m = None |- _ =>
             unfold has_record in N; rewrite L in N; discriminate N
         end.
Qed.

Lemma renderAsm_total conv f0 rest abi m :
  Frag.asm f0 = JString m ->
  exists a, renderAsm conv (f0 :: rest) abi = Ok a.
Proof.
  intros E. unfold renderAsm. rewrite E. destruct rest; eauto.
Qed.

(** X23.  No TypeError on closed tables.  When every mnemonic the imported
    tables can yield, and each of slli, jalr, jal, lui and auipc, has a
    record in the ISA table, and the nested tables of the shifts have an
    entry for either shift type, the decoder never fails on a 32-bit word
    for reading a property of undefined: every failure is one of the errors
    it throws itself. *)
Theorem no_TypeError_on_closed_tables I w cfg :
  tables_closed I = true -> word32 w ->
  Decoder.constructor I w cfg <> Throw TypeError.
Proof.
  intros HT Hw E. pose proof Hw as [Hlen Hbin].
  pose proof (dispatch_mne_recorded I w cfg HT Hw) as HM.
  pose proof (constructor_cases I w cfg Hlen) as HC. rewrite E in HC.
  destruct HC as [Hd | (d1 & Hd & Hf)]; rewrite Hd in HM.
  - now apply HM.
  - destruct HM as (m & Hm & Hr).
    apply has_record_Some in Hr as (inst & Hr).
    destruct (dispatch_frags_backed I w cfg d1 Hlen Hd)
      as (f_op & fields & ops & _ & Ha & _ & Hop & _).
    rewrite Hm in Hop. cbn [Decoder.mne_val] in Hop.
    destruct (renderAsm_total (convertRegToAbi I) f_op ops
                (ABI (Decoder.config d1)) m Hop) as (a & Ha').
    unfold Decoder.finish in Hf. rewrite Hm in Hf.
    cbn [Decoder.mne_val toString] in Hf. rewrite Hr in Hf.
    cbn [Decoder.set_fmt Decoder.set_isa Decoder.asmFrags Decoder.config] in Hf.
    rewrite Ha, Ha' in Hf.
    match type of Hf with
    | (if ?c then _ else _) = _ => destruct c; discriminate Hf
    end.
Qed.

Lemma no_TypeError_on_closed_tables_witness :
  Decoder.constructor RV.imports slli40_word cfg32 <> Throw TypeError.
Proof.
  apply (no_TypeError_on_closed_tables RV.imports slli40_word cfg32).
  - vm_compute. reflexivity.
  - split; reflexivity.
Defined.
